(** * Labor hire platform: storage, routes and live channels

    A shallow embedding of the server of the labor hire platform and the
    properties of its job matching, application lifecycle, rating
    aggregation and messaging code: the two implementations of [IStorage]
    ([MemStorage] and [DatabaseStorage], the one [storage] is bound to),
    the handlers of [registerRoutes] in [server/routes.ts] with the order
    in which they are attached, the registry of live sockets, and the
    tables and insert schemas of [shared/schema.ts].

    Conventions of the embedding.
    - Row ids, user ids and timestamps ([Date.getTime()], milliseconds) are
      integers of [Z].
    - Text columns are [string]; a nullable column is an [option].
    - A JavaScript [Map] is an association list in insertion order
      ([JsMap]); a table of the relational store is the list of its rows,
      and a statement without [order by] returns rows in table order.
    - [User.rating] is kept in tenths: every write of the source stores
      [parseFloat(x.toFixed(1))], the number denoted by a decimal with one
      fractional digit.  The quotient behind it is the binary64 one.
    - One clock reading, [now], serves the [new Date()] calls of a request.
    - The relational engine is taken to accept every statement the storage
      layer issues; engine failures (connectivity, constraint violations)
      are outside the embedding, apart from a [NaN] id, which the engine
      rejects and the handler's [catch] turns into a 500. *)

From Stdlib Require Import ZArith List String Ascii Bool Lia Permutation Sorted.
From Stdlib Require Import QArith Qabs.
From Stdlib Require Import SpecFloat.
From stdpp Require Import base option gmap.
Import ListNotations.

Local Open Scope string_scope.
Local Open Scope list_scope.
Local Open Scope Z_scope.

(** ** JSON request bodies *)

Module Json.

(** The values a request body is inspected for.  [Other] stands for the
    values no schema of the server accepts in the fields modelled here
    (fractional numbers, arrays, nested objects). *)
Inductive value :=
| Null
| Bool (b : bool)
| Num (n : Z)
| Str (s : string)
| Other.

Definition object := list (string * value).

(** [obj[k]]; [None] is [undefined]. *)
Fixpoint get (k : string) (o : object) : option value :=
  match o with
  | [] => None
  | (k', v) :: o' => if String.eqb k k' then Some v else get k o'
  end.

(** [{...o, k: v}]: an existing key keeps its place. *)
Fixpoint set (k : string) (v : value) (o : object) : object :=
  match o with
  | [] => [(k, v)]
  | (k', v') :: o' =>
      if String.eqb k k' then (k, v) :: o' else (k', v') :: set k v o'
  end.

(** [const { k, ...rest } = o]: the rest. *)
Definition remove (k : string) (o : object) : object :=
  List.filter (fun kv => negb (String.eqb k (fst kv))) o.

(** [Object.keys(o)]. *)
Definition keys (o : object) : list string := List.map fst o.

(** JavaScript truthiness. *)
Definition truthy (v : option value) : bool :=
  match v with
  | None | Some Null => false
  | Some (Bool b) => b
  | Some (Num n) => negb (n =? 0)
  | Some (Str s) => negb (String.eqb s "")
  | Some Other => true
  end.

End Json.

(** ** Zod field checks used by the insert schemas *)

Module Zod.

(** A required integer field (the column bounds some versions of the
    schema generator add are not modelled). *)
Definition int (o : Json.object) (k : string) : option Z :=
  match Json.get k o with
  | Some (Json.Num n) => Some n
  | _ => None
  end.

(** A required string field. *)
Definition str (o : Json.object) (k : string) : option string :=
  match Json.get k o with
  | Some (Json.Str s) => Some s
  | _ => None
  end.

(** An optional, nullable integer field: the outer [None] is a failed
    check, the inner one an absent or null field. *)
Definition int_opt (o : Json.object) (k : string) : option (option Z) :=
  match Json.get k o with
  | None | Some Json.Null => Some None
  | Some (Json.Num n) => Some (Some n)
  | _ => None
  end.

(** An optional, nullable string field. *)
Definition str_opt (o : Json.object) (k : string) : option (option string) :=
  match Json.get k o with
  | None | Some Json.Null => Some None
  | Some (Json.Str s) => Some (Some s)
  | _ => None
  end.

(** An optional string field that may not be null. *)
Definition str_optional (o : Json.object) (k : string) : option (option string) :=
  match Json.get k o with
  | None => Some None
  | Some (Json.Str s) => Some (Some s)
  | _ => None
  end.

Definition is_digit (c : ascii) : bool :=
  let n := nat_of_ascii c in ((48 <=? n) && (n <=? 57))%nat.

(** One or more digits, then [Z], then the end. *)
Fixpoint fraction (s : string) (seen : bool) : bool :=
  match s with
  | String c s' =>
      if is_digit c then fraction s' true
      else seen && Ascii.eqb c "Z" && String.eqb s' EmptyString
  | EmptyString => false
  end.

(** [z.string().datetime()]: [YYYY-MM-DDThh:mm:ss], an optional fraction
    of a second, and [Z]. *)
Definition datetime (s : string) : bool :=
  match s with
  | String y1 (String y2 (String y3 (String y4 (String "-"
    (String m1 (String m2 (String "-" (String d1 (String d2 (String "T"
    (String h1 (String h2 (String ":" (String i1 (String i2 (String ":"
    (String s1 (String s2 rest)))))))))))))))))) =>
      List.forallb is_digit [y1; y2; y3; y4; m1; m2; d1; d2; h1; h2; i1; i2; s1; s2]
      && match rest with
         | String "Z" EmptyString => true
         | String "." frac => fraction frac false
         | _ => false
         end
  | _ => false
  end.

(** An optional field holding a datetime string. *)
Definition datetime_optional (o : Json.object) (k : string) : option (option string) :=
  match Json.get k o with
  | None => Some None
  | Some (Json.Str s) => if datetime s then Some (Some s) else None
  | _ => None
  end.

End Zod.

(** ** A JavaScript [Map] with number keys *)

Module JsMap.

Definition t (V : Type) := list (Z * V).

Definition empty {V} : t V := [].

Fixpoint get {V} (k : Z) (m : t V) : option V :=
  match m with
  | [] => None
  | (k', v) :: m' => if k =? k' then Some v else get k m'
  end.

(** [m.set(k, v)]: a present key keeps its position, a new one goes
    last. *)
Fixpoint set {V} (k : Z) (v : V) (m : t V) : t V :=
  match m with
  | [] => [(k, v)]
  | (k', v') :: m' =>
      if k =? k' then (k, v) :: m' else (k', v') :: set k v m'
  end.

(** [m.delete(k)]. *)
Definition delete {V} (k : Z) (m : t V) : t V :=
  List.filter (fun kv => negb (k =? fst kv)) m.

(** [Array.from(m.values())], in insertion order. *)
Definition values {V} (m : t V) : list V := List.map snd m.

End JsMap.

(** ** Arrays *)

Module JsArray.

Section Sort.
Context {A : Type} (compareFn : A -> A -> Z).

Fixpoint insert (x : A) (l : list A) : list A :=
  match l with
  | [] => [x]
  | y :: l' => if compareFn x y <=? 0 then x :: l else y :: insert x l'
  end.

(** [l.sort(compareFn)]: the stable sort of ECMAScript. *)
Definition sort (l : list A) : list A := List.fold_right insert [] l.
End Sort.

(** [l.includes(x)] on strings. *)
Definition includes (x : string) (l : list string) : bool :=
  List.existsb (String.eqb x) l.

(** [l.join(sep)]. *)
Definition join (sep : string) (l : list string) : string :=
  String.concat sep l.

End JsArray.

(** ** shared/schema.ts *)

Module UserType.
Definition WORKER := "worker".
Definition EMPLOYER := "employer".
Definition ADMIN := "admin".
End UserType.

Module JobStatus.
Definition OPEN := "open".
Definition IN_PROGRESS := "in_progress".
Definition COMPLETED := "completed".
Definition CANCELLED := "cancelled".
End JobStatus.

Module ApplicationStatus.
Definition PENDING := "pending".
Definition UNDER_REVIEW := "under_review".
Definition INTERVIEW := "interview".
Definition ACCEPTED := "accepted".
Definition REJECTED := "rejected".
End ApplicationStatus.

Module User.
Record t := mk {
  id : Z;
  username : string;
  fullName : string;
  userType : string;
  rating : Z  (* in tenths *)
}.

Definition with_rating (r : Z) (u : t) : t :=
  mk (id u) (username u) (fullName u) (userType u) r.

(** The rating as a number. *)
Definition rating_value (u : t) : Q := (rating u # 10)%Q.
End User.

Module WorkerProfile.
Record t := mk {
  id : Z;
  userId : Z;
  skills : option (list string);
  experience : option Z;
  hourlyRate : option Z
}.
End WorkerProfile.

Module Job.
Record t := mk {
  id : Z;
  employerId : Z;
  title : string;
  location : string;
  skills : option (list string);
  hourlyRate : option Z;
  jobType : string;
  status : string;
  createdAt : Z
}.
End Job.

Module InsertJob.
Record t := mk {
  employerId : Z;
  title : string;
  location : string;
  skills : option (list string);
  hourlyRate : option Z;
  jobType : string;
  status : option string
}.
End InsertJob.

Module InsertApplication.
Record t := mk {
  jobId : Z;
  workerId : Z;
  coverLetter : option string;
  resumeUrl : option string;
  availableToStart : option string;
  expectedRate : option Z;
  preferredHours : option string;
  referenceInfo : option string;
  status : option string
}.

Definition with_resumeUrl (r : string) (a : t) : t :=
  mk (jobId a) (workerId a) (coverLetter a) (Some r) (availableToStart a)
     (expectedRate a) (preferredHours a) (referenceInfo a) (status a).
End InsertApplication.

Module Application.
Record t := mk {
  id : Z;
  jobId : Z;
  workerId : Z;
  coverLetter : option string;
  resumeUrl : option string;
  availableToStart : option string;
  expectedRate : option Z;
  preferredHours : option string;
  referenceInfo : option string;
  status : string;
  appliedAt : Z;
  updatedAt : Z
}.

Definition int_column (o : Json.object) (k : string) (old : Z) : Z :=
  match Json.get k o with
  | Some (Json.Num n) => n
  | _ => old
  end.

Definition int_null_column (o : Json.object) (k : string) (old : option Z)
  : option Z :=
  match Json.get k o with
  | Some (Json.Num n) => Some n
  | Some Json.Null => None
  | _ => old
  end.

Definition text_column (o : Json.object) (k : string) (old : string) : string :=
  match Json.get k o with
  | Some (Json.Str s) => s
  | _ => old
  end.

Definition text_null_column (o : Json.object) (k : string) (old : option string)
  : option string :=
  match Json.get k o with
  | Some (Json.Str s) => Some s
  | Some Json.Null => None
  | _ => old
  end.

(** [set({...applicationData, updatedAt: now})] on a row: the columns
    named in the patch are overwritten.  Timestamp columns other than
    [updatedAt] cannot be written from a JSON body and stay. *)
Definition patch (applicationData : Json.object) (now : Z) (a : t) : t :=
  mk (int_column applicationData "id" (id a))
     (int_column applicationData "jobId" (jobId a))
     (int_column applicationData "workerId" (workerId a))
     (text_null_column applicationData "coverLetter" (coverLetter a))
     (text_null_column applicationData "resumeUrl" (resumeUrl a))
     (availableToStart a)
     (int_null_column applicationData "expectedRate" (expectedRate a))
     (text_null_column applicationData "preferredHours" (preferredHours a))
     (text_null_column applicationData "referenceInfo" (referenceInfo a))
     (text_column applicationData "status" (status a))
     (appliedAt a)
     now.
End Application.

Module InsertRating.
Record t := mk {
  fromUserId : Z;
  toUserId : Z;
  jobId : option Z;
  rating : Z;
  review : option string
}.
End InsertRating.

Module Rating.
Record t := mk {
  id : Z;
  fromUserId : Z;
  toUserId : Z;
  jobId : option Z;
  rating : Z;
  review : option string;
  createdAt : Z
}.
End Rating.

Module InsertMessage.
Record t := mk {
  fromUserId : Z;
  toUserId : Z;
  content : string
}.
End InsertMessage.

Module Message.
Record t := mk {
  id : Z;
  fromUserId : Z;
  toUserId : Z;
  content : string;
  isRead : bool;
  createdAt : Z
}.
End Message.

Module InsertNotification.
Record t := mk {
  userId : Z;
  title : string;
  content : string;
  type : string;
  relatedId : option Z
}.
End InsertNotification.

Module Notification.
Record t := mk {
  id : Z;
  userId : Z;
  title : string;
  content : string;
  type : string;
  isRead : bool;
  relatedId : option Z;
  createdAt : Z
}.
End Notification.

(** The insert schemas.  [z.object] drops the keys it does not know, so
    only the declared columns are read. *)

Definition insertApplicationSchema_parse (o : Json.object) : option InsertApplication.t :=
  match Zod.int o "jobId", Zod.int o "workerId",
        Zod.str_opt o "coverLetter", Zod.str_optional o "resumeUrl",
        Zod.datetime_optional o "availableToStart", Zod.int_opt o "expectedRate",
        Zod.str_opt o "preferredHours", Zod.str_opt o "referenceInfo",
        Zod.str_optional o "status" with
  | Some j, Some w, Some c, Some r, Some a, Some e, Some p, Some f, Some s =>
      Some (InsertApplication.mk j w c r a e p f s)
  | _, _, _, _, _, _, _, _, _ => None
  end.

Definition insertRatingSchema_parse (o : Json.object) : option InsertRating.t :=
  match Zod.int o "fromUserId", Zod.int o "toUserId", Zod.int_opt o "jobId",
        Zod.int o "rating", Zod.str_opt o "review" with
  | Some f, Some t, Some j, Some r, Some v => Some (InsertRating.mk f t j r v)
  | _, _, _, _, _ => None
  end.

Definition insertMessageSchema_parse (o : Json.object) : option InsertMessage.t :=
  match Zod.int o "fromUserId", Zod.int o "toUserId", Zod.str o "content" with
  | Some f, Some t, Some c => Some (InsertMessage.mk f t c)
  | _, _, _ => None
  end.

(** ** Numbers: the binary64 quotient and [toFixed(1)] *)

Module Number.

(** The integer nearest to [p / q], ties to even ([0 < q]). *)
Definition round_half_even (p q : Z) : Z :=
  let f := p / q in
  match 2 * (p mod q) ?= q with
  | Lt => f
  | Gt => f + 1
  | Eq => if Z.even f then f else f + 1
  end.

(** A finite binary64 value [mant / 2^scale]. *)
Record float := mk { mant : Z; scale : Z }.

(** [a / b] on two integer-valued numbers, [0 <= a < 2^53] and
    [0 < b < 2^53]: the quotient rounded to 53 significant bits, ties to
    even.  [scale] is chosen so that [2^52 <= a * 2^scale / b < 2^53]. *)
Definition div_pos (a b : Z) : float :=
  let s0 := 52 - (Z.log2 a - Z.log2 b) in
  let s := if b * 2 ^ 52 <=? a * 2 ^ s0 then s0 else s0 + 1 in
  mk (round_half_even (a * 2 ^ s) b) s.

(** [a / b] for [0 < b]; rounding is symmetric in the sign. *)
Definition div (a b : Z) : float :=
  let q := div_pos (Z.abs a) b in
  mk (Z.sgn a * mant q) (scale q).

(** [x.toFixed(1)], given by the tenths [n] of the decimal it prints:
    the integer [n] for which [n / 10 - |x|] is closest to zero, the
    larger one if there are two, with the sign of [x]. *)
Definition toFixed_1 (x : float) : Z :=
  Z.sgn (mant x) * ((20 * Z.abs (mant x) + 2 ^ scale x) / 2 ^ (scale x + 1)).

(** [parseFloat] of a decimal with one fractional digit, in tenths. *)
Definition parseFloat (tenths : Z) : Z := tenths.

(** The value as a binary64 datum of the Standard Library. *)
Definition to_spec (x : float) : spec_float :=
  binary_normalize 53 1024 (mant x) (- scale x) false.

Definition of_int (n : Z) : spec_float :=
  binary_normalize 53 1024 n 0 false.

End Number.

(** ** MemStorage *)

Module MemStorage.

Record t := mk {
  users : JsMap.t User.t;
  workerProfiles : JsMap.t WorkerProfile.t;
  jobs : JsMap.t Job.t;
  applications : JsMap.t Application.t;
  ratings : JsMap.t Rating.t;
  messages : JsMap.t Message.t;
  ratingIdCounter : Z;
  messageIdCounter : Z
}.

Definition empty : t := mk [] [] [] [] [] [] 1 1.

Definition set_users (v : JsMap.t User.t) (s : t) : t :=
  mk v (workerProfiles s) (jobs s) (applications s) (ratings s) (messages s)
     (ratingIdCounter s) (messageIdCounter s).

Definition set_jobs (v : JsMap.t Job.t) (s : t) : t :=
  mk (users s) (workerProfiles s) v (applications s) (ratings s) (messages s)
     (ratingIdCounter s) (messageIdCounter s).

Definition set_applications (v : JsMap.t Application.t) (s : t) : t :=
  mk (users s) (workerProfiles s) (jobs s) v (ratings s) (messages s)
     (ratingIdCounter s) (messageIdCounter s).

Definition getUser (s : t) (id : Z) : option User.t :=
  JsMap.get id (users s).

Definition getWorkerProfile (s : t) (userId : Z) : option WorkerProfile.t :=
  List.find (fun profile => WorkerProfile.userId profile =? userId)
            (JsMap.values (workerProfiles s)).

Definition getWorkerWithProfile (s : t) (userId : Z)
  : option (User.t * option WorkerProfile.t) :=
  match getUser s userId with
  | None => None
  | Some user =>
      if negb (String.eqb (User.userType user) UserType.WORKER) then None
      else Some (user, getWorkerProfile s userId)
  end.

Definition getAllJobs (s : t) : list Job.t := JsMap.values (jobs s).

Definition getMatchedJobsForWorker (s : t) (workerId : Z) : list Job.t :=
  match getWorkerWithProfile s workerId with
  | None | Some (_, None) => []
  | Some (_, Some profile) =>
      List.filter
        (fun job =>
           match Job.skills job, WorkerProfile.skills profile with
           | Some jobSkills, Some workerSkills =>
               List.existsb (fun skill => JsArray.includes skill workerSkills)
                            jobSkills
           | _, _ => false
           end)
        (getAllJobs s)
  end.

Definition getJobApplications (s : t) (jobId : Z) : list Application.t :=
  List.filter (fun app => Application.jobId app =? jobId)
              (JsMap.values (applications s)).

Definition deleteJob (s : t) (id : Z) : t :=
  let s1 := set_jobs (JsMap.delete id (jobs s)) s in
  let jobApplications := getJobApplications s1 id in
  List.fold_left
    (fun st application =>
       set_applications
         (JsMap.delete (Application.id application) (applications st)) st)
    jobApplications s1.

Definition createRating (s : t) (rating : InsertRating.t) (now : Z)
  : Rating.t * t :=
  let id := ratingIdCounter s in
  let newRating :=
    Rating.mk id (InsertRating.fromUserId rating) (InsertRating.toUserId rating)
              (InsertRating.jobId rating) (InsertRating.rating rating)
              (InsertRating.review rating) now in
  (newRating,
   mk (users s) (workerProfiles s) (jobs s) (applications s)
      (JsMap.set id newRating (ratings s)) (messages s)
      (id + 1) (messageIdCounter s)).

Definition getUserRatings (s : t) (userId : Z) : list Rating.t :=
  List.filter (fun rating => Rating.toUserId rating =? userId)
              (JsMap.values (ratings s)).

Definition updateUserRating (s : t) (userId : Z) : option User.t * t :=
  match JsMap.get userId (users s) with
  | None => (None, s)
  | Some user =>
      let userRatings := getUserRatings s userId in
      if (length userRatings =? 0)%nat then (Some user, s)
      else
        let totalRating :=
          List.fold_left (fun sum r => sum + Rating.rating r) userRatings 0 in
        let averageRating :=
          Number.div totalRating (Z.of_nat (length userRatings)) in
        let updatedUser :=
          User.with_rating (Number.parseFloat (Number.toFixed_1 averageRating))
                           user in
        (Some updatedUser, set_users (JsMap.set userId updatedUser (users s)) s)
  end.

Definition createMessage (s : t) (message : InsertMessage.t) (now : Z)
  : Message.t * t :=
  let id := messageIdCounter s in
  let newMessage :=
    Message.mk id (InsertMessage.fromUserId message)
               (InsertMessage.toUserId message)
               (InsertMessage.content message) false now in
  (newMessage,
   mk (users s) (workerProfiles s) (jobs s) (applications s) (ratings s)
      (JsMap.set id newMessage (messages s))
      (ratingIdCounter s) (id + 1)).

Definition getConversation (s : t) (user1Id user2Id : Z) : list Message.t :=
  JsArray.sort
    (fun a b => Message.createdAt a - Message.createdAt b)
    (List.filter
       (fun message =>
          (Message.fromUserId message =? user1Id) && (Message.toUserId message =? user2Id)
          || (Message.fromUserId message =? user2Id) && (Message.toUserId message =? user1Id))
       (JsMap.values (messages s))).

(** *** Further methods *)

Definition set_messages (v : JsMap.t Message.t) (s : t) : t :=
  mk (users s) (workerProfiles s) (jobs s) (applications s) (ratings s) v
     (ratingIdCounter s) (messageIdCounter s).

Definition getJob (s : t) (id : Z) : option Job.t := JsMap.get id (jobs s).

Definition getEmployerJobs (s : t) (employerId : Z) : list Job.t :=
  List.filter (fun job => Job.employerId job =? employerId) (JsMap.values (jobs s)).

Definition getApplication (s : t) (id : Z) : option Application.t :=
  JsMap.get id (applications s).

Definition getApplicationByJobAndWorker (s : t) (jobId workerId : Z)
  : option Application.t :=
  List.find
    (fun app => (Application.jobId app =? jobId) && (Application.workerId app =? workerId))
    (JsMap.values (applications s)).

Definition getWorkerApplications (s : t) (workerId : Z) : list Application.t :=
  List.filter (fun app => Application.workerId app =? workerId)
              (JsMap.values (applications s)).

Definition getEmployerApplications (s : t) (employerId : Z) : list Application.t :=
  let employerJobs := getEmployerJobs s employerId in
  let jobIds := List.map Job.id employerJobs in
  List.filter (fun app => List.existsb (Z.eqb (Application.jobId app)) jobIds)
              (JsMap.values (applications s)).

Definition getUserMessages (s : t) (userId : Z) : list Message.t :=
  List.filter
    (fun message =>
       (Message.toUserId message =? userId) || (Message.fromUserId message =? userId))
    (JsMap.values (messages s)).

Definition markMessageAsRead (s : t) (id : Z) : option Message.t * t :=
  match JsMap.get id (messages s) with
  | None => (None, s)
  | Some message =>
      let updatedMessage :=
        Message.mk (Message.id message) (Message.fromUserId message)
                   (Message.toUserId message) (Message.content message)
                   true (Message.createdAt message) in
      (Some updatedMessage, set_messages (JsMap.set id updatedMessage (messages s)) s)
  end.

End MemStorage.

(** ** The relational store *)

Module Sql.

Section Statements.
Context {A : Type}.

(** [select ... from t where p], rows in table order. *)
Definition select_where (p : A -> bool) (t : list A) : list A :=
  List.filter p t.

(** [... order by key desc]. *)
Definition order_by_desc (key : A -> Z) (rows : list A) : list A :=
  JsArray.sort (fun a b => key b - key a) rows.

(** [update t set ... where p].  The row keeps its place in the list; the
    engine is free to return an updated row elsewhere in a select that
    has no [order by]. *)
Definition update_where (p : A -> bool) (f : A -> A) (t : list A) : list A :=
  List.map (fun row => if p row then f row else row) t.

(** [delete from t where p]. *)
Definition delete_where (p : A -> bool) (t : list A) : list A :=
  List.filter (fun row => negb (p row)) t.

(** [insert into t values row]. *)
Definition insert (row : A) (t : list A) : list A := t ++ [row].
End Statements.

(** [a && b] on text arrays: the arrays share an element. *)
Definition overlap (a b : list string) : bool :=
  List.existsb (fun x => JsArray.includes x b) a.

(** The values of an [integer] column.  The engine refuses a statement
    that compares such a column with, or stores in it, a number outside
    this range, and the driver throws. *)
Definition int4 (n : Z) : bool :=
  (-2147483648 <=? n) && (n <=? 2147483647).

(** [sql`... ${values}::text[]`] with a JavaScript array for [values]:
    the query builder writes the array as a parenthesised list with one
    parameter for each element, [($1, ..., $n)::text[]].  The engine
    refuses [()] as a syntax error and a list of two or more as the cast
    of a row; [($1)::text[]] is one parameter of type [text[]], whose
    text the engine reads as an array literal.  [array_in] is that
    reading, [None] for a text that is no array literal; [None] here is
    the error thrown. *)
Section Engine.
Variable array_in : string -> option (list string).

Definition interpolated_text_array (values : list string) : option (list string) :=
  match values with
  | [value] => array_in value
  | _ => None
  end.
End Engine.

End Sql.

Module DatabaseStorage.

Record t := mk {
  users : list User.t;
  workerProfiles : list WorkerProfile.t;
  jobs : list Job.t;
  applications : list Application.t;
  ratings : list Rating.t;
  messages : list Message.t;
  notifications : list Notification.t;
  applications_id_seq : Z;
  ratings_id_seq : Z;
  messages_id_seq : Z;
  notifications_id_seq : Z
}.

Definition empty : t := mk [] [] [] [] [] [] [] 1 1 1 1.

Definition set_users (v : list User.t) (d : t) : t :=
  mk v (workerProfiles d) (jobs d) (applications d) (ratings d) (messages d)
     (notifications d) (applications_id_seq d) (ratings_id_seq d)
     (messages_id_seq d) (notifications_id_seq d).

Definition set_jobs (v : list Job.t) (d : t) : t :=
  mk (users d) (workerProfiles d) v (applications d) (ratings d) (messages d)
     (notifications d) (applications_id_seq d) (ratings_id_seq d)
     (messages_id_seq d) (notifications_id_seq d).

Definition set_applications (v : list Application.t) (d : t) : t :=
  mk (users d) (workerProfiles d) (jobs d) v (ratings d) (messages d)
     (notifications d) (applications_id_seq d) (ratings_id_seq d)
     (messages_id_seq d) (notifications_id_seq d).

Definition getUser (d : t) (id : Z) : option User.t :=
  List.head (Sql.select_where (fun u => User.id u =? id) (users d)).

Definition updateUser (d : t) (id : Z) (rating : Z) : option User.t * t :=
  let d' :=
    set_users (Sql.update_where (fun u => User.id u =? id)
                                (User.with_rating rating) (users d)) d in
  (List.head (Sql.select_where (fun u => User.id u =? id) (users d')), d').

Definition getUserRatings (d : t) (userId : Z) : list Rating.t :=
  Sql.select_where (fun r => Rating.toUserId r =? userId) (ratings d).

Definition updateUserRating (d : t) (userId : Z) : option User.t * t :=
  let ratings := getUserRatings d userId in
  if (length ratings =? 0)%nat then (getUser d userId, d)
  else
    let averageRating :=
      Number.div (List.fold_left (fun sum r => sum + Rating.rating r) ratings 0)
                 (Z.of_nat (length ratings)) in
    updateUser d userId (Number.parseFloat (Number.toFixed_1 averageRating)).

Definition getWorkerProfile (d : t) (userId : Z) : option WorkerProfile.t :=
  List.head (Sql.select_where (fun p => WorkerProfile.userId p =? userId)
                              (workerProfiles d)).

Definition getWorkerWithProfile (d : t) (userId : Z)
  : option (User.t * option WorkerProfile.t) :=
  match getUser d userId with
  | None => None
  | Some user =>
      if negb (String.eqb (User.userType user) UserType.WORKER) then None
      else Some (user, getWorkerProfile d userId)
  end.

Definition getJob (d : t) (id : Z) : option Job.t :=
  List.head (Sql.select_where (fun j => Job.id j =? id) (jobs d)).

Definition getAllJobs (d : t) : list Job.t := jobs d.

Definition getJobApplications (d : t) (jobId : Z) : list Application.t :=
  Sql.select_where (fun a => Application.jobId a =? jobId) (applications d).

(** [ratings.job_id] references [jobs.id]: the engine refuses to delete a
    job that a rating names. *)
Definition rated (d : t) (id : Z) : bool :=
  List.existsb
    (fun r => match Rating.jobId r with
              | Some jobId => jobId =? id
              | None => false
              end)
    (ratings d).

(** [deleteJob]: two statements, each on its own.  The second is refused
    for a rated job and the driver throws; the applications are gone by
    then.  The result is the store the call leaves, thrown or not. *)
Definition deleteJob (d : t) (id : Z) : t :=
  let d1 :=
    set_applications
      (Sql.delete_where (fun a => Application.jobId a =? id) (applications d)) d in
  if rated d1 id then d1
  else set_jobs (Sql.delete_where (fun j => Job.id j =? id) (jobs d1)) d1.

(** [getMatchedJobsForWorker]; [None] is an error thrown: by the query
    for the user when the id is no [integer], or by the matching query,
    in which the worker's skills are interpolated as a JavaScript
    array. *)
Section Engine.
Variable array_in : string -> option (list string).

Definition getMatchedJobsForWorker (d : t) (workerId : Z) : option (list Job.t) :=
  if negb (Sql.int4 workerId) then None
  else
    match getWorkerWithProfile d workerId with
    | None | Some (_, None) => Some []
    | Some (_, Some profile) =>
        match WorkerProfile.skills profile with
        | None => Some []
        | Some workerSkills =>
            match Sql.interpolated_text_array array_in workerSkills with
            | None => None
            | Some skills =>
                Some (Sql.select_where
                        (fun job =>
                           match Job.skills job with
                           | Some jobSkills => Sql.overlap jobSkills skills
                           | None => false
                           end)
                        (jobs d))
            end
        end
    end.
End Engine.

Definition createApplication (d : t) (application : InsertApplication.t) (now : Z)
  : Application.t * t :=
  let newApplication :=
    Application.mk (applications_id_seq d)
      (InsertApplication.jobId application)
      (InsertApplication.workerId application)
      (InsertApplication.coverLetter application)
      (InsertApplication.resumeUrl application)
      (InsertApplication.availableToStart application)
      (InsertApplication.expectedRate application)
      (InsertApplication.preferredHours application)
      (InsertApplication.referenceInfo application)
      "pending" now now in
  (newApplication,
   mk (users d) (workerProfiles d) (jobs d)
      (Sql.insert newApplication (applications d))
      (ratings d) (messages d) (notifications d)
      (applications_id_seq d + 1) (ratings_id_seq d)
      (messages_id_seq d) (notifications_id_seq d)).

Definition getApplication (d : t) (id : Z) : option Application.t :=
  List.head (Sql.select_where (fun a => Application.id a =? id) (applications d)).

Definition updateApplication (d : t) (id : Z) (applicationData : Json.object)
                             (now : Z) : option Application.t * t :=
  let hit := fun a => Application.id a =? id in
  (List.head
     (List.map (Application.patch applicationData now)
               (Sql.select_where hit (applications d))),
   set_applications
     (Sql.update_where hit (Application.patch applicationData now)
                       (applications d)) d).

Definition getApplicationByJobAndWorker (d : t) (jobId workerId : Z)
  : option Application.t :=
  List.head
    (Sql.select_where
       (fun a => (Application.jobId a =? jobId) && (Application.workerId a =? workerId))
       (applications d)).

(** [references(() => users.id)] and [references(() => jobs.id)]: the
    engine refuses a row whose column names no row of the table
    referenced. *)
Definition references_user (d : t) (id : Z) : bool :=
  List.existsb (fun u => User.id u =? id) (users d).

Definition references_job (d : t) (id : Z) : bool :=
  List.existsb (fun j => Job.id j =? id) (jobs d).

(** The rows of [ratings] the engine accepts: both users exist, and the
    job when one is named. *)
Definition accepts_rating (d : t) (rating : InsertRating.t) : bool :=
  references_user d (InsertRating.fromUserId rating)
  && references_user d (InsertRating.toUserId rating)
  && match InsertRating.jobId rating with
     | Some jobId => references_job d jobId
     | None => true
     end.

(** [createRating]; [None] is the error thrown for a row the engine
    refuses. *)
Definition createRating (d : t) (rating : InsertRating.t) (now : Z)
  : option (Rating.t * t) :=
  if accepts_rating d rating
  then
    let newRating :=
      Rating.mk (ratings_id_seq d) (InsertRating.fromUserId rating)
                (InsertRating.toUserId rating) (InsertRating.jobId rating)
                (InsertRating.rating rating) (InsertRating.review rating) now in
    let d1 :=
      mk (users d) (workerProfiles d) (jobs d) (applications d)
         (Sql.insert newRating (ratings d)) (messages d) (notifications d)
         (applications_id_seq d) (ratings_id_seq d + 1)
         (messages_id_seq d) (notifications_id_seq d) in
    Some (newRating, snd (updateUserRating d1 (InsertRating.toUserId rating)))
  else None.

(** [createMessage]; [None] is the error thrown for a sender or a
    recipient that is no user. *)
Definition createMessage (d : t) (message : InsertMessage.t) (now : Z)
  : option (Message.t * t) :=
  if references_user d (InsertMessage.fromUserId message)
     && references_user d (InsertMessage.toUserId message)
  then
    let newMessage :=
      Message.mk (messages_id_seq d) (InsertMessage.fromUserId message)
                 (InsertMessage.toUserId message) (InsertMessage.content message)
                 false now in
    Some (newMessage,
          mk (users d) (workerProfiles d) (jobs d) (applications d) (ratings d)
             (Sql.insert newMessage (messages d)) (notifications d)
             (applications_id_seq d) (ratings_id_seq d)
             (messages_id_seq d + 1) (notifications_id_seq d))
  else None.

Definition in_conversation (user1Id user2Id : Z) (m : Message.t) : bool :=
  (Message.fromUserId m =? user1Id) && (Message.toUserId m =? user2Id)
  || (Message.fromUserId m =? user2Id) && (Message.toUserId m =? user1Id).

Definition getUserMessages (d : t) (userId : Z) : list Message.t :=
  Sql.order_by_desc Message.createdAt
    (Sql.select_where
       (fun m => (Message.fromUserId m =? userId) || (Message.toUserId m =? userId))
       (messages d)).

Definition getConversation (d : t) (user1Id user2Id : Z) : list Message.t :=
  Sql.order_by_desc Message.createdAt
    (Sql.select_where (in_conversation user1Id user2Id) (messages d)).

(** [createNotification]; [None] is the error thrown for an addressee
    that is no user. *)
Definition createNotification (d : t) (notification : InsertNotification.t) (now : Z)
  : option (Notification.t * t) :=
  if references_user d (InsertNotification.userId notification)
  then
    let newNotification :=
      Notification.mk (notifications_id_seq d)
        (InsertNotification.userId notification)
        (InsertNotification.title notification)
        (InsertNotification.content notification)
        (InsertNotification.type notification)
        false
        (InsertNotification.relatedId notification) now in
    Some (newNotification,
          mk (users d) (workerProfiles d) (jobs d) (applications d) (ratings d)
             (messages d) (Sql.insert newNotification (notifications d))
             (applications_id_seq d) (ratings_id_seq d)
             (messages_id_seq d) (notifications_id_seq d + 1))
  else None.

(** *** Further methods *)

Definition set_messages (v : list Message.t) (d : t) : t :=
  mk (users d) (workerProfiles d) (jobs d) (applications d) (ratings d) v
     (notifications d) (applications_id_seq d) (ratings_id_seq d)
     (messages_id_seq d) (notifications_id_seq d).

Definition set_notifications (v : list Notification.t) (d : t) : t :=
  mk (users d) (workerProfiles d) (jobs d) (applications d) (ratings d) (messages d)
     v (applications_id_seq d) (ratings_id_seq d)
     (messages_id_seq d) (notifications_id_seq d).

(** [Object.values(JobStatus).includes(status)]. *)
Definition valid_job_status (status : string) : bool :=
  JsArray.includes status
    [JobStatus.OPEN; JobStatus.IN_PROGRESS; JobStatus.COMPLETED; JobStatus.CANCELLED].

(** [createJob]; [id] is the value the engine draws from the sequence
    of the [jobs] table for the new row, and [None] is the error thrown
    for an employer that does not exist. *)
Definition createJob (d : t) (job : InsertJob.t) (id now : Z) : option (Job.t * t) :=
  match getUser d (InsertJob.employerId job) with
  | None => None
  | Some _ =>
      let status :=
        match InsertJob.status job with
        | Some s => if String.eqb s "" then JobStatus.OPEN else s
        | None => JobStatus.OPEN
        end in
      let newJob :=
        Job.mk id (InsertJob.employerId job) (InsertJob.title job)
               (InsertJob.location job)
               (Some match InsertJob.skills job with
                     | Some skills => skills
                     | None => []
                     end)
               (match InsertJob.hourlyRate job with
                | Some rate => if rate =? 0 then None else Some rate
                | None => None
                end)
               (InsertJob.jobType job)
               (if valid_job_status status then status else JobStatus.OPEN)
               now in
      Some (newJob, set_jobs (Sql.insert newJob (jobs d)) d)
  end.

Definition getEmployerJobs (d : t) (employerId : Z) : list Job.t :=
  Sql.select_where (fun j => Job.employerId j =? employerId) (jobs d).

Definition getWorkerApplications (d : t) (workerId : Z) : list Application.t :=
  Sql.select_where (fun a => Application.workerId a =? workerId) (applications d).

Definition getEmployerApplications (d : t) (employerId : Z) : list Application.t :=
  let employerJobs := getEmployerJobs d employerId in
  if (length employerJobs =? 0)%nat then []
  else
    List.flat_map
      (fun job =>
         Sql.select_where (fun a => Application.jobId a =? Job.id job) (applications d))
      employerJobs.

Definition markMessageAsRead (d : t) (id : Z) : option Message.t * t :=
  let hit := fun m => Message.id m =? id in
  let read := fun m =>
    Message.mk (Message.id m) (Message.fromUserId m) (Message.toUserId m)
               (Message.content m) true (Message.createdAt m) in
  (List.head (List.map read (Sql.select_where hit (messages d))),
   set_messages (Sql.update_where hit read (messages d)) d).

Definition getUserNotifications (d : t) (userId : Z) : list Notification.t :=
  Sql.order_by_desc Notification.createdAt
    (Sql.select_where (fun n => Notification.userId n =? userId) (notifications d)).

Definition markNotificationAsRead (d : t) (id : Z) : option Notification.t * t :=
  let hit := fun n => Notification.id n =? id in
  let read := fun n =>
    Notification.mk (Notification.id n) (Notification.userId n)
                    (Notification.title n) (Notification.content n)
                    (Notification.type n) true (Notification.relatedId n)
                    (Notification.createdAt n) in
  (List.head (List.map read (Sql.select_where hit (notifications d))),
   set_notifications (Sql.update_where hit read (notifications d)) d).

End DatabaseStorage.

(** ** Live channels *)

Module WebSocket.
Inductive readyState := CONNECTING | OPEN | CLOSING | CLOSED.

(** A socket is known by its identity. *)
Definition t := nat.

Definition is_open (r : readyState) : bool :=
  match r with
  | OPEN => true
  | _ => false
  end.
End WebSocket.

(** What the process did to the outside, oldest first: rows inserted in
    the store and frames written to sockets. *)
Inductive Effect :=
| Stored (table : string) (id : Z)
| Sent (conn : WebSocket.t) (message : Json.object).

(** The state of the server process: the store behind [storage], the
    module-level [activeConnections], the [userId] variable each socket's
    handlers close over, the sockets' [readyState], and the journal. *)
Record World := mkWorld {
  storage : DatabaseStorage.t;
  activeConnections : gmap Z (list WebSocket.t);
  socketUserId : gmap WebSocket.t Z;
  readyState : WebSocket.t -> WebSocket.readyState;
  journal : list Effect
}.

Definition IO (A : Type) : Type := World -> A * World.

Definition ret {A} (x : A) : IO A := fun w => (x, w).

Definition bind {A B} (c : IO A) (k : A -> IO B) : IO B :=
  fun w => let (x, w') := c w in k x w'.

Declare Scope io_scope.
Delimit Scope io_scope with io.
Notation "'let*' x := c 'in' k" := (bind c (fun x => k))
  (at level 10, x name, c at level 100, k at level 200) : io_scope.
Notation "'run' c 'in' k" := (bind c (fun _ => k))
  (at level 10, c at level 100, k at level 200) : io_scope.

(** A read of the store. *)
Definition query {A} (f : DatabaseStorage.t -> A) : IO A :=
  fun w => (f (storage w), w).

(** A statement that changes the store. *)
Definition execute {A} (f : DatabaseStorage.t -> A * DatabaseStorage.t) : IO A :=
  fun w =>
    let (x, d) := f (storage w) in
    (x, mkWorld d (activeConnections w) (socketUserId w) (readyState w) (journal w)).

(** A statement the engine may refuse: [None] is the error thrown, with
    the store as it was. *)
Definition attempt {A} (f : DatabaseStorage.t -> option (A * DatabaseStorage.t))
  : IO (option A) :=
  fun w =>
    match f (storage w) with
    | Some (x, d) =>
        (Some x,
         mkWorld d (activeConnections w) (socketUserId w) (readyState w) (journal w))
    | None => (None, w)
    end.

Definition record (e : Effect) : IO unit :=
  fun w =>
    (tt, mkWorld (storage w) (activeConnections w) (socketUserId w) (readyState w)
                 (journal w ++ [e])).

(** [conn.send(message)]. *)
Definition send (conn : WebSocket.t) (message : Json.object) : IO unit :=
  record (Sent conn message).

(** [userConnections.forEach(conn => ...)]. *)
Fixpoint forEach {A} (l : list A) (f : A -> IO unit) : IO unit :=
  match l with
  | [] => ret tt
  | x :: l' => bind (f x) (fun _ => forEach l' f)
  end.

Local Open Scope io_scope.

(** Unfolds the plumbing of [IO]. *)
Ltac io_unfold :=
  unfold bind, ret, query, execute, attempt, record, send; cbv beta iota zeta.

(** [app.locals.notifyUser]. *)
Definition notifyUser (userId : Z) (notification : Json.object) : IO bool :=
  fun w =>
    match activeConnections w !! userId with
    | Some userConnections =>
        if (0 <? length userConnections)%nat then
          (run forEach userConnections
             (fun conn w' =>
                if WebSocket.is_open (readyState w' conn)
                then send conn notification w'
                else (tt, w')) in
           ret true) w
        else (false, w)
    | None => (false, w)
    end.

(** The [authenticate] frame of the socket's message handler. *)
Definition ws_authenticate (ws : WebSocket.t) (userId : Z) : IO unit :=
  fun w =>
    let conns : list WebSocket.t :=
      match activeConnections w !! userId with
      | Some l => l
      | None => []
      end in
    (tt, mkWorld (storage w)
                 (<[userId := conns ++ [ws]]> (activeConnections w))
                 (<[ws := userId]> (socketUserId w))
                 (readyState w) (journal w)).

(** [userConnections.splice(userConnections.indexOf(ws), 1)]. *)
Fixpoint remove_first (ws : WebSocket.t) (l : list WebSocket.t) : list WebSocket.t :=
  match l with
  | [] => []
  | c :: l' => if (c =? ws)%nat then l' else c :: remove_first ws l'
  end.

(** The socket's close handler. *)
Definition ws_on_close (ws : WebSocket.t) : IO unit :=
  fun w =>
    match socketUserId w !! ws with
    | Some userId =>
        if userId =? 0 then (tt, w)
        else
          match activeConnections w !! userId with
          | Some userConnections =>
              let rest := remove_first ws userConnections in
              let conns :=
                if (length rest =? 0)%nat then delete userId (activeConnections w)
                else <[userId := rest]> (activeConnections w) in
              (tt, mkWorld (storage w) conns (socketUserId w) (readyState w)
                           (journal w))
          | None => (tt, w)
          end
    | None => (tt, w)
    end.

(** The socket goes through its state changes outside the server's code;
    its close handler runs once it is [CLOSED]. *)
Definition set_readyState (ws : WebSocket.t) (r : WebSocket.readyState) : IO unit :=
  fun w =>
    (tt, mkWorld (storage w) (activeConnections w) (socketUserId w)
                 (fun c => if (c =? ws)%nat then r else readyState w c)
                 (journal w)).

Definition socket_closed (ws : WebSocket.t) : IO unit :=
  run set_readyState ws WebSocket.CLOSED in ws_on_close ws.

Definition initial_world : World :=
  mkWorld DatabaseStorage.empty ∅ ∅ (fun _ => WebSocket.OPEN) [].

(** ** Requests and responses *)

Module JsGlobal.

(** A text is the bytes of its UTF-8 encoding.  The white space and line
    terminators [parseInt] skips: U+0009 to U+000D and U+0020 in one
    byte; U+00A0 in two; U+1680, U+2000 to U+200A, U+2028, U+2029,
    U+202F, U+205F, U+3000 and U+FEFF in three. *)
Definition is_space (c : ascii) : bool :=
  let n := nat_of_ascii c in
  ((n =? 32) || ((9 <=? n) && (n <=? 13)))%nat.

Definition is_space2 (c1 c2 : ascii) : bool :=
  ((nat_of_ascii c1 =? 194) && (nat_of_ascii c2 =? 160))%nat.

Definition is_space3 (c1 c2 c3 : ascii) : bool :=
  let n1 := nat_of_ascii c1 in
  let n2 := nat_of_ascii c2 in
  let n3 := nat_of_ascii c3 in
  ((n1 =? 225) && (n2 =? 154) && (n3 =? 128)
   || (n1 =? 226) && (n2 =? 128)
      && ((128 <=? n3) && (n3 <=? 138) || (n3 =? 168) || (n3 =? 169) || (n3 =? 175))
   || (n1 =? 226) && (n2 =? 129) && (n3 =? 159)
   || (n1 =? 227) && (n2 =? 128) && (n3 =? 128)
   || (n1 =? 239) && (n2 =? 187) && (n3 =? 191))%nat.

Fixpoint skip_spaces (s : string) : string :=
  match s with
  | EmptyString => s
  | String c1 s1 =>
      if is_space c1 then skip_spaces s1
      else
        match s1 with
        | EmptyString => s
        | String c2 s2 =>
            if is_space2 c1 c2 then skip_spaces s2
            else
              match s2 with
              | EmptyString => s
              | String c3 s3 => if is_space3 c1 c2 c3 then skip_spaces s3 else s
              end
        end
  end.

Definition decimal_digit (c : ascii) : option Z :=
  let n := Z.of_nat (nat_of_ascii c) in
  if (48 <=? n) && (n <=? 57) then Some (n - 48) else None.

Definition hex_digit (c : ascii) : option Z :=
  let n := Z.of_nat (nat_of_ascii c) in
  if (48 <=? n) && (n <=? 57) then Some (n - 48)
  else if (65 <=? n) && (n <=? 70) then Some (n - 55)
  else if (97 <=? n) && (n <=? 102) then Some (n - 87)
  else None.

(** The longest prefix of digits, read in the radix; [acc] is [None]
    until a digit has been seen. *)
Fixpoint digits (radix : Z) (digit : ascii -> option Z) (s : string)
                (acc : option Z) : option Z :=
  match s with
  | EmptyString => acc
  | String c s' =>
      match digit c with
      | Some d =>
          digits radix digit s'
                 (Some (radix * match acc with Some n => n | None => 0 end + d))
      | None => acc
      end
  end.

Definition unsigned (s : string) : option Z :=
  match s with
  | String "0" (String "x" r) | String "0" (String "X" r) =>
      digits 16 hex_digit r None
  | _ => digits 10 decimal_digit s None
  end.

(** [parseInt(s)]; [None] is [NaN]. *)
Definition parseInt (s : string) : option Z :=
  match skip_spaces s with
  | String "-" r => option_map Z.opp (unsigned r)
  | String "+" r => unsigned r
  | r => unsigned r
  end.

End JsGlobal.

Inductive ResponseBody :=
| message_body (message : string)
| zod_error_body (message : string)
| jobs_body (jobs : list Job.t)
| application_body (application : option Application.t)
| rating_body (rating : Rating.t)
| message_row_body (message : Message.t).

Record Response := json { status : Z; body : ResponseBody }.

(** A request as a handler sees it: [req.user] ([None] when
    [req.isAuthenticated()] is false), [req.params] and [req.body]. *)
Record Request := mkRequest {
  req_user : option User.t;
  req_params : list (string * string);
  req_body : Json.object
}.

Definition param (req : Request) (name : string) : string :=
  match List.find (fun kv => String.eqb name (fst kv)) (req_params req) with
  | Some kv => snd kv
  | None => ""
  end.

(** ** server/routes.ts *)

Module Routes.

(** The storage calls that insert a row, with their journal entry. *)

Definition createApplication (application : InsertApplication.t) (now : Z)
  : IO Application.t :=
  let* a := execute (fun d => DatabaseStorage.createApplication d application now) in
  run record (Stored "applications" (Application.id a)) in
  ret a.

Definition createRating (rating : InsertRating.t) (now : Z) : IO (option Rating.t) :=
  let* r := attempt (fun d => DatabaseStorage.createRating d rating now) in
  match r with
  | Some r => run record (Stored "ratings" (Rating.id r)) in ret (Some r)
  | None => ret None
  end.

Definition createMessage (message : InsertMessage.t) (now : Z)
  : IO (option Message.t) :=
  let* m := attempt (fun d => DatabaseStorage.createMessage d message now) in
  match m with
  | Some m => run record (Stored "messages" (Message.id m)) in ret (Some m)
  | None => ret None
  end.

Definition createNotification (notification : InsertNotification.t) (now : Z)
  : IO (option Notification.t) :=
  let* n := attempt (fun d => DatabaseStorage.createNotification d notification now) in
  match n with
  | Some n => run record (Stored "notifications" (Notification.id n)) in ret (Some n)
  | None => ret None
  end.

Section Engine.
Variable array_in : string -> option (list string).

(** GET /api/jobs/match/:workerId, as registered first.  An id that is
    [NaN] is refused by the engine like one out of range. *)
Definition get_jobs_match (req : Request) : IO Response :=
  match JsGlobal.parseInt (param req "workerId") with
  | None => ret (json 500 (message_body "Failed to retrieve matched jobs"))
  | Some workerId =>
      let* matchedJobs :=
        query (fun d => DatabaseStorage.getMatchedJobsForWorker array_in d workerId) in
      match matchedJobs with
      | Some matchedJobs => ret (json 200 (jobs_body matchedJobs))
      | None => ret (json 500 (message_body "Failed to retrieve matched jobs"))
      end
  end.

(** GET /api/jobs/match/:workerId, as registered a second time. *)
Definition get_jobs_match_checked (req : Request) : IO Response :=
  match JsGlobal.parseInt (param req "workerId") with
  | None => ret (json 500 (message_body "Failed to retrieve matched jobs"))
  | Some workerId =>
      if negb (Sql.int4 workerId) then
        ret (json 500 (message_body "Failed to retrieve matched jobs"))
      else
        let* worker :=
          query (fun d => DatabaseStorage.getWorkerWithProfile d workerId) in
        match worker with
        | None => ret (json 404 (message_body "Worker not found"))
        | Some _ =>
            let* matchedJobs :=
              query (fun d => DatabaseStorage.getMatchedJobsForWorker array_in d workerId) in
            match matchedJobs with
            | Some matchedJobs => ret (json 200 (jobs_body matchedJobs))
            | None => ret (json 500 (message_body "Failed to retrieve matched jobs"))
            end
        end
  end.
End Engine.

(** The text of a truthy [resumeUrl]; the driver's rendering of a value
    that is not a string is not modelled. *)
Definition resume_text (v : option Json.value) : option string :=
  match v with
  | Some (Json.Str s) => if Json.truthy v then Some s else None
  | _ => None
  end.

(** POST /api/applications *)
Definition post_applications (req : Request) (now : Z) : IO Response :=
  match req_user req with
  | None => ret (json 401 (message_body "Unauthorized"))
  | Some user =>
      if negb (String.eqb (User.userType user) "worker") then
        ret (json 403 (message_body "Only workers can apply for jobs"))
      else
        let resumeUrl := Json.get "resumeUrl" (req_body req) in
        let otherData := Json.remove "resumeUrl" (req_body req) in
        match insertApplicationSchema_parse
                (Json.set "workerId" (Json.Num (User.id user)) otherData) with
        | None => ret (json 400 (zod_error_body "Invalid application data"))
        | Some validatedData =>
            let* job :=
              query (fun d => DatabaseStorage.getJob d
                                (InsertApplication.jobId validatedData)) in
            match job with
            | None => ret (json 404 (message_body "Job not found"))
            | Some job =>
                if negb (String.eqb (Job.status job) JobStatus.OPEN)
                   && negb (String.eqb (Job.status job) JobStatus.IN_PROGRESS)
                then
                  ret (json 400 (message_body "This job is not accepting applications"))
                else
                  let* existingApplication :=
                    query (fun d => DatabaseStorage.getApplicationByJobAndWorker d
                                      (InsertApplication.jobId validatedData)
                                      (User.id user)) in
                  match existingApplication with
                  | Some _ =>
                      ret (json 400 (message_body "You have already applied for this job"))
                  | None =>
                      let applicationData :=
                        match resume_text resumeUrl with
                        | Some r => InsertApplication.with_resumeUrl r validatedData
                        | None => validatedData
                        end in
                      let* application := createApplication applicationData now in
                      ret (json 201 (application_body (Some application)))
                  end
            end
        end
  end.

(** POST /api/applications hands control back at each [await], so that
    another request can run between its lookups and its insert.  The
    handler in two parts: up to the lookup of an earlier application,
    which ends in an answer or in the data to insert, and from the insert
    on. *)
Definition post_applications_lookups (req : Request)
  : IO (Response + InsertApplication.t) :=
  match req_user req with
  | None => ret (inl (json 401 (message_body "Unauthorized")))
  | Some user =>
      if negb (String.eqb (User.userType user) "worker") then
        ret (inl (json 403 (message_body "Only workers can apply for jobs")))
      else
        let resumeUrl := Json.get "resumeUrl" (req_body req) in
        let otherData := Json.remove "resumeUrl" (req_body req) in
        match insertApplicationSchema_parse
                (Json.set "workerId" (Json.Num (User.id user)) otherData) with
        | None => ret (inl (json 400 (zod_error_body "Invalid application data")))
        | Some validatedData =>
            let* job :=
              query (fun d => DatabaseStorage.getJob d
                                (InsertApplication.jobId validatedData)) in
            match job with
            | None => ret (inl (json 404 (message_body "Job not found")))
            | Some job =>
                if negb (String.eqb (Job.status job) JobStatus.OPEN)
                   && negb (String.eqb (Job.status job) JobStatus.IN_PROGRESS)
                then
                  ret (inl (json 400 (message_body
                                        "This job is not accepting applications")))
                else
                  let* existingApplication :=
                    query (fun d => DatabaseStorage.getApplicationByJobAndWorker d
                                      (InsertApplication.jobId validatedData)
                                      (User.id user)) in
                  match existingApplication with
                  | Some _ =>
                      ret (inl (json 400 (message_body
                                            "You have already applied for this job")))
                  | None =>
                      ret (inr match resume_text resumeUrl with
                               | Some r => InsertApplication.with_resumeUrl r validatedData
                               | None => validatedData
                               end)
                  end
            end
        end
  end.

Definition post_applications_insert (applicationData : InsertApplication.t) (now : Z)
  : IO Response :=
  let* application := createApplication applicationData now in
  ret (json 201 (application_body (Some application))).

(** PUT /api/applications/:id *)
Definition put_applications_id (req : Request) (now : Z) : IO Response :=
  match req_user req with
  | None => ret (json 401 (message_body "Unauthorized"))
  | Some user =>
      match JsGlobal.parseInt (param req "id") with
      | None => ret (json 500 (message_body "Failed to update application"))
      | Some applicationId =>
          let* application :=
            query (fun d => DatabaseStorage.getApplication d applicationId) in
          match application with
          | None => ret (json 404 (message_body "Application not found"))
          | Some application =>
              let update :=
                let* updatedApplication :=
                  execute (fun d => DatabaseStorage.updateApplication d applicationId
                                      (req_body req) now) in
                ret (json 200 (application_body updatedApplication)) in
              if String.eqb (User.userType user) "employer" then
                let* job :=
                  query (fun d => DatabaseStorage.getJob d
                                    (Application.jobId application)) in
                match job with
                | Some job =>
                    if Job.employerId job =? User.id user then update
                    else ret (json 403 (message_body
                           "You can only update applications for your own jobs"))
                | None =>
                    ret (json 403 (message_body
                           "You can only update applications for your own jobs"))
                end
              else if String.eqb (User.userType user) "worker" then
                if negb (Application.workerId application =? User.id user) then
                  ret (json 403 (message_body
                         "You can only update your own applications"))
                else
                  let allowedFields := ["coverLetter"] in
                  let invalidFields :=
                    List.filter (fun field => negb (JsArray.includes field allowedFields))
                                (Json.keys (req_body req)) in
                  if (0 <? length invalidFields)%nat then
                    ret (json 403 (message_body
                           ("Workers cannot update these fields: "
                            ++ JsArray.join ", " invalidFields)%string))
                  else update
              else update
          end
      end
  end.

(** POST /api/ratings, once its checks have passed: the rating is stored
    and the recipient's average recomputed. *)
Definition store_rating (validatedData : InsertRating.t) (now : Z) : IO Response :=
  let* rating := createRating validatedData now in
  match rating with
  | None => ret (json 500 (message_body "Failed to create rating"))
  | Some rating =>
      run execute (fun d => DatabaseStorage.updateUserRating d
                              (InsertRating.toUserId validatedData)) in
      ret (json 201 (rating_body rating))
  end.

(** POST /api/ratings *)
Definition post_ratings (req : Request) (now : Z) : IO Response :=
  match req_user req with
  | None => ret (json 401 (message_body "Unauthorized"))
  | Some user =>
      match insertRatingSchema_parse
              (Json.set "fromUserId" (Json.Num (User.id user)) (req_body req)) with
      | None => ret (json 400 (zod_error_body "Invalid rating data"))
      | Some validatedData =>
          let submit := store_rating validatedData now in
          if (InsertRating.rating validatedData <? 1)
             || (5 <? InsertRating.rating validatedData) then
            ret (json 400 (message_body "Rating must be between 1 and 5"))
          else
            match InsertRating.jobId validatedData with
            | Some jobId =>
                if jobId =? 0 then submit
                else
                  let* job := query (fun d => DatabaseStorage.getJob d jobId) in
                  match job with
                  | None => ret (json 404 (message_body "Job not found"))
                  | Some job =>
                      if negb (String.eqb (Job.status job) JobStatus.COMPLETED) then
                        ret (json 400 (message_body
                               "Rating can only be given for completed jobs"))
                      else if String.eqb (User.userType user) "worker"
                              && negb (Job.employerId job
                                       =? InsertRating.toUserId validatedData) then
                        ret (json 403 (message_body
                               "You can only rate employers you worked for"))
                      else if String.eqb (User.userType user) "employer"
                              && negb (Job.employerId job =? User.id user) then
                        ret (json 403 (message_body
                               "You can only rate workers for your own jobs"))
                      else submit
                  end
            | None => submit
            end
      end
  end.

(** POST /api/messages *)
Definition post_messages (req : Request) (now : Z) : IO Response :=
  match req_user req with
  | None => ret (json 401 (message_body "Unauthorized"))
  | Some user =>
      match insertMessageSchema_parse
              (Json.set "fromUserId" (Json.Num (User.id user)) (req_body req)) with
      | None => ret (json 400 (zod_error_body "Invalid message data"))
      | Some validatedData =>
          let failed := ret (json 500 (message_body "Failed to send message")) in
          let* message := createMessage validatedData now in
          match message with
          | None => failed
          | Some message =>
              let* stored :=
                createNotification
                  (InsertNotification.mk
                     (InsertMessage.toUserId validatedData)
                     "New Message"
                     ("You have a new message from " ++ User.fullName user)%string
                     "message"
                     (Some (Message.id message)))
                  now in
              match stored with
              | None => failed
              | Some _ =>
                  let notification :=
                    [("type", Json.Str "new_message");
                     ("messageId", Json.Num (Message.id message));
                     ("fromUserId", Json.Num (User.id user));
                     ("fromName", Json.Str (User.fullName user))] in
                  run notifyUser (InsertMessage.toUserId validatedData) notification in
                  ret (json 201 (message_row_body message))
              end
          end
      end
  end.

(** *** The route table *)

Inductive Method := GET | POST | PUT | DELETE.

Inductive Segment :=
| Lit (s : string)
| Param (name : string).

(** The handlers in the order [setupAuth] and [registerRoutes] attach
    them. *)
Inductive Handler :=
| register | login | logout | current_user
| jobs_all | jobs_employer | jobs_match | jobs_by_id
| jobs_create | jobs_update | jobs_delete
| applications_list | applications_create | applications_update
| ratings_create
| messages_list | messages_create | messages_read
| notifications_list | notifications_read
| workers_all | workers_by_id | employers_by_id
| employer_profile_get | employer_profile_create | employer_profile_update
| worker_profile_get | worker_profile_create | worker_profile_update
| jobs_match_checked.

Definition api (rest : list Segment) : list Segment := Lit "api" :: rest.

Definition routes : list (Method * list Segment * Handler) :=
  [ (POST, api [Lit "register"], register);
    (POST, api [Lit "login"], login);
    (POST, api [Lit "logout"], logout);
    (GET, api [Lit "user"], current_user);
    (GET, api [Lit "jobs"], jobs_all);
    (GET, api [Lit "jobs"; Lit "employer"], jobs_employer);
    (GET, api [Lit "jobs"; Lit "match"; Param "workerId"], jobs_match);
    (GET, api [Lit "jobs"; Param "id"], jobs_by_id);
    (POST, api [Lit "jobs"], jobs_create);
    (PUT, api [Lit "jobs"; Param "id"], jobs_update);
    (DELETE, api [Lit "jobs"; Param "id"], jobs_delete);
    (GET, api [Lit "applications"], applications_list);
    (POST, api [Lit "applications"], applications_create);
    (PUT, api [Lit "applications"; Param "id"], applications_update);
    (POST, api [Lit "ratings"], ratings_create);
    (GET, api [Lit "messages"], messages_list);
    (POST, api [Lit "messages"], messages_create);
    (PUT, api [Lit "messages"; Param "id"; Lit "read"], messages_read);
    (GET, api [Lit "notifications"], notifications_list);
    (PUT, api [Lit "notifications"; Param "id"; Lit "read"], notifications_read);
    (GET, api [Lit "workers"], workers_all);
    (GET, api [Lit "workers"; Param "id"], workers_by_id);
    (GET, api [Lit "employers"; Param "id"], employers_by_id);
    (GET, api [Lit "employer-profile"], employer_profile_get);
    (POST, api [Lit "employer-profile"], employer_profile_create);
    (PUT, api [Lit "employer-profile"], employer_profile_update);
    (GET, api [Lit "worker-profile"], worker_profile_get);
    (POST, api [Lit "worker-profile"], worker_profile_create);
    (PUT, api [Lit "worker-profile"], worker_profile_update);
    (GET, api [Lit "jobs"; Lit "match"; Param "workerId"], jobs_match_checked) ].

Definition method_eqb (a b : Method) : bool :=
  match a, b with
  | GET, GET | POST, POST | PUT, PUT | DELETE, DELETE => true
  | _, _ => false
  end.

(** A pattern against the segments of a request path as it was sent;
    the parameters bound on a match.  Express compares a literal segment
    without regard to the case of ASCII letters, lets a parameter take
    any segment but the empty one, and overlooks one slash after the last
    segment, which is an empty last segment here. *)
Definition lower (c : ascii) : ascii :=
  let n := nat_of_ascii c in
  if ((65 <=? n) && (n <=? 90))%nat then ascii_of_nat (n + 32) else c.

Fixpoint lower_case (s : string) : string :=
  match s with
  | EmptyString => EmptyString
  | String c s' => String (lower c) (lower_case s')
  end.

Definition same_literal (s seg : string) : bool :=
  String.eqb (lower_case s) (lower_case seg).

Fixpoint match_path (pattern : list Segment) (path : list string)
  : option (list (string * string)) :=
  match pattern, path with
  | [], [] => Some []
  | [], [seg] => if String.eqb seg "" then Some [] else None
  | Lit s :: pattern', seg :: path' =>
      if same_literal s seg then match_path pattern' path' else None
  | Param name :: pattern', seg :: path' =>
      if String.eqb seg "" then None
      else option_map (cons (name, seg)) (match_path pattern' path')
  | _, _ => None
  end.

(** Express runs the first handler whose method and path match; no
    handler of the server passes a request on with [next()]. *)
Fixpoint dispatch_in (table : list (Method * list Segment * Handler))
                     (method : Method) (path : list string)
  : option (Handler * list (string * string)) :=
  match table with
  | [] => None
  | (m, pattern, h) :: table' =>
      match (if method_eqb m method then match_path pattern path else None) with
      | Some params => Some (h, params)
      | None => dispatch_in table' method path
      end
  end.

Definition dispatch := dispatch_in routes.

Section Engine.
Variable array_in : string -> option (list string).

(** The handlers embedded above. *)
Definition handler (h : Handler) : option (Request -> Z -> IO Response) :=
  match h with
  | jobs_match => Some (fun req _ => get_jobs_match array_in req)
  | jobs_match_checked => Some (fun req _ => get_jobs_match_checked array_in req)
  | applications_create => Some post_applications
  | applications_update => Some put_applications_id
  | ratings_create => Some post_ratings
  | messages_create => Some post_messages
  | _ => None
  end.

(** The characters a path segment holds as they are: letters, digits and
    the marks [-], [.], [_] and [~]. *)
Definition unreserved (c : ascii) : bool :=
  let n := nat_of_ascii c in
  ((48 <=? n) && (n <=? 57) || (65 <=? n) && (n <=? 90) || (97 <=? n) && (n <=? 122)
   || (n =? 45) || (n =? 46) || (n =? 95) || (n =? 126))%nat.

Fixpoint plain (s : string) : bool :=
  match s with
  | EmptyString => true
  | String c s' => unreserved c && plain s'
  end.

(** A request through the router.  A parameter reaches the handler
    through [decodeURIComponent], which leaves a plain segment as it is.
    [None] when no route matches, when a parameter is not plain (its
    decoding is not part of the embedding), or when the route's handler
    is not part of the embedding. *)
Definition serve (method : Method) (path : list string)
                 (user : option User.t) (body : Json.object) (now : Z)
  : option (IO Response) :=
  match dispatch method path with
  | Some (h, params) =>
      if List.forallb (fun kv => plain (snd kv)) params then
        option_map (fun run_handler => run_handler (mkRequest user params body) now)
                   (handler h)
      else None
  | None => None
  end.
End Engine.

(** *** Further handlers

    Their answers: the status code, and either the text of a
    [{ message }] body or the payload. *)

Record Reply (A : Type) := reply { code : Z; content : string + A }.
Arguments reply {A} code content.
Arguments code {A} r.
Arguments content {A} r.

(** DELETE /api/jobs/:id; 204 carries no body.  The engine refuses an id
    that is no [integer], and the deletion of a rated job, after the
    job's applications went. *)
Definition delete_jobs_id (req : Request) : IO (Reply unit) :=
  match req_user req with
  | None => ret (reply 401 (inl "Unauthorized"))
  | Some user =>
      match JsGlobal.parseInt (param req "id") with
      | None => ret (reply 500 (inl "Failed to delete job"))
      | Some jobId =>
          if negb (Sql.int4 jobId) then ret (reply 500 (inl "Failed to delete job"))
          else
            let* job := query (fun d => DatabaseStorage.getJob d jobId) in
            match job with
            | None => ret (reply 404 (inl "Job not found"))
            | Some job =>
                if negb (Job.employerId job =? User.id user) then
                  ret (reply 403 (inl "You can only delete your own jobs"))
                else
                  let* refused := query (fun d => DatabaseStorage.rated d jobId) in
                  run execute (fun d => (tt, DatabaseStorage.deleteJob d jobId)) in
                  if refused then ret (reply 500 (inl "Failed to delete job"))
                  else ret (reply 204 (inr tt))
            end
      end
  end.

(** GET /api/messages; [userId] is [req.query.userId].  The engine
    refuses the conversation with an id that is no [integer]. *)
Definition get_messages (req : Request) (userId : option string)
  : IO (Reply (list Message.t)) :=
  match req_user req with
  | None => ret (reply 401 (inl "Unauthorized"))
  | Some user =>
      let otherUserId :=
        match userId with
        | Some text => if String.eqb text "" then None else JsGlobal.parseInt text
        | None => None
        end in
      match otherUserId with
      | Some other =>
          if other =? 0 then
            let* messages :=
              query (fun d => DatabaseStorage.getUserMessages d (User.id user)) in
            ret (reply 200 (inr messages))
          else if negb (Sql.int4 other) then
            ret (reply 500 (inl "Failed to retrieve messages"))
          else
            let* conversation :=
              query (fun d => DatabaseStorage.getConversation d (User.id user) other) in
            ret (reply 200 (inr conversation))
      | None =>
          let* messages :=
            query (fun d => DatabaseStorage.getUserMessages d (User.id user)) in
          ret (reply 200 (inr messages))
      end
  end.

(** PUT /api/messages/:id/read *)
Definition put_messages_id_read (req : Request) : IO (Reply Message.t) :=
  match req_user req with
  | None => ret (reply 401 (inl "Unauthorized"))
  | Some _ =>
      match JsGlobal.parseInt (param req "id") with
      | None => ret (reply 500 (inl "Failed to mark message as read"))
      | Some messageId =>
          let* updatedMessage :=
            execute (fun d => DatabaseStorage.markMessageAsRead d messageId) in
          match updatedMessage with
          | None => ret (reply 404 (inl "Message not found"))
          | Some updatedMessage => ret (reply 200 (inr updatedMessage))
          end
      end
  end.

End Routes.

(** ** The socket's message frames *)

(** A frame after [JSON.parse], with the field types of the client's
    protocol: [authenticate] with a numeric user id, [message] with a
    numeric recipient, a text and the optional name of the sender.
    [Unknown] is any other frame, unparsable ones included. *)
Inductive Frame :=
| Authenticate (userId : Z)
| SendMessage (toUserId : Z) (content : string) (fromUsername : option string)
| Unknown.

(** The socket's message handler.  An error thrown by the store is
    caught and logged, and the handler does nothing more. *)
Definition ws_on_message (ws : WebSocket.t) (data : Frame) (now : Z) : IO unit :=
  match data with
  | Authenticate userId => ws_authenticate ws userId
  | SendMessage toUserId content fromUsername =>
      fun w =>
        match socketUserId w !! ws with
        | Some userId =>
            if (userId =? 0) || (toUserId =? 0) || String.eqb content "" then (tt, w)
            else
              (let* message :=
                 Routes.createMessage (InsertMessage.mk userId toUserId content) now in
               match message with
               | None => ret tt
               | Some message =>
                   let* stored :=
                     Routes.createNotification
                       (InsertNotification.mk
                          toUserId
                          "New Message"
                          ("You have a new message from "
                           ++ match fromUsername with
                              | Some name =>
                                  if String.eqb name "" then "another user" else name
                              | None => "another user"
                              end)%string
                          "message"
                          (Some (Message.id message)))
                       now in
                   match stored with
                   | None => ret tt
                   | Some _ =>
                       run send ws [("type", Json.Str "message_sent");
                                    ("messageId", Json.Num (Message.id message))] in
                       fun w' =>
                         match activeConnections w' !! toUserId with
                         | Some recipientConnections =>
                             if (0 <? length recipientConnections)%nat then
                               forEach recipientConnections
                                 (fun conn w'' =>
                                    if WebSocket.is_open (readyState w'' conn)
                                    then send conn
                                              [("type", Json.Str "new_message");
                                               ("fromUserId", Json.Num userId);
                                               ("messageId", Json.Num (Message.id message))]
                                              w''
                                    else (tt, w'')) w'
                             else (tt, w')
                         | None => (tt, w')
                         end
                   end
               end) w
        | None => (tt, w)
        end
  | Unknown => ret tt
  end.


(** ** The specification's vocabulary *)

(** A job accepts applications when it is open or in progress: the test of
    POST /api/applications. *)
Definition open_or_active (job : Job.t) : bool :=
  String.eqb (Job.status job) JobStatus.OPEN
  || String.eqb (Job.status job) JobStatus.IN_PROGRESS.

(** Two skill lists intersect. *)
Definition share_a_skill (jobSkills workerSkills : list string) : Prop :=
  exists skill, In skill jobSkills /\ In skill workerSkills.

(** Messages between two users, in either direction. *)
Definition between (userA userB : Z) (m : Message.t) : Prop :=
  (Message.fromUserId m = userA /\ Message.toUserId m = userB)
  \/ (Message.fromUserId m = userB /\ Message.toUserId m = userA).

Definition oldest_first (a b : Message.t) : Prop :=
  Message.createdAt a <= Message.createdAt b.

Definition newest_first (a b : Message.t) : Prop :=
  Message.createdAt b <= Message.createdAt a.

(** The arithmetic mean of a non-empty list of rating values. *)
Definition arithmetic_mean (values : list Z) : Q :=
  Qmake (List.fold_right Z.add 0 values) (Z.to_pos (Z.of_nat (length values))).

(** [r] is [x] rounded to one decimal place: a whole number of tenths, at
    most half a tenth away from [x]. *)
Definition rounded_to_one_decimal (x r : Q) : Prop :=
  (exists tenths : Z, r = Qmake tenths 10) /\ Qle (Qabs (Qminus r x)) (Qmake 1 20).

(** Rating values are between 1 and 5, as POST /api/ratings checks. *)
Definition rating_in_range (r : Rating.t) : Prop :=
  1 <= Rating.rating r <= 5.

(** The channels registered for a user. *)
Definition registered (w : World) (userId : Z) : list WebSocket.t :=
  match activeConnections w !! userId with
  | Some userConnections => userConnections
  | None => []
  end.

(** The frames of a journal. *)
Definition is_sent (e : Effect) : bool :=
  match e with
  | Sent _ _ => true
  | Stored _ _ => false
  end.

(** Every key of the applications map is the id of its row, as
    [createApplication] files them. *)
Definition keyed_by_id (s : MemStorage.t) : Prop :=
  Forall (fun kv => Application.id (snd kv) = fst kv) (MemStorage.applications s).

(** ** Sample data *)

Module Sample.

Definition alice : User.t := User.mk 1 "alice" "Alice Ames" "worker" 0.
Definition bob : User.t := User.mk 2 "bob" "Bob Byrne" "employer" 0.
Definition carol : User.t := User.mk 3 "carol" "Carol Cho" "employer" 0.

Definition alice_profile : WorkerProfile.t :=
  WorkerProfile.mk 1 1 (Some ["welding"; "forklift"]) None None.

Definition job (id : Z) (skills : list string) (status : string) : Job.t :=
  Job.mk id 2 "Warehouse hand" "Leeds" (Some skills) None "contract" status 500.

Definition forklift_job := job 10 ["forklift"; "painting"] "open".
Definition painting_job := job 11 ["painting"; "drywall"] "open".
Definition finished_job := job 12 ["forklift"] "completed".

Definition first_message : Message.t := Message.mk 1 1 2 "hello" false 1000.
Definition second_message : Message.t := Message.mk 2 2 1 "hi" false 2000.

Definition application : Application.t :=
  Application.mk 1 12 1 (Some "I can start now") None None None None None
                 "pending" 700 700.

Definition open_application : Application.t :=
  Application.mk 2 10 1 None None None None None None "under_review" 800 850.

Definition rating (id value : Z) : Rating.t :=
  Rating.mk id 1 2 None value None 900.

Definition db : DatabaseStorage.t :=
  DatabaseStorage.mk
    [alice; bob; carol] [alice_profile]
    [forklift_job; painting_job; finished_job]
    [application; open_application] [] [first_message; second_message] []
    3 1 3 1.

Definition mem : MemStorage.t :=
  MemStorage.mk
    [(1, alice); (2, bob); (3, carol)] [(1, alice_profile)]
    [(10, forklift_job); (11, painting_job); (12, finished_job)]
    [(1, application); (2, open_application)] []
    [(1, first_message); (2, second_message)]
    1 3.

Definition world : World :=
  mkWorld db ∅ ∅ (fun _ => WebSocket.OPEN) [].

(** Seventeen ratings of 1 and three of 2 for Bob: their mean is 1.15. *)
Definition many_ratings : list Rating.t :=
  List.map (fun i => rating i 1) [1; 2; 3; 4; 5; 6; 7; 8; 9; 10; 11; 12; 13; 14; 15; 16; 17]
  ++ List.map (fun i => rating i 2) [18; 19; 20].

(** A socket that authenticated twice and then closed. *)
Definition stale_world : World :=
  snd (socket_closed 5%nat
         (snd (ws_authenticate 5%nat 7
                 (snd (ws_authenticate 5%nat 7 initial_world))))).

Definition ping : Json.object := [("type", Json.Str "new_message")].

(** Alice applies to the painting job and asks for the status herself. *)
Definition apply_request : Request :=
  mkRequest (Some alice) []
    [("jobId", Json.Num 11); ("status", Json.Str "accepted");
     ("coverLetter", Json.Str "Ten years of drywall")].

(** Alice applies again to the finished job, and to the forklift job. *)
Definition reapply_finished : Request :=
  mkRequest (Some alice) [] [("jobId", Json.Num 12)].

Definition reapply_open : Request :=
  mkRequest (Some alice) [] [("jobId", Json.Num 10)].

(** Alice promotes her own application; Carol, who owns no job, does too. *)
Definition worker_patch : Request :=
  mkRequest (Some alice) [("id", "2")]
    [("status", Json.Str "accepted"); ("coverLetter", Json.Str "Please");
     ("expectedRate", Json.Num 40)].

Definition stranger_patch : Request :=
  mkRequest (Some carol) [("id", "2")] [("status", Json.Str "rejected")].

(** Alice rates Bob, and writes to Bob. *)
Definition rate_request : Request :=
  mkRequest (Some alice) [] [("toUserId", Json.Num 2); ("rating", Json.Num 4)].

Definition message_request : Request :=
  mkRequest (Some alice) [] [("toUserId", Json.Num 2); ("content", Json.Str "hello")].

End Sample.

(** ** Further vocabulary and samples *)

(** A message the user sent or received. *)
Definition involves (userId : Z) (m : Message.t) : Prop :=
  Message.fromUserId m = userId \/ Message.toUserId m = userId.

(** At most one application for a job and a worker. *)
Definition one_application_per_pair (d : DatabaseStorage.t) : Prop :=
  List.NoDup (List.map (fun a => (Application.jobId a, Application.workerId a))
                  (DatabaseStorage.applications d)).

(** The ids of the stored applications are below the next value of their
    sequence. *)
Definition application_ids_issued (d : DatabaseStorage.t) : Prop :=
  Forall (fun a => Application.id a < DatabaseStorage.applications_id_seq d)
         (DatabaseStorage.applications d).

(** The columns of an application a worker has no way to write. *)
Definition protected_columns (a : Application.t)
  : Z * Z * Z * string * Z * option string * option Z
    * option string * option string * option string :=
  (Application.id a, Application.jobId a, Application.workerId a,
   Application.status a, Application.appliedAt a,
   Application.resumeUrl a, Application.expectedRate a,
   Application.availableToStart a, Application.preferredHours a,
   Application.referenceInfo a).

(** A message apart from its read flag. *)
Definition message_text (m : Message.t) : Z * Z * Z * string * Z :=
  (Message.id m, Message.fromUserId m, Message.toUserId m,
   Message.content m, Message.createdAt m).

Module Sample2.

Definition rated_mem : MemStorage.t :=
  MemStorage.mk
    [(1, Sample.alice); (2, Sample.bob)] [] [] []
    [(1, Sample.rating 1 4); (2, Sample.rating 2 5); (3, Sample.rating 3 5)] []
    4 1.

(** Bob deletes his finished job. *)
Definition delete_request : Request :=
  mkRequest (Some Sample.bob) [("id", "12")] [].

(** Alice updates her cover letter. *)
Definition cover_letter_patch : Request :=
  mkRequest (Some Sample.alice) [("id", "2")] [("coverLetter", Json.Str "Now with references")].

(** Alice applies to the painting job under Bob's id. *)
Definition impersonating_request : Request :=
  mkRequest (Some Sample.alice) []
    [("jobId", Json.Num 11); ("workerId", Json.Num 2)].

(** Alice's socket after its [authenticate] frame. *)
Definition connected_world : World :=
  snd (ws_authenticate 3%nat 1 Sample.world).

(** Dave is a user of the third type the schema names; he sets the status
    of Alice's application for Bob's job. *)
Definition dave : User.t := User.mk 4 "dave" "Dave Diaz" UserType.ADMIN 0.

Definition admin_world : World :=
  mkWorld (DatabaseStorage.set_users [Sample.alice; Sample.bob; Sample.carol; dave]
                                     Sample.db)
          ∅ ∅ (fun _ => WebSocket.OPEN) [].

Definition admin_patch : Request :=
  mkRequest (Some dave) [("id", "2")] [("status", Json.Str "accepted")].

(** Alice writes to user 99, who does not exist. *)
Definition message_to_nobody : Request :=
  mkRequest (Some Sample.alice) []
    [("toUserId", Json.Num 99); ("content", Json.Str "hello")].

(** Alice sends her application a second time. *)
Definition second_apply_request : Request :=
  mkRequest (Some Sample.alice) []
    [("jobId", Json.Num 11); ("coverLetter", Json.Str "Ten years of drywall")].

End Sample2.

(** * Properties *)

(** ** Sorting *)

Lemma StronglySorted_weaken {A : Type} (R R' : A -> A -> Prop) (l : list A) :
  (forall a b, R a b -> R' a b) -> StronglySorted R l -> StronglySorted R' l.
Proof.
  intros HR. induction 1 as [|x l Hs IH Hx]; constructor.
  - exact IH.
  - eapply List.Forall_impl; [|exact Hx]. intros b. apply HR.
Qed.

Section SortFacts.
Context {A : Type} (compareFn : A -> A -> Z).

Lemma insert_Permutation (x : A) (l : list A) :
  Permutation (JsArray.insert compareFn x l) (x :: l).
Proof.
  induction l as [|y l IH]; simpl.
  - apply Permutation_refl.
  - destruct (compareFn x y <=? 0).
    + apply Permutation_refl.
    + eapply Permutation_trans; [apply perm_skip, IH | apply perm_swap].
Qed.

Lemma sort_Permutation (l : list A) : Permutation (JsArray.sort compareFn l) l.
Proof.
  induction l as [|x l IH]; simpl.
  - apply Permutation_refl.
  - eapply Permutation_trans; [apply insert_Permutation | apply perm_skip, IH].
Qed.

Lemma sort_In (x : A) (l : list A) : In x (JsArray.sort compareFn l) <-> In x l.
Proof.
  split; apply Permutation_in;
    [apply sort_Permutation | apply Permutation_sym, sort_Permutation].
Qed.

(** Where the comparison is the difference of a key, the result is in
    key order. *)
Variable key : A -> Z.
Hypothesis compare_key : forall a b, compareFn a b = key a - key b.

Lemma insert_sorted (x : A) (l : list A) :
  StronglySorted (fun a b => key a <= key b) l ->
  StronglySorted (fun a b => key a <= key b) (JsArray.insert compareFn x l).
Proof.
  induction 1 as [|y l Hs IH Hy]; simpl.
  - repeat constructor.
  - rewrite compare_key. destruct (key x - key y <=? 0) eqn:E.
    + apply Z.leb_le in E. constructor; [constructor; assumption|].
      constructor; [lia|].
      eapply List.Forall_impl; [|exact Hy]. simpl. intros; lia.
    + apply Z.leb_gt in E. constructor; [assumption|].
      eapply Permutation_Forall;
        [apply Permutation_sym, insert_Permutation|].
      constructor; [lia | assumption].
Qed.

Lemma sort_sorted (l : list A) :
  StronglySorted (fun a b => key a <= key b) (JsArray.sort compareFn l).
Proof.
  induction l as [|x l IH]; simpl.
  - constructor.
  - apply insert_sorted, IH.
Qed.

End SortFacts.

(** ** Conversations *)

Lemma in_conversation_between (userA userB : Z) (m : Message.t) :
  DatabaseStorage.in_conversation userA userB m = true <-> between userA userB m.
Proof.
  unfold DatabaseStorage.in_conversation, between.
  rewrite orb_true_iff, !andb_true_iff, !Z.eqb_eq. reflexivity.
Qed.

(** X1. The in-memory store answers a conversation oldest first: exactly
    the messages between the two users, in ascending creation time. *)
Lemma MemStorage_getConversation_chronological (s : MemStorage.t) (userA userB : Z) :
  StronglySorted oldest_first (MemStorage.getConversation s userA userB)
  /\ forall m, In m (MemStorage.getConversation s userA userB)
               <-> In m (JsMap.values (MemStorage.messages s)) /\ between userA userB m.
Proof.
  unfold MemStorage.getConversation. split.
  - apply (sort_sorted _ Message.createdAt). reflexivity.
  - intros m. rewrite sort_In, filter_In.
    change (In m (JsMap.values (MemStorage.messages s))
            /\ DatabaseStorage.in_conversation userA userB m = true
            <-> In m (JsMap.values (MemStorage.messages s)) /\ between userA userB m).
    rewrite in_conversation_between. reflexivity.
Qed.

(** X26. The relational store selects the same messages and orders them
    by descending creation time, for every table and every pair of
    users. *)
Lemma DatabaseStorage_getConversation_descending (d : DatabaseStorage.t) (userA userB : Z) :
  StronglySorted newest_first (DatabaseStorage.getConversation d userA userB)
  /\ forall m, In m (DatabaseStorage.getConversation d userA userB)
               <-> In m (DatabaseStorage.messages d) /\ between userA userB m.
Proof.
  unfold DatabaseStorage.getConversation, Sql.order_by_desc, Sql.select_where. split.
  - pose proof (sort_sorted (fun a b => Message.createdAt b - Message.createdAt a)
                            (fun m => - Message.createdAt m)) as H.
    eapply StronglySorted_weaken; [|apply H; intros; lia].
    unfold newest_first. intros a b Hab. simpl in Hab. lia.
  - intros m. rewrite sort_In, filter_In, in_conversation_between. reflexivity.
Qed.

(** C1. [getConversation(A, B)] is claimed to return the messages between
    A and B oldest first.  On two messages exchanged by users 1 and 2 at
    times 1000 and 2000 the relational store, which the server is wired
    to, returns the later message first; the in-memory store returns them
    oldest first. *)
Theorem getConversation_database_returns_newest_first :
  DatabaseStorage.getConversation Sample.db 1 2
    = [Sample.second_message; Sample.first_message]
  /\ MemStorage.getConversation Sample.mem 1 2
    = [Sample.first_message; Sample.second_message]
  /\ ~ StronglySorted oldest_first (DatabaseStorage.getConversation Sample.db 1 2).
Proof.
  split; [reflexivity|]. split; [reflexivity|].
  intros H. change (DatabaseStorage.getConversation Sample.db 1 2)
    with [Sample.second_message; Sample.first_message] in H.
  inversion H as [|? ? _ Hall]; subst.
  inversion Hall as [|? ? Hle _]; subst.
  unfold oldest_first in Hle. simpl in Hle. lia.
Qed.

(** ** Job matching *)

Lemma includes_In (skill : string) (l : list string) :
  JsArray.includes skill l = true <-> In skill l.
Proof.
  unfold JsArray.includes. rewrite existsb_exists. split.
  - intros [x [Hx E]]. apply String.eqb_eq in E. subst. exact Hx.
  - intros H. exists skill. split; [exact H | apply String.eqb_refl].
Qed.

Lemma overlap_share_a_skill (jobSkills workerSkills : list string) :
  Sql.overlap jobSkills workerSkills = true <-> share_a_skill jobSkills workerSkills.
Proof.
  unfold Sql.overlap, share_a_skill. rewrite existsb_exists.
  split; intros [skill [H1 H2]]; exists skill; split; try exact H1;
    apply includes_In; exact H2.
Qed.

(** What the relational store returns, when the engine accepts the
    matching query, are stored jobs that share a skill with the array the
    engine read. *)
Lemma DatabaseStorage_matched_skills
  (array_in : string -> option (list string))
  (d : DatabaseStorage.t) (workerId : Z) (matched : list Job.t) (job : Job.t) :
  DatabaseStorage.getMatchedJobsForWorker array_in d workerId = Some matched ->
  In job matched ->
  In job (DatabaseStorage.getAllJobs d)
  /\ exists jobSkills skills,
       Job.skills job = Some jobSkills /\ share_a_skill jobSkills skills.
Proof.
  unfold DatabaseStorage.getMatchedJobsForWorker, DatabaseStorage.getAllJobs,
    Sql.select_where.
  destruct (negb (Sql.int4 workerId)); [discriminate|].
  destruct (DatabaseStorage.getWorkerWithProfile d workerId) as [[user [profile|]]|];
    try (intros E; injection E as <-; intros []).
  destruct (WorkerProfile.skills profile) as [workerSkills|];
    [|intros E; injection E as <-; intros []].
  destruct (Sql.interpolated_text_array array_in workerSkills) as [skills|];
    [|discriminate].
  intros E. injection E as <-. intros Hin. apply filter_In in Hin.
  destruct Hin as [Hin Hm]. split; [exact Hin|].
  destruct (Job.skills job) as [jobSkills|]; [|discriminate].
  exists jobSkills, skills. split; [reflexivity | apply overlap_share_a_skill, Hm].
Qed.

Lemma MemStorage_matched_iff (s : MemStorage.t) (workerId : Z) (job : Job.t) :
  In job (MemStorage.getMatchedJobsForWorker s workerId) <->
  exists user profile workerSkills jobSkills,
    MemStorage.getWorkerWithProfile s workerId = Some (user, Some profile)
    /\ WorkerProfile.skills profile = Some workerSkills
    /\ In job (MemStorage.getAllJobs s)
    /\ Job.skills job = Some jobSkills
    /\ share_a_skill jobSkills workerSkills.
Proof.
  unfold MemStorage.getMatchedJobsForWorker.
  destruct (MemStorage.getWorkerWithProfile s workerId) as [[user [profile|]]|].
  - rewrite filter_In. split.
    + intros [Hin Hm].
      destruct (Job.skills job) as [jobSkills|] eqn:Ejob; [|discriminate].
      destruct (WorkerProfile.skills profile) as [workerSkills|] eqn:Eskills;
        [|discriminate].
      exists user, profile, workerSkills, jobSkills.
      repeat split; try assumption.
      apply overlap_share_a_skill, Hm.
    + intros (u & p & ws & js & E & Ews & Hin & Ejs & Hs).
      injection E as <- <-. split; [exact Hin|].
      rewrite Ejs, Ews. apply (proj2 (overlap_share_a_skill js ws)), Hs.
  - split; [intros [] |]. intros (u & p & ws & js & E & _). discriminate.
  - split; [intros [] |]. intros (u & p & ws & js & E & _). discriminate.
Qed.

(** C2, as claimed, draws the matches from the open-or-active jobs.  A
    completed job that shares a skill with the worker is returned. *)
Lemma getMatchedJobsForWorker_returns_completed_job :
  In Sample.finished_job (MemStorage.getMatchedJobsForWorker Sample.mem 1)
  /\ open_or_active Sample.finished_job = false.
Proof.
  split; [vm_compute; tauto | reflexivity].
Qed.

(** C2, amended.  For every worker id, the in-memory store returns
    exactly the stored jobs, of whatever status, whose skill list shares
    a skill with the skill list of the worker's profile; in both stores a
    worker without a profile gets the empty list (in the relational
    store, for an id of the column's range) and a job with no declared
    skills is never returned.  What the relational store answers for a
    worker whose profile lists skills is not part of the statement. *)
Theorem getMatchedJobsForWorker_shared_skill :
  (forall s workerId job,
      In job (MemStorage.getMatchedJobsForWorker s workerId) <->
      exists user profile workerSkills jobSkills,
        MemStorage.getWorkerWithProfile s workerId = Some (user, Some profile)
        /\ WorkerProfile.skills profile = Some workerSkills
        /\ In job (MemStorage.getAllJobs s)
        /\ Job.skills job = Some jobSkills
        /\ share_a_skill jobSkills workerSkills)
  /\ (forall array_in d s workerId,
      (Sql.int4 workerId = true ->
       DatabaseStorage.getWorkerProfile d workerId = None ->
       DatabaseStorage.getMatchedJobsForWorker array_in d workerId = Some [])
      /\ (MemStorage.getWorkerProfile s workerId = None ->
          MemStorage.getMatchedJobsForWorker s workerId = []))
  /\ (forall array_in d s workerId job,
      Job.skills job = None \/ Job.skills job = Some [] ->
      (forall matched,
          DatabaseStorage.getMatchedJobsForWorker array_in d workerId = Some matched ->
          ~ In job matched)
      /\ ~ In job (MemStorage.getMatchedJobsForWorker s workerId)).
Proof.
  split; [exact MemStorage_matched_iff|].
  split.
  - intros array_in d s workerId. split.
    + intros Hrange Hp.
      unfold DatabaseStorage.getMatchedJobsForWorker,
        DatabaseStorage.getWorkerWithProfile.
      rewrite Hrange, Hp. cbn [negb].
      destruct (DatabaseStorage.getUser d workerId) as [u|]; [|reflexivity].
      destruct (negb _); reflexivity.
    + intros Hp.
      unfold MemStorage.getMatchedJobsForWorker, MemStorage.getWorkerWithProfile.
      rewrite Hp. destruct (MemStorage.getUser s workerId) as [u|]; [|reflexivity].
      destruct (negb _); reflexivity.
  - intros array_in d s workerId job Hskills. split.
    + intros matched Hrun Hin.
      destruct (DatabaseStorage_matched_skills _ _ _ _ _ Hrun Hin)
        as (_ & js & skills & Ejs & skill & Hj & _).
      destruct Hskills as [E|E]; rewrite E in Ejs; [discriminate|].
      injection Ejs as <-. destruct Hj.
    + intros Hin. apply MemStorage_matched_iff in Hin.
      destruct Hin as (u & p & ws & js & _ & _ & _ & Ejs & skill & Hj & _).
      destruct Hskills as [E|E]; rewrite E in Ejs; [discriminate|].
      injection Ejs as <-. destruct Hj.
Qed.

(** ** Deleting a job *)

Lemma filter_after_delete_where {A : Type} (p : A -> bool) (l : list A) :
  List.filter p (Sql.delete_where p l) = [].
Proof.
  unfold Sql.delete_where. induction l as [|x l IH]; simpl; [reflexivity|].
  destruct (p x) eqn:E; simpl; [exact IH|]. rewrite E. exact IH.
Qed.

Lemma MemStorage_applications_fold (l : list Application.t) (s : MemStorage.t) :
  MemStorage.applications
    (List.fold_left
       (fun st application =>
          MemStorage.set_applications
            (JsMap.delete (Application.id application) (MemStorage.applications st)) st)
       l s)
  = List.fold_left (fun m application => JsMap.delete (Application.id application) m)
                   l (MemStorage.applications s).
Proof.
  revert s. induction l as [|a l IH]; intros s; simpl; [reflexivity|].
  rewrite IH. reflexivity.
Qed.

Lemma JsMap_delete_In {V : Type} (k : Z) (m : JsMap.t V) (kv : Z * V) :
  In kv (JsMap.delete k m) <-> In kv m /\ fst kv <> k.
Proof.
  unfold JsMap.delete. rewrite filter_In, negb_true_iff, Z.eqb_neq.
  split; intros [H1 H2]; split; auto.
Qed.

Lemma fold_delete_In (l : list Application.t) (m : JsMap.t Application.t)
                     (kv : Z * Application.t) :
  In kv (List.fold_left (fun m a => JsMap.delete (Application.id a) m) l m)
  <-> In kv m /\ forall a, In a l -> Application.id a <> fst kv.
Proof.
  revert m. induction l as [|a l IH]; intros m; simpl.
  - split; [intros H; split; [exact H | intros a []] | intros [H _]; exact H].
  - rewrite IH, JsMap_delete_In. split.
    + intros [[Hin Hne] Hall]. split; [exact Hin|].
      intros a' [<-|Ha']; [congruence | apply Hall, Ha'].
    + intros [Hin Hall]. split; [split; [exact Hin|] |].
      * intros E. apply (Hall a); [left; reflexivity | congruence].
      * intros a' Ha'. apply Hall. right. exact Ha'.
Qed.

Lemma no_element_nil {A : Type} (l : list A) : (forall x, ~ In x l) -> l = [].
Proof.
  destruct l as [|x l]; [reflexivity|]. intros H. destruct (H x). left. reflexivity.
Qed.

(** C7. After [deleteJob(id)] no application of that job is left: listing
    the applications of the job gives the empty list, in the relational
    store and in the in-memory store (whose applications map is keyed by
    the rows' ids). *)
Theorem deleteJob_leaves_no_application
  (d : DatabaseStorage.t) (s : MemStorage.t) (id : Z) :
  keyed_by_id s ->
  DatabaseStorage.getJobApplications (DatabaseStorage.deleteJob d id) id = []
  /\ MemStorage.getJobApplications (MemStorage.deleteJob s id) id = [].
Proof.
  intros Hkeys. split.
  - unfold DatabaseStorage.getJobApplications, DatabaseStorage.deleteJob,
      Sql.select_where. cbv zeta.
    destruct (DatabaseStorage.rated _ id); simpl;
      apply (filter_after_delete_where (fun a => Application.jobId a =? id)).
  - apply no_element_nil. intros a Ha.
    unfold MemStorage.getJobApplications at 1 in Ha.
    apply filter_In in Ha. destruct Ha as [Ha Hjob].
    unfold MemStorage.deleteJob in Ha. rewrite MemStorage_applications_fold in Ha.
    unfold JsMap.values in Ha. apply in_map_iff in Ha.
    destruct Ha as [[k a'] [E Hin]]. simpl in E. subst a'.
    apply fold_delete_In in Hin. destruct Hin as [Hin Hall]. simpl in Hin, Hall.
    unfold keyed_by_id in Hkeys. rewrite List.Forall_forall in Hkeys.
    specialize (Hkeys _ Hin). simpl in Hkeys.
    apply (Hall a); [|exact Hkeys].
    unfold MemStorage.getJobApplications. apply filter_In. split; [|exact Hjob].
    simpl. unfold JsMap.values. apply in_map_iff. exists (k, a). split; [reflexivity|exact Hin].
Qed.

Lemma deleteJob_leaves_no_application_sample :
  DatabaseStorage.getJobApplications (DatabaseStorage.deleteJob Sample.db 12) 12 = []
  /\ MemStorage.getJobApplications (MemStorage.deleteJob Sample.mem 12) 12 = [].
Proof.
  apply deleteJob_leaves_no_application.
  repeat (constructor; [reflexivity|]). constructor.
Defined.

(** ** Live channels *)

(** The loop of [notifyUser] writes one frame per open channel. *)
Lemma forEach_send (notification : Json.object) (l : list WebSocket.t) (w : World) :
  forEach l
    (fun conn w' =>
       if WebSocket.is_open (readyState w' conn)
       then send conn notification w'
       else (tt, w')) w
  = (tt, mkWorld (storage w) (activeConnections w) (socketUserId w) (readyState w)
                 (journal w
                  ++ List.map (fun conn => Sent conn notification)
                       (List.filter (fun conn => WebSocket.is_open (readyState w conn)) l))).
Proof.
  revert w. induction l as [|conn l IH]; intros w; simpl.
  - rewrite app_nil_r. destruct w; reflexivity.
  - unfold bind at 1. destruct (WebSocket.is_open (readyState w conn)) eqn:E.
    + unfold send, record. rewrite IH. simpl.
      rewrite <- app_assoc. reflexivity.
    + rewrite IH. reflexivity.
Qed.

Lemma notifyUser_run (userId : Z) (notification : Json.object) (w : World) :
  notifyUser userId notification w
  = ((0 <? length (registered w userId))%nat,
     mkWorld (storage w) (activeConnections w) (socketUserId w) (readyState w)
             (journal w
              ++ List.map (fun conn => Sent conn notification)
                   (List.filter (fun conn => WebSocket.is_open (readyState w conn))
                                (registered w userId)))).
Proof.
  unfold notifyUser, registered.
  destruct (activeConnections w !! userId) as [userConnections|].
  - destruct (0 <? length userConnections)%nat eqn:E.
    + unfold bind. rewrite forEach_send. reflexivity.
    + destruct userConnections; [|discriminate]. simpl.
      rewrite app_nil_r. destruct w; reflexivity.
  - simpl. rewrite app_nil_r. destruct w; reflexivity.
Qed.

(** C9, as claimed, has [notify] return true exactly when a channel
    received the payload.  A socket that authenticated twice and then
    closed stays registered once: [notifyUser] writes no frame and returns
    true. *)
Lemma notifyUser_true_without_delivery :
  registered Sample.stale_world 7 = [5%nat]
  /\ readyState Sample.stale_world 5%nat = WebSocket.CLOSED
  /\ fst (notifyUser 7 Sample.ping Sample.stale_world) = true
  /\ journal (snd (notifyUser 7 Sample.ping Sample.stale_world)) = [].
Proof.
  repeat split; vm_compute; reflexivity.
Qed.

(** C9, amended.  [notifyUser(userId, payload)] sends the payload to every
    open channel registered for the user, in order, and to no other; it
    returns true if and only if at least one channel is registered for the
    user, open or not; with no channel registered it returns false and
    changes nothing. *)
Theorem notifyUser_sends_to_open_registered_channels
  (w : World) (userId : Z) (notification : Json.object) :
  journal (snd (notifyUser userId notification w))
  = journal w
    ++ List.map (fun conn => Sent conn notification)
         (List.filter (fun conn => WebSocket.is_open (readyState w conn))
                      (registered w userId))
  /\ (fst (notifyUser userId notification w) = true <-> registered w userId <> [])
  /\ (registered w userId = [] ->
      notifyUser userId notification w = (false, w))
  /\ storage (snd (notifyUser userId notification w)) = storage w
  /\ activeConnections (snd (notifyUser userId notification w)) = activeConnections w.
Proof.
  rewrite notifyUser_run. simpl. split; [reflexivity|]. split; [|split].
  - destruct (registered w userId) as [|conn l]; simpl.
    + split; [discriminate | intros H; destruct H; reflexivity].
    + split; [discriminate | reflexivity].
  - intros E. rewrite E. simpl. rewrite app_nil_r. destruct w; reflexivity.
  - split; reflexivity.
Qed.

(** ** Routing *)

(** The first matching route wins. *)
Lemma dispatch_in_app (t1 t2 : list (Routes.Method * list Routes.Segment * Routes.Handler))
                      (method : Routes.Method) (path : list string) :
  Routes.dispatch_in (t1 ++ t2) method path
  = match Routes.dispatch_in t1 method path with
    | Some r => Some r
    | None => Routes.dispatch_in t2 method path
    end.
Proof.
  induction t1 as [|[[m pattern] h] t1 IH]; simpl; [reflexivity|].
  destruct (if Routes.method_eqb m method then Routes.match_path pattern path else None);
    [reflexivity | exact IH].
Qed.

Lemma dispatch_in_handler (t : list (Routes.Method * list Routes.Segment * Routes.Handler))
                          (method : Routes.Method) (path : list string)
                          (h : Routes.Handler) (params : list (string * string)) :
  Routes.dispatch_in t method path = Some (h, params) -> In h (List.map snd t).
Proof.
  induction t as [|[[m pattern] h'] t IH]; simpl; [discriminate|].
  destruct (if Routes.method_eqb m method then Routes.match_path pattern path else None).
  - intros E. injection E as <- _. left. reflexivity.
  - intros E. right. apply IH, E.
Qed.

Lemma dispatch_in_first (t : list (Routes.Method * list Routes.Segment * Routes.Handler))
                        (method m : Routes.Method) (path : list string)
                        (pattern : list Routes.Segment) (h : Routes.Handler)
                        (params : list (string * string)) :
  In (m, pattern, h) t ->
  Routes.method_eqb m method = true ->
  Routes.match_path pattern path = Some params ->
  Routes.dispatch_in t method path <> None.
Proof.
  induction t as [|[[m' pattern'] h'] t IH]; simpl; [intros []|].
  intros [E|Hin] Hm Hp.
  - injection E as -> -> ->. rewrite Hm, Hp. discriminate.
  - destruct (if Routes.method_eqb m' method
              then Routes.match_path pattern' path else None);
      [discriminate | apply IH; assumption].
Qed.

(** The second registration of the match route is never reached. *)
Lemma jobs_match_checked_unreachable
  (method : Routes.Method) (path : list string) (params : list (string * string)) :
  Routes.dispatch method path <> Some (Routes.jobs_match_checked, params).
Proof.
  unfold Routes.dispatch.
  change Routes.routes
    with (removelast Routes.routes
          ++ [(Routes.GET,
               Routes.api [Routes.Lit "jobs"; Routes.Lit "match"; Routes.Param "workerId"],
               Routes.jobs_match_checked)]).
  rewrite dispatch_in_app.
  destruct (Routes.dispatch_in (removelast Routes.routes) method path)
    as [[h ps]|] eqn:E.
  - intros E'. injection E' as -> ->. apply dispatch_in_handler in E.
    cbv in E. repeat (destruct E as [E|E]; [discriminate E|]). exact E.
  - change (Routes.dispatch_in
              [(Routes.GET,
                Routes.api [Routes.Lit "jobs"; Routes.Lit "match"; Routes.Param "workerId"],
                Routes.jobs_match_checked)] method path)
      with (match (if Routes.method_eqb Routes.GET method
                   then Routes.match_path
                          (Routes.api [Routes.Lit "jobs"; Routes.Lit "match";
                                       Routes.Param "workerId"]) path
                   else None) with
            | Some ps => Some (Routes.jobs_match_checked, ps)
            | None => None
            end).
    destruct (Routes.method_eqb Routes.GET method) eqn:Hm; [|discriminate].
    destruct (Routes.match_path _ path) as [ps|] eqn:E'; [|discriminate].
    intros _. revert E.
    eapply dispatch_in_first; [|exact Hm|exact E'].
    cbv. do 6 right. left. reflexivity.
Qed.

Lemma getWorkerWithProfile_no_worker (d : DatabaseStorage.t) (workerId : Z) :
  (forall u, In u (DatabaseStorage.users d) -> User.id u = workerId ->
             User.userType u <> UserType.WORKER) ->
  DatabaseStorage.getWorkerWithProfile d workerId = None.
Proof.
  intros Hno. unfold DatabaseStorage.getWorkerWithProfile, DatabaseStorage.getUser.
  destruct (List.head _) as [u|] eqn:E; [|reflexivity].
  assert (Hin : In u (Sql.select_where (fun u => User.id u =? workerId)
                                       (DatabaseStorage.users d))).
  { destruct (Sql.select_where _ _) as [|u' l]; [discriminate|].
    injection E as ->. left. reflexivity. }
  apply filter_In in Hin. destruct Hin as [Hin Hid]. apply Z.eqb_eq in Hid.
  specialize (Hno u Hin Hid).
  destruct (String.eqb (User.userType u) UserType.WORKER) eqn:Et; [|reflexivity].
  apply String.eqb_eq in Et. contradiction.
Qed.

(** C10, as claimed, has every worker id of no worker answered with the
    empty list.  No user has the id 99999999999, which is no value of the
    id column: the query for the user is refused and the handler answers
    500. *)
Lemma jobs_match_unknown_worker_out_of_range :
  (forall u, In u (DatabaseStorage.users (storage Sample.world)) ->
             User.id u <> 99999999999)
  /\ forall array_in,
       option_map (fun respond => respond Sample.world)
         (Routes.serve array_in Routes.GET ["api"; "jobs"; "match"; "99999999999"]
                       None [] 0)
       = Some (json 500 (message_body "Failed to retrieve matched jobs"), Sample.world).
Proof.
  split.
  - simpl. intros u [<-|[<-|[<-|[]]]]; discriminate.
  - intros array_in. reflexivity.
Qed.

(** C10, amended.  For a worker id of the id column's range for which no
    worker user exists, a GET of /api/jobs/match/:workerId is served by
    the handler registered first, which answers 200 with the empty list;
    the handler registered second would answer 404, and no request
    reaches it.  For an id outside that range the first handler answers
    500. *)
Theorem jobs_match_unknown_worker_gets_empty_list
  (array_in : string -> option (list string))
  (w : World) (seg : string) (workerId : Z)
  (user : option User.t) (body : Json.object) (now : Z) :
  Routes.plain seg = true ->
  JsGlobal.parseInt seg = Some workerId ->
  Routes.dispatch Routes.GET ["api"; "jobs"; "match"; seg]
    = Some (Routes.jobs_match, [("workerId", seg)])
  /\ (Sql.int4 workerId = true ->
      (forall u, In u (DatabaseStorage.users (storage w)) -> User.id u = workerId ->
                 User.userType u <> UserType.WORKER) ->
      option_map (fun respond => respond w)
        (Routes.serve array_in Routes.GET ["api"; "jobs"; "match"; seg] user body now)
      = Some (json 200 (jobs_body []), w)
      /\ Routes.get_jobs_match_checked array_in (mkRequest user [("workerId", seg)] body) w
         = (json 404 (message_body "Worker not found"), w))
  /\ (Sql.int4 workerId = false ->
      option_map (fun respond => respond w)
        (Routes.serve array_in Routes.GET ["api"; "jobs"; "match"; seg] user body now)
      = Some (json 500 (message_body "Failed to retrieve matched jobs"), w))
  /\ (forall method path params,
         Routes.dispatch method path <> Some (Routes.jobs_match_checked, params)).
Proof.
  intros Hplain Hparse.
  assert (Hd : Routes.dispatch Routes.GET ["api"; "jobs"; "match"; seg]
               = Some (Routes.jobs_match, [("workerId", seg)])).
  { destruct seg as [|c seg']; [discriminate Hparse | reflexivity]. }
  assert (Hserve :
    Routes.serve array_in Routes.GET ["api"; "jobs"; "match"; seg] user body now
    = Some (Routes.get_jobs_match array_in (mkRequest user [("workerId", seg)] body))).
  { unfold Routes.serve. rewrite Hd. cbn [List.forallb snd]. rewrite Hplain.
    reflexivity. }
  split; [exact Hd|]. split; [|split].
  - intros Hrange Hno.
    pose proof (getWorkerWithProfile_no_worker _ _ Hno) as Hnone.
    split.
    + rewrite Hserve. cbn [option_map].
      unfold Routes.get_jobs_match, param. simpl. rewrite Hparse.
      unfold bind, query, ret.
      unfold DatabaseStorage.getMatchedJobsForWorker. rewrite Hrange, Hnone.
      reflexivity.
    + unfold Routes.get_jobs_match_checked, param. simpl. rewrite Hparse, Hrange.
      cbn [negb]. unfold bind, query, ret. rewrite Hnone. reflexivity.
  - intros Hrange. rewrite Hserve. cbn [option_map].
    unfold Routes.get_jobs_match, param. simpl. rewrite Hparse.
    unfold bind, query, ret.
    unfold DatabaseStorage.getMatchedJobsForWorker. rewrite Hrange. reflexivity.
  - exact jobs_match_checked_unreachable.
Qed.

Lemma jobs_match_unknown_worker_sample :
  option_map (fun respond => respond Sample.world)
    (Routes.serve (fun _ => None) Routes.GET ["api"; "jobs"; "match"; "42"] None [] 0)
  = Some (json 200 (jobs_body []), Sample.world).
Proof.
  refine (proj1 (proj1 (proj2 (jobs_match_unknown_worker_gets_empty_list
                                 (fun _ => None) Sample.world "42" 42 None [] 0 _ _))
                       _ _)).
  - reflexivity.
  - reflexivity.
  - reflexivity.
  - simpl. intros u [<-|[<-|[<-|[]]]]; discriminate.
Defined.

(** ** Handlers *)

Lemma get_set_same (k : string) (v : Json.value) (o : Json.object) :
  Json.get k (Json.set k v o) = Some v.
Proof.
  induction o as [|[k' v'] o IH]; simpl.
  - rewrite String.eqb_refl. reflexivity.
  - destruct (String.eqb k k') eqn:E; simpl.
    + rewrite String.eqb_refl. reflexivity.
    + rewrite E. exact IH.
Qed.

Lemma insertMessageSchema_parse_sender (id : Z) (o : Json.object) (v : InsertMessage.t) :
  insertMessageSchema_parse (Json.set "fromUserId" (Json.Num id) o) = Some v ->
  InsertMessage.fromUserId v = id.
Proof.
  unfold insertMessageSchema_parse, Zod.int at 1. rewrite get_set_same.
  destruct (Zod.int _ "toUserId"); [|discriminate].
  destruct (Zod.str _ "content"); [|discriminate].
  intros E. injection E as <-. reflexivity.
Qed.

(** POST /api/messages for a signed-in user and a body the schema
    accepts, written out. *)
Lemma post_messages_run (req : Request) (now : Z) (w : World)
                        (user : User.t) (validatedData : InsertMessage.t) :
  req_user req = Some user ->
  insertMessageSchema_parse
    (Json.set "fromUserId" (Json.Num (User.id user)) (req_body req))
  = Some validatedData ->
  Routes.post_messages req now w
  = if DatabaseStorage.references_user (storage w) (User.id user)
       && DatabaseStorage.references_user (storage w)
                                          (InsertMessage.toUserId validatedData)
    then
      let d := storage w in
      let recipient := InsertMessage.toUserId validatedData in
      let message :=
        Message.mk (DatabaseStorage.messages_id_seq d) (User.id user) recipient
                   (InsertMessage.content validatedData) false now in
      let notification :=
        Notification.mk (DatabaseStorage.notifications_id_seq d) recipient
                        "New Message"
                        ("You have a new message from " ++ User.fullName user)%string
                        "message" false (Some (Message.id message)) now in
      (json 201 (message_row_body message),
       mkWorld
         (DatabaseStorage.mk
            (DatabaseStorage.users d) (DatabaseStorage.workerProfiles d)
            (DatabaseStorage.jobs d) (DatabaseStorage.applications d)
            (DatabaseStorage.ratings d)
            (DatabaseStorage.messages d ++ [message])
            (DatabaseStorage.notifications d ++ [notification])
            (DatabaseStorage.applications_id_seq d) (DatabaseStorage.ratings_id_seq d)
            (DatabaseStorage.messages_id_seq d + 1)
            (DatabaseStorage.notifications_id_seq d + 1))
         (activeConnections w) (socketUserId w) (readyState w)
         (journal w
          ++ [Stored "messages" (Message.id message);
              Stored "notifications" (Notification.id notification)]
          ++ List.map
               (fun conn =>
                  Sent conn [("type", Json.Str "new_message");
                             ("messageId", Json.Num (Message.id message));
                             ("fromUserId", Json.Num (User.id user));
                             ("fromName", Json.Str (User.fullName user))])
               (List.filter (fun conn => WebSocket.is_open (readyState w conn))
                            (registered w recipient))))
    else (json 500 (message_body "Failed to send message"), w).
Proof.
  intros Huser Hparse.
  pose proof (insertMessageSchema_parse_sender _ _ _ Hparse) as Hfrom.
  unfold Routes.post_messages. rewrite Huser, Hparse. cbv zeta.
  unfold Routes.createMessage, Routes.createNotification.
  io_unfold. unfold record.
  unfold DatabaseStorage.createMessage. rewrite Hfrom.
  destruct (DatabaseStorage.references_user (storage w) (User.id user)
            && DatabaseStorage.references_user
                 (storage w) (InsertMessage.toUserId validatedData)) eqn:Eok;
    cbv beta iota zeta; [|reflexivity].
  apply andb_prop in Eok. destruct Eok as [_ Eto].
  cbn [storage activeConnections socketUserId readyState journal fst snd].
  unfold DatabaseStorage.createNotification.
  cbn [InsertNotification.userId InsertNotification.title InsertNotification.content
       InsertNotification.type InsertNotification.relatedId].
  change (DatabaseStorage.references_user
            (DatabaseStorage.mk _ _ _ _ _ _ _ _ _ _ _)
            (InsertMessage.toUserId validatedData))
    with (DatabaseStorage.references_user
            (storage w) (InsertMessage.toUserId validatedData)).
  rewrite Eto. cbv beta iota zeta.
  cbn [storage activeConnections socketUserId readyState journal fst snd].
  rewrite notifyUser_run.
  unfold registered, Sql.insert.
  cbn [storage activeConnections socketUserId readyState journal fst snd
       DatabaseStorage.users DatabaseStorage.workerProfiles DatabaseStorage.jobs
       DatabaseStorage.applications DatabaseStorage.ratings DatabaseStorage.messages
       DatabaseStorage.notifications DatabaseStorage.applications_id_seq
       DatabaseStorage.ratings_id_seq DatabaseStorage.messages_id_seq
       DatabaseStorage.notifications_id_seq Message.id Notification.id].
  rewrite <- !app_assoc. reflexivity.
Qed.

(** C8, as claimed, has every call store the message and report success.
    Alice writes to user 99: no user has that id and no channel is
    registered for it; the engine refuses the message, whose recipient
    must be a user, nothing is stored and the answer is 500. *)
Lemma post_messages_to_nobody :
  DatabaseStorage.getUser (storage Sample.world) 99 = None
  /\ registered Sample.world 99 = []
  /\ Routes.post_messages Sample2.message_to_nobody 5000 Sample.world
     = (json 500 (message_body "Failed to send message"), Sample.world).
Proof.
  split; [reflexivity|]. split; reflexivity.
Qed.

(** C8, amended.  A POST /api/messages by a signed-in user, who is a
    stored user, with a body the schema accepts,
    to a recipient who is a user, inserts the message (unread)
    and then a notification for the recipient (type "message", related
    to the message), both before the first frame is written to a socket,
    and answers 201 with the message; with no channel registered for the
    recipient no frame is written and the answer is the same.  To a
    recipient who is no user nothing is stored and nothing is sent. *)
Theorem post_messages_persists_before_delivery
  (req : Request) (now : Z) (w : World)
  (user : User.t) (validatedData : InsertMessage.t) :
  req_user req = Some user ->
  insertMessageSchema_parse
    (Json.set "fromUserId" (Json.Num (User.id user)) (req_body req))
  = Some validatedData ->
  DatabaseStorage.references_user (storage w) (User.id user) = true ->
  (DatabaseStorage.references_user (storage w) (InsertMessage.toUserId validatedData)
   = true ->
   exists message notification,
     let w' := snd (Routes.post_messages req now w) in
     let recipient := InsertMessage.toUserId validatedData in
     let frame :=
       [("type", Json.Str "new_message");
        ("messageId", Json.Num (Message.id message));
        ("fromUserId", Json.Num (User.id user));
        ("fromName", Json.Str (User.fullName user))] in
     fst (Routes.post_messages req now w) = json 201 (message_row_body message)
     /\ Message.isRead message = false
     /\ Message.fromUserId message = User.id user
     /\ Message.toUserId message = recipient
     /\ Message.content message = InsertMessage.content validatedData
     /\ DatabaseStorage.messages (storage w')
        = DatabaseStorage.messages (storage w) ++ [message]
     /\ Notification.userId notification = recipient
     /\ Notification.type notification = "message"
     /\ Notification.relatedId notification = Some (Message.id message)
     /\ Notification.isRead notification = false
     /\ DatabaseStorage.notifications (storage w')
        = DatabaseStorage.notifications (storage w) ++ [notification]
     /\ journal w'
        = journal w
          ++ [Stored "messages" (Message.id message);
              Stored "notifications" (Notification.id notification)]
          ++ List.map (fun conn => Sent conn frame)
               (List.filter (fun conn => WebSocket.is_open (readyState w conn))
                            (registered w recipient))
     /\ (registered w recipient = [] ->
         journal w'
         = journal w
           ++ [Stored "messages" (Message.id message);
               Stored "notifications" (Notification.id notification)]))
  /\ (DatabaseStorage.references_user (storage w) (InsertMessage.toUserId validatedData)
      = false ->
      Routes.post_messages req now w
      = (json 500 (message_body "Failed to send message"), w)).
Proof.
  intros Huser Hparse Hsender.
  rewrite (post_messages_run req now w user validatedData Huser Hparse), Hsender.
  cbn [andb]. split; intros Hrecipient; rewrite Hrecipient; [|reflexivity].
  cbv zeta. eexists. eexists. cbn [fst snd storage journal].
  repeat match goal with |- _ /\ _ => split end.
  all: try reflexivity.
  all: try reflexivity.
  intros E. rewrite E. cbn [List.filter List.map]. reflexivity.
Qed.

Lemma post_messages_persists_before_delivery_sample :
  exists message notification,
    fst (Routes.post_messages Sample.message_request 5000 Sample.world)
      = json 201 (message_row_body message)
    /\ Message.isRead message = false
    /\ Notification.relatedId notification = Some (Message.id message)
    /\ journal (snd (Routes.post_messages Sample.message_request 5000 Sample.world))
       = [Stored "messages" (Message.id message);
          Stored "notifications" (Notification.id notification)].
Proof.
  destruct (proj1 (post_messages_persists_before_delivery
                     Sample.message_request 5000 Sample.world Sample.alice
                     (InsertMessage.mk 1 2 "hello") eq_refl eq_refl eq_refl) eq_refl)
    as (message & notification & H).
  exists message, notification.
  destruct H as (H1 & H2 & _ & _ & _ & _ & _ & _ & H9 & _ & _ & _ & H13).
  split; [exact H1|]. split; [exact H2|]. split; [exact H9|].
  apply H13. reflexivity.
Defined.

(** The fields of a patch a worker may not write. *)
Lemma invalidFields_nonempty (l : list string) :
  l <> [] -> (0 <? length l)%nat = true.
Proof. destruct l; [congruence | reflexivity]. Qed.

(** X27. PUT /api/applications/:id: a worker's patch of the worker's own
    application that names a field other than [coverLetter] is answered
    403 with the offending fields in the message; an employer's patch of
    an application whose job the employer does not own is answered 403;
    and whenever the store changes, the application exists, the change is
    that of [updateApplication], an employer who asked owns the job, and
    a worker who asked owns the application and names no field but
    [coverLetter].  A requester of another type is not checked. *)
Theorem put_applications_id_authorization (req : Request) (now : Z) (w : World) :
  let response := fst (Routes.put_applications_id req now w) in
  let w' := snd (Routes.put_applications_id req now w) in
  let invalidFields :=
    List.filter (fun field => negb (JsArray.includes field ["coverLetter"]))
                (Json.keys (req_body req)) in
  (forall user applicationId application,
      req_user req = Some user ->
      JsGlobal.parseInt (param req "id") = Some applicationId ->
      DatabaseStorage.getApplication (storage w) applicationId = Some application ->
      User.userType user = UserType.WORKER ->
      Application.workerId application = User.id user ->
      invalidFields <> [] ->
      response
      = json 403 (message_body ("Workers cannot update these fields: "
                                ++ JsArray.join ", " invalidFields)%string)
      /\ w' = w)
  /\ (forall user applicationId application,
      req_user req = Some user ->
      JsGlobal.parseInt (param req "id") = Some applicationId ->
      DatabaseStorage.getApplication (storage w) applicationId = Some application ->
      User.userType user = UserType.EMPLOYER ->
      (forall job,
          DatabaseStorage.getJob (storage w) (Application.jobId application) = Some job ->
          Job.employerId job <> User.id user) ->
      response
      = json 403 (message_body "You can only update applications for your own jobs")
      /\ w' = w)
  /\ (w' <> w ->
      exists user applicationId application,
        req_user req = Some user
        /\ JsGlobal.parseInt (param req "id") = Some applicationId
        /\ DatabaseStorage.getApplication (storage w) applicationId = Some application
        /\ (User.userType user = UserType.EMPLOYER ->
            exists job,
              DatabaseStorage.getJob (storage w) (Application.jobId application) = Some job
              /\ Job.employerId job = User.id user)
        /\ (User.userType user = UserType.WORKER ->
            Application.workerId application = User.id user /\ invalidFields = [])
        /\ storage w'
           = snd (DatabaseStorage.updateApplication (storage w) applicationId
                                                    (req_body req) now)).
Proof.
  cbv zeta. split; [|split].
  - intros user applicationId application Huser Hid Happ Htype Hown Hbad.
    unfold Routes.put_applications_id. rewrite Huser, Hid. io_unfold.
    rewrite Happ, Htype.
    change (String.eqb UserType.WORKER "employer") with false.
    change (String.eqb UserType.WORKER "worker") with true.
    cbv beta iota. rewrite Hown, Z.eqb_refl. cbn [negb].
    rewrite (invalidFields_nonempty _ Hbad). split; reflexivity.
  - intros user applicationId application Huser Hid Happ Htype Hother.
    unfold Routes.put_applications_id. rewrite Huser, Hid. io_unfold.
    rewrite Happ, Htype.
    change (String.eqb UserType.EMPLOYER "employer") with true. cbv beta iota.
    destruct (DatabaseStorage.getJob (storage w) (Application.jobId application))
      as [job|] eqn:Ejob; [|split; reflexivity].
    destruct (Job.employerId job =? User.id user) eqn:E; [|split; reflexivity].
    apply Z.eqb_eq in E. destruct (Hother job eq_refl E).
  - unfold Routes.put_applications_id.
    destruct (req_user req) as [user|]; [|intros H; destruct H; reflexivity].
    destruct (JsGlobal.parseInt (param req "id")) as [applicationId|];
      [|intros H; destruct H; reflexivity].
    io_unfold.
    destruct (DatabaseStorage.getApplication (storage w) applicationId)
      as [application|] eqn:Happ; [|intros H; destruct H; reflexivity].
    destruct (String.eqb (User.userType user) "employer") eqn:Eemp; cbv beta iota.
    + apply String.eqb_eq in Eemp.
      destruct (DatabaseStorage.getJob (storage w) (Application.jobId application))
        as [job|] eqn:Ejob; [|intros H; destruct H; reflexivity].
      destruct (Job.employerId job =? User.id user) eqn:E; cbv beta iota;
        [|intros H; destruct H; reflexivity].
      apply Z.eqb_eq in E. intros _. exists user, applicationId, application.
      do 3 (split; [first [reflexivity | assumption]|]). split; [|split].
      * intros _. exists job. split; [first [reflexivity | assumption] | exact E].
      * intros Hw. rewrite Hw in Eemp. discriminate.
      * destruct (DatabaseStorage.updateApplication _ _ _ _). reflexivity.
    + apply String.eqb_neq in Eemp.
      destruct (String.eqb (User.userType user) "worker") eqn:Ew; cbv beta iota.
      * destruct (Application.workerId application =? User.id user) eqn:Eown;
          cbn [negb]; cbv beta iota; [|intros H; destruct H; reflexivity].
        apply Z.eqb_eq in Eown.
        destruct (List.filter _ (Json.keys (req_body req))) as [|field fields] eqn:Ef;
          [|intros H; destruct H; reflexivity].
        cbn [length Nat.ltb Nat.leb]. cbv beta iota.
        intros _. exists user, applicationId, application.
        do 3 (split; [first [reflexivity | assumption]|]). split; [|split].
        -- intros He. contradiction.
        -- intros _. split; [exact Eown | reflexivity].
        -- destruct (DatabaseStorage.updateApplication _ _ _ _). reflexivity.
      * apply String.eqb_neq in Ew.
        intros _. exists user, applicationId, application.
        do 3 (split; [first [reflexivity | assumption]|]). split; [|split].
        -- intros He. contradiction.
        -- intros Hw. contradiction.
        -- destruct (DatabaseStorage.updateApplication _ _ _ _). reflexivity.
Qed.

Lemma put_applications_id_authorization_sample :
  fst (Routes.put_applications_id Sample.worker_patch 9000 Sample.world)
  = json 403 (message_body "Workers cannot update these fields: status, expectedRate")
  /\ snd (Routes.put_applications_id Sample.worker_patch 9000 Sample.world)
     = Sample.world.
Proof.
  apply (proj1 (put_applications_id_authorization Sample.worker_patch 9000 Sample.world)
               Sample.alice 2 Sample.open_application);
    try reflexivity.
  discriminate.
Defined.

(** Carol, who owns no job, is refused as well. *)
Example put_applications_id_stranger :
  Routes.put_applications_id Sample.stranger_patch 9000 Sample.world
  = (json 403 (message_body "You can only update applications for your own jobs"),
     Sample.world).
Proof. reflexivity. Qed.

(** C6.  The claim lets only requests that passed the check of a worker
    or of an employer change an application.  The handler checks an
    employer and a worker and nobody else: Dave, whose user type is the
    third one the schema names, neither owns the job nor is the
    applicant, passes neither check, and sets the status of Alice's
    application for Bob's job; he is answered 200 with the changed row.
    GET /api/applications answers a user of that type 403 "Invalid user
    type". *)
Theorem put_applications_id_unchecked_user_type :
  let accepted :=
    Application.mk 2 10 1 None None None None None None "accepted" 800 9000 in
  User.userType Sample2.dave = UserType.ADMIN
  /\ DatabaseStorage.getUser (storage Sample2.admin_world) 4 = Some Sample2.dave
  /\ DatabaseStorage.getApplication (storage Sample2.admin_world) 2
     = Some Sample.open_application
  /\ Application.workerId Sample.open_application <> User.id Sample2.dave
  /\ DatabaseStorage.getJob (storage Sample2.admin_world)
                            (Application.jobId Sample.open_application)
     = Some Sample.forklift_job
  /\ Job.employerId Sample.forklift_job <> User.id Sample2.dave
  /\ fst (Routes.put_applications_id Sample2.admin_patch 9000 Sample2.admin_world)
     = json 200 (application_body (Some accepted))
  /\ DatabaseStorage.getApplication
       (storage (snd (Routes.put_applications_id
                        Sample2.admin_patch 9000 Sample2.admin_world))) 2
     = Some accepted
  /\ Application.status Sample.open_application <> Application.status accepted.
Proof.
  cbv zeta. repeat split; try reflexivity; discriminate.
Qed.

(** ** Applications *)

(** C3. Every POST /api/applications answered 201 has appended one
    application whose status is "pending" and whose [appliedAt] and
    [updatedAt] are the time of the call, whatever the body said about
    the status; and a worker's valid submission for a job that is neither
    open nor in progress is answered 400 "This job is not accepting
    applications" and changes nothing. *)
Theorem post_applications_pending_now (req : Request) (now : Z) (w : World) :
  let response := fst (Routes.post_applications req now w) in
  let w' := snd (Routes.post_applications req now w) in
  (status response = 201 ->
   exists application,
     body response = application_body (Some application)
     /\ DatabaseStorage.applications (storage w')
        = DatabaseStorage.applications (storage w) ++ [application]
     /\ Application.status application = ApplicationStatus.PENDING
     /\ Application.appliedAt application = now
     /\ Application.updatedAt application = now)
  /\ (forall user validatedData job,
      req_user req = Some user ->
      User.userType user = UserType.WORKER ->
      insertApplicationSchema_parse
        (Json.set "workerId" (Json.Num (User.id user))
                  (Json.remove "resumeUrl" (req_body req)))
      = Some validatedData ->
      DatabaseStorage.getJob (storage w) (InsertApplication.jobId validatedData)
      = Some job ->
      Job.status job <> JobStatus.OPEN ->
      Job.status job <> JobStatus.IN_PROGRESS ->
      response = json 400 (message_body "This job is not accepting applications")
      /\ w' = w).
Proof.
  cbv zeta. split.
  - unfold Routes.post_applications.
    destruct (req_user req) as [user|]; [|intros H; discriminate H].
    destruct (negb _); [intros H; discriminate H|].
    destruct (insertApplicationSchema_parse _) as [validatedData|];
      [|intros H; discriminate H].
    io_unfold.
    destruct (DatabaseStorage.getJob _ _) as [job|]; [|intros H; discriminate H].
    destruct (_ && _); cbv beta iota; [intros H; discriminate H|].
    destruct (DatabaseStorage.getApplicationByJobAndWorker _ _ _);
      [intros H; discriminate H|].
    intros _. unfold Routes.createApplication. io_unfold. simpl.
    eexists. split; [reflexivity|]. repeat split; reflexivity.
  - intros user validatedData job Huser Htype Hparse Hjob Hopen Hprogress.
    unfold Routes.post_applications. rewrite Huser, Htype.
    change (negb (String.eqb UserType.WORKER "worker")) with false. cbv beta iota.
    rewrite Hparse. io_unfold. rewrite Hjob.
    apply String.eqb_neq in Hopen, Hprogress. rewrite Hopen, Hprogress.
    split; reflexivity.
Qed.

Lemma post_applications_pending_now_sample :
  exists application,
    body (fst (Routes.post_applications Sample.apply_request 9000 Sample.world))
    = application_body (Some application)
    /\ DatabaseStorage.applications
         (storage (snd (Routes.post_applications Sample.apply_request 9000 Sample.world)))
       = DatabaseStorage.applications Sample.db ++ [application]
    /\ Application.status application = ApplicationStatus.PENDING
    /\ Application.appliedAt application = 9000
    /\ Application.updatedAt application = 9000.
Proof.
  apply (proj1 (post_applications_pending_now Sample.apply_request 9000 Sample.world)).
  reflexivity.
Defined.

(** C5, as claimed, has every second application for a pair fail with the
    duplicate error.  Alice has applied to job 12, which has since been
    completed; her second application is refused because the job accepts
    no applications, not because she has applied. *)
Lemma post_applications_second_for_finished_job :
  DatabaseStorage.getApplicationByJobAndWorker Sample.db 12 1 = Some Sample.application
  /\ Routes.post_applications Sample.reapply_finished 9000 Sample.world
     = (json 400 (message_body "This job is not accepting applications"), Sample.world)
  /\ fst (Routes.post_applications Sample.reapply_finished 9000 Sample.world)
     <> json 400 (message_body "You have already applied for this job").
Proof.
  split; [reflexivity|]. split; [reflexivity|]. discriminate.
Qed.

(** C5, amended.  When an application exists for the job and the worker,
    a second valid submission by that worker for that job is never
    accepted and leaves the store unchanged.  It is answered 400 "You
    have already applied for this job" when the job is open or in
    progress, and by the job checks, which come first, otherwise: 404
    "Job not found" when the job is not found, 400 "This job is not
    accepting applications" when it is neither open nor in progress. *)
Theorem post_applications_second_is_refused
  (req : Request) (now : Z) (w : World)
  (user : User.t) (validatedData : InsertApplication.t) (existing : Application.t) :
  req_user req = Some user ->
  User.userType user = UserType.WORKER ->
  insertApplicationSchema_parse
    (Json.set "workerId" (Json.Num (User.id user))
              (Json.remove "resumeUrl" (req_body req)))
  = Some validatedData ->
  DatabaseStorage.getApplicationByJobAndWorker
    (storage w) (InsertApplication.jobId validatedData) (User.id user)
  = Some existing ->
  let response := fst (Routes.post_applications req now w) in
  snd (Routes.post_applications req now w) = w
  /\ (DatabaseStorage.getJob (storage w) (InsertApplication.jobId validatedData)
      = None ->
      response = json 404 (message_body "Job not found"))
  /\ (forall job,
      DatabaseStorage.getJob (storage w) (InsertApplication.jobId validatedData)
      = Some job ->
      response
      = if open_or_active job
        then json 400 (message_body "You have already applied for this job")
        else json 400 (message_body "This job is not accepting applications")).
Proof.
  intros Huser Htype Hparse Hexisting. cbv zeta.
  unfold Routes.post_applications. rewrite Huser, Htype.
  change (negb (String.eqb UserType.WORKER "worker")) with false. cbv beta iota.
  rewrite Hparse. io_unfold.
  destruct (DatabaseStorage.getJob _ _) as [job|] eqn:Hjob.
  - unfold open_or_active.
    destruct (String.eqb (Job.status job) JobStatus.OPEN) eqn:Hopen;
      [|destruct (String.eqb (Job.status job) JobStatus.IN_PROGRESS) eqn:Hprogress];
      cbn [negb andb orb]; cbv beta iota; rewrite ?Hexisting.
    + split; [reflexivity|]. split; [discriminate|].
      intros job' E. injection E as <-. rewrite Hopen. reflexivity.
    + split; [reflexivity|]. split; [discriminate|].
      intros job' E. injection E as <-. rewrite Hopen, Hprogress. reflexivity.
    + split; [reflexivity|]. split; [discriminate|].
      intros job' E. injection E as <-. rewrite Hopen, Hprogress. reflexivity.
  - split; [reflexivity|]. split; [reflexivity|]. intros job' E. discriminate E.
Qed.

Lemma post_applications_second_is_refused_sample :
  snd (Routes.post_applications Sample.reapply_open 9000 Sample.world) = Sample.world
  /\ fst (Routes.post_applications Sample.reapply_open 9000 Sample.world)
     = json 400 (message_body "You have already applied for this job").
Proof.
  destruct (post_applications_second_is_refused
              Sample.reapply_open 9000 Sample.world Sample.alice
              (InsertApplication.mk 10 1 None None None None None None None)
              Sample.open_application eq_refl eq_refl eq_refl eq_refl)
    as (Hsame & _ & Hjob).
  split; [exact Hsame|].
  exact (Hjob Sample.forklift_job eq_refl).
Defined.

(** ** The binary64 quotient and its decimal *)

(** Rounding moves a quotient by at most half a unit. *)
Lemma round_half_even_near (p q : Z) :
  0 < q -> 2 * Z.abs (Number.round_half_even p q * q - p) <= q.
Proof.
  intros Hq. unfold Number.round_half_even.
  pose proof (Z.div_mod p q ltac:(lia)) as Hdm.
  pose proof (Z.mod_pos_bound p q Hq) as Hr.
  set (f := p / q) in *. set (r := p mod q) in *.
  destruct (Z.compare_spec (2 * r) q) as [E|E|E];
    [destruct (Z.even f)|..]; lia.
Qed.

Lemma round_half_even_floor (p q : Z) :
  0 < q -> p / q <= Number.round_half_even p q.
Proof.
  intros Hq. unfold Number.round_half_even.
  destruct (2 * (p mod q) ?= q); [destruct (Z.even (p / q))|..]; lia.
Qed.

(** The scale brings the quotient up to [2^52]. *)
Lemma div_pos_scale (a b : Z) :
  0 < b -> 0 < a -> a < 2 ^ 53 ->
  0 <= Number.scale (Number.div_pos a b)
  /\ b * 2 ^ 52 <= a * 2 ^ Number.scale (Number.div_pos a b).
Proof.
  intros Hb Hab Ha. unfold Number.div_pos. cbn [Number.scale].
  assert (Hla := Z.log2_spec a ltac:(lia)).
  assert (Hlb := Z.log2_spec b Hb).
  assert (Hla0 := Z.log2_nonneg a). assert (Hlb0 := Z.log2_nonneg b).
  assert (Hla53 : Z.log2 a < 53) by (apply Z.log2_lt_pow2; lia).
  set (la := Z.log2 a) in *. set (lb := Z.log2 b) in *.
  destruct (b * 2 ^ 52 <=? a * 2 ^ (52 - (la - lb))) eqn:E.
  - apply Z.leb_le in E. split; [lia | exact E].
  - split; [lia|].
    replace (52 - (la - lb) + 1) with ((52 - la) + (lb + 1)) by lia.
    rewrite Z.pow_add_r by lia.
    assert (H52 : 2 ^ 52 = 2 ^ (52 - la) * 2 ^ la).
    { rewrite <- Z.pow_add_r by lia. f_equal. lia. }
    rewrite H52.
    assert (HX : 0 < 2 ^ (52 - la)) by (apply Z.pow_pos_nonneg; lia).
    assert (HY : 0 < 2 ^ la <= a) by lia.
    assert (HZ : b < 2 ^ (lb + 1)) by (rewrite Z.add_1_r; lia).
    remember (2 ^ (52 - la)) as X. remember (2 ^ la) as Y.
    remember (2 ^ (lb + 1)) as W.
    assert (Hyw : b * Y <= a * W) by nia.
    nia.
Qed.

(** For integers below [2^53] the quotient has a mantissa of 53 bits and
    lies within half a unit in the last place of [a / b]: it is the
    correctly rounded binary64 quotient. *)
Lemma div_pos_correctly_rounded (a b : Z) :
  0 < a < 2 ^ 53 -> 0 < b < 2 ^ 53 ->
  let q := Number.div_pos a b in
  0 <= Number.scale q
  /\ 2 ^ 52 <= Number.mant q <= 2 ^ 53
  /\ 2 * Z.abs (Number.mant q * b - a * 2 ^ Number.scale q) <= b.
Proof.
  intros Ha Hb. cbv zeta.
  destruct (div_pos_scale a b ltac:(lia) ltac:(lia) ltac:(lia)) as [Hs Hlow].
  assert (Hhigh : a * 2 ^ Number.scale (Number.div_pos a b) < b * 2 ^ 53).
  { unfold Number.div_pos. cbn [Number.scale].
    assert (Hla := Z.log2_spec a ltac:(lia)).
    assert (Hlb := Z.log2_spec b ltac:(lia)).
    assert (Hla0 := Z.log2_nonneg a). assert (Hlb0 := Z.log2_nonneg b).
    assert (Hla53 : Z.log2 a < 53) by (apply Z.log2_lt_pow2; lia).
    set (la := Z.log2 a) in *. set (lb := Z.log2 b) in *.
    destruct (b * 2 ^ 52 <=? a * 2 ^ (52 - (la - lb))) eqn:E.
    - replace (52 - (la - lb)) with ((52 - la) + lb) by lia.
      rewrite Z.pow_add_r by lia.
      assert (H53 : 2 ^ 53 = 2 ^ (52 - la) * 2 ^ (la + 1)).
      { rewrite <- Z.pow_add_r by lia. f_equal. lia. }
      rewrite H53.
      assert (HX : 0 < 2 ^ (52 - la)) by (apply Z.pow_pos_nonneg; lia).
      assert (HY : a < 2 ^ (la + 1)) by (rewrite Z.add_1_r; lia).
      assert (HW : 0 < 2 ^ lb <= b) by lia.
      remember (2 ^ (52 - la)) as X. remember (2 ^ (la + 1)) as Y.
      remember (2 ^ lb) as W.
      assert (a * W < b * Y) by nia. nia.
    - apply Z.leb_gt in E.
      rewrite Z.pow_add_r by lia. change (2 ^ 1) with 2.
      change (2 ^ 53) with (2 ^ 52 * 2). lia. }
  split; [exact Hs|].
  assert (Hm : Number.mant (Number.div_pos a b)
               = Number.round_half_even
                   (a * 2 ^ Number.scale (Number.div_pos a b)) b) by reflexivity.
  rewrite Hm.
  set (p := a * 2 ^ Number.scale (Number.div_pos a b)) in *.
  pose proof (round_half_even_near p b ltac:(lia)) as Hnear.
  split; [|exact Hnear].
  pose proof (round_half_even_floor p b ltac:(lia)) as Hfloor.
  assert (2 ^ 52 <= p / b) by (apply Z.div_le_lower_bound; lia).
  split; [lia|]. nia.
Qed.

(** For a mean between 1 and 5 of fewer than [2^40] values, the decimal
    [toFixed(1)] prints of the binary64 quotient is at most half a tenth
    from the exact quotient: the rounding error of the division is too
    small to carry the quotient across a halfway point it is not on. *)
Lemma toFixed_1_nearest (a b : Z) :
  0 < b -> b <= a -> a <= 5 * b -> b < 2 ^ 40 ->
  2 * Z.abs (Number.toFixed_1 (Number.div a b) * b - 10 * a) <= b.
Proof.
  intros Hb Hab Ha5 Hb40.
  assert (Ha53 : a < 2 ^ 53) by lia.
  destruct (div_pos_scale a b Hb ltac:(lia) Ha53) as [Hs Hscale].
  unfold Number.div. rewrite (Z.abs_eq a) by lia.
  rewrite (Z.sgn_pos a) by lia. rewrite Z.mul_1_l.
  unfold Number.toFixed_1. cbn [Number.mant Number.scale].
  set (s := Number.scale (Number.div_pos a b)) in *.
  assert (Hm : Number.mant (Number.div_pos a b)
               = Number.round_half_even (a * 2 ^ s) b) by reflexivity.
  rewrite Hm. clear Hm.
  set (P := 2 ^ s) in *.
  assert (HP : 0 < P) by (apply Z.pow_pos_nonneg; lia).
  pose proof (round_half_even_near (a * P) b Hb) as Hnear.
  pose proof (round_half_even_floor (a * P) b Hb) as Hfloor.
  assert (Hbig : 2 ^ 52 <= (a * P) / b).
  { apply Z.div_le_lower_bound; lia. }
  set (m := Number.round_half_even (a * P) b) in *.
  assert (Hm : 0 < m) by lia.
  rewrite (Z.abs_eq m) by lia. rewrite (Z.sgn_pos m) by lia. rewrite Z.mul_1_l.
  replace (2 ^ (s + 1)) with (2 * P)
    by (unfold P; rewrite Z.pow_add_r by lia; change (2 ^ 1) with 2; lia).
  pose proof (Z.mul_div_le (20 * m + P) (2 * P) ltac:(lia)) as Hlo.
  pose proof (Z.mul_succ_div_gt (20 * m + P) (2 * P) ltac:(lia)) as Hhi.
  set (n := (20 * m + P) / (2 * P)) in *.
  assert (HPb : 10 * b < P) by nia.
  nia.
Qed.

(** ** Ratings *)

(** The [reduce] of [updateUserRating] is the sum of the values. *)
Lemma fold_left_total (l : list Rating.t) (acc : Z) :
  List.fold_left (fun sum r => sum + Rating.rating r) l acc
  = acc + List.fold_right Z.add 0 (List.map Rating.rating l).
Proof.
  revert acc. induction l as [|r l IH]; intros acc; simpl; [lia|].
  rewrite IH. lia.
Qed.

Lemma total_in_range (l : list Rating.t) :
  Forall rating_in_range l ->
  Z.of_nat (length l) <= List.fold_right Z.add 0 (List.map Rating.rating l)
  /\ List.fold_right Z.add 0 (List.map Rating.rating l) <= 5 * Z.of_nat (length l).
Proof.
  induction 1 as [|r l Hr Hl IH]; simpl length; simpl List.map; simpl List.fold_right.
  - lia.
  - unfold rating_in_range in Hr. lia.
Qed.

(** Half a tenth, in integers and in rationals. *)
Lemma tenths_rounded (n total len : Z) :
  0 < len ->
  2 * Z.abs (n * len - 10 * total) <= len ->
  Qle (Qabs (Qminus (Qmake n 10) (Qmake total (Z.to_pos len)))) (Qmake 1 20).
Proof.
  intros Hlen H. apply Qabs_Qle_condition.
  unfold Qle, Qminus, Qplus, Qopp. simpl.
  rewrite !Pos2Z.inj_mul, !Z2Pos.id by lia. lia.
Qed.

(** The rating [updateUserRating] computes from a non-empty list of
    ratings is their mean rounded to one decimal place. *)
Lemma average_rounded (l : list Rating.t) :
  l <> [] ->
  Forall rating_in_range l ->
  Z.of_nat (length l) < 2 ^ 40 ->
  rounded_to_one_decimal
    (arithmetic_mean (List.map Rating.rating l))
    (Qmake
       (Number.parseFloat
          (Number.toFixed_1
             (Number.div (List.fold_left (fun sum r => sum + Rating.rating r) l 0)
                         (Z.of_nat (length l)))))
       10).
Proof.
  intros Hne Hrange Hlen. split; [eexists; reflexivity|].
  unfold arithmetic_mean, Number.parseFloat.
  rewrite length_map, fold_left_total, Z.add_0_l.
  destruct (total_in_range l Hrange) as [Hlo Hhi].
  assert (Hpos : 0 < Z.of_nat (length l)) by (destruct l; [congruence | simpl; lia]).
  apply tenths_rounded; [exact Hpos|].
  apply toFixed_1_nearest; assumption.
Qed.

Lemma updateUserRating_ratings (d : DatabaseStorage.t) (userId : Z) :
  DatabaseStorage.ratings (snd (DatabaseStorage.updateUserRating d userId))
  = DatabaseStorage.ratings d.
Proof.
  unfold DatabaseStorage.updateUserRating.
  destruct (length (DatabaseStorage.getUserRatings d userId) =? 0)%nat; reflexivity.
Qed.

Lemma update_where_rating (userId n : Z) (users : list User.t) (u : User.t) :
  In u (Sql.update_where (fun u => User.id u =? userId) (User.with_rating n) users) ->
  User.id u = userId ->
  User.rating u = n.
Proof.
  unfold Sql.update_where. rewrite in_map_iff. intros [u0 [E Hin]] Hid.
  destruct (User.id u0 =? userId) eqn:E0.
  - subst u. reflexivity.
  - subst u. apply Z.eqb_neq in E0. contradiction.
Qed.

Lemma updateUserRating_rounded (d : DatabaseStorage.t) (userId : Z) (u : User.t) :
  DatabaseStorage.getUserRatings d userId <> [] ->
  Forall rating_in_range (DatabaseStorage.getUserRatings d userId) ->
  Z.of_nat (length (DatabaseStorage.getUserRatings d userId)) < 2 ^ 40 ->
  In u (DatabaseStorage.users (snd (DatabaseStorage.updateUserRating d userId))) ->
  User.id u = userId ->
  rounded_to_one_decimal
    (arithmetic_mean (List.map Rating.rating (DatabaseStorage.getUserRatings d userId)))
    (User.rating_value u).
Proof.
  intros Hne Hrange Hlen Hin Hid.
  unfold DatabaseStorage.updateUserRating in Hin.
  destruct (length (DatabaseStorage.getUserRatings d userId) =? 0)%nat eqn:E.
  - apply Nat.eqb_eq in E.
    destruct (DatabaseStorage.getUserRatings d userId); [congruence | discriminate].
  - unfold DatabaseStorage.updateUserRating, DatabaseStorage.updateUser in Hin.
    simpl in Hin. unfold User.rating_value.
    rewrite (update_where_rating _ _ _ _ Hin Hid).
    apply average_rounded; assumption.
Qed.

(** With no rating for the user the store is returned as it is. *)
Lemma updateUserRating_no_ratings (d : DatabaseStorage.t) (userId : Z) :
  DatabaseStorage.getUserRatings d userId = [] ->
  DatabaseStorage.updateUserRating d userId = (DatabaseStorage.getUser d userId, d).
Proof.
  intros E. unfold DatabaseStorage.updateUserRating. rewrite E. reflexivity.
Qed.

Lemma MemStorage_updateUserRating_no_ratings (s : MemStorage.t) (userId : Z) :
  MemStorage.getUserRatings s userId = [] ->
  MemStorage.updateUserRating s userId = (MemStorage.getUser s userId, s).
Proof.
  intros E. unfold MemStorage.updateUserRating, MemStorage.getUser. rewrite E.
  destruct (JsMap.get userId (MemStorage.users s)); reflexivity.
Qed.

Lemma update_where_twice {A : Type} (p : A -> bool) (f : A -> A) (l : list A) :
  (forall x, p (f x) = p x) -> (forall x, f (f x) = f x) ->
  Sql.update_where p f (Sql.update_where p f l) = Sql.update_where p f l.
Proof.
  intros Hp Hf. unfold Sql.update_where. rewrite map_map. apply map_ext.
  intros x. destruct (p x) eqn:E.
  - rewrite Hp, E. apply Hf.
  - rewrite E. reflexivity.
Qed.

Lemma filter_map_same {A : Type} (p : A -> bool) (f : A -> A) (l : list A) :
  (forall x, p (f x) = p x) ->
  List.filter p (List.map f l) = List.map f (List.filter p l).
Proof.
  intros Hp. induction l as [|x l IH]; [reflexivity|].
  cbn [List.map List.filter]. rewrite Hp.
  destruct (p x); [cbn [List.map]; f_equal|]; exact IH.
Qed.

(** With a rating for the user, [updateUserRating] writes one value into
    the user's rows; the value depends on the ratings only. *)
Lemma updateUserRating_some (d : DatabaseStorage.t) (userId : Z) :
  DatabaseStorage.getUserRatings d userId <> [] ->
  exists n,
    forall d0, DatabaseStorage.ratings d0 = DatabaseStorage.ratings d ->
               snd (DatabaseStorage.updateUserRating d0 userId)
               = DatabaseStorage.set_users
                   (Sql.update_where (fun u => User.id u =? userId)
                                     (User.with_rating n) (DatabaseStorage.users d0)) d0.
Proof.
  intros Hne.
  unfold DatabaseStorage.updateUserRating, DatabaseStorage.getUserRatings in *.
  destruct (Nat.eqb (length (Sql.select_where (fun r => Rating.toUserId r =? userId)
                                              (DatabaseStorage.ratings d))) 0) eqn:E.
  - apply Nat.eqb_eq in E.
    destruct (Sql.select_where _ (DatabaseStorage.ratings d)); [congruence | discriminate].
  - eexists. intros d0 H0. rewrite H0, E. reflexivity.
Qed.

(** A user the engine finds referenced is a user [getUser] finds. *)
Lemma references_user_getUser (d : DatabaseStorage.t) (id : Z) :
  DatabaseStorage.references_user d id = true ->
  exists user, DatabaseStorage.getUser d id = Some user.
Proof.
  unfold DatabaseStorage.references_user, DatabaseStorage.getUser, Sql.select_where.
  intros H. apply existsb_exists in H. destruct H as (u & Hin & Hid).
  destruct (List.filter (fun u => User.id u =? id) (DatabaseStorage.users d))
    as [|u0 l] eqn:E.
  - assert (Hu : In u []) by (rewrite <- E; apply filter_In; split; assumption).
    destruct Hu.
  - exists u0. reflexivity.
Qed.

(** [getUser] after the user's rows were updated. *)
Lemma getUser_update_where (d : DatabaseStorage.t) (id n : Z) :
  DatabaseStorage.getUser
    (DatabaseStorage.set_users
       (Sql.update_where (fun u => User.id u =? id) (User.with_rating n)
                         (DatabaseStorage.users d)) d) id
  = option_map (User.with_rating n) (DatabaseStorage.getUser d id).
Proof.
  unfold DatabaseStorage.getUser, Sql.select_where, Sql.update_where.
  cbn [DatabaseStorage.set_users DatabaseStorage.users].
  rewrite filter_map_same
    by (intros u; destruct (User.id u =? id) eqn:E; [exact E | exact E]).
  destruct (List.filter (fun u => User.id u =? id) (DatabaseStorage.users d))
    as [|u0 l] eqn:E; [reflexivity|].
  assert (Hu : In u0 (List.filter (fun u => User.id u =? id) (DatabaseStorage.users d)))
    by (rewrite E; left; reflexivity).
  apply filter_In in Hu. destruct Hu as [_ Hid].
  cbn [List.map List.head option_map]. rewrite Hid. reflexivity.
Qed.

Lemma update_where_other (userId n : Z) (users : list User.t) (u : User.t) :
  User.id u <> userId ->
  (In u (Sql.update_where (fun u => User.id u =? userId) (User.with_rating n) users)
   <-> In u users).
Proof.
  intros Hid. unfold Sql.update_where. rewrite in_map_iff. split.
  - intros [u0 [E Hin]]. destruct (User.id u0 =? userId) eqn:E0.
    + subst u. apply Z.eqb_eq in E0. contradiction.
    + subst u0. exact Hin.
  - intros Hin. exists u. split; [|exact Hin].
    assert (E0 : (User.id u =? userId) = false) by (apply Z.eqb_neq, Hid).
    rewrite E0. reflexivity.
Qed.

(** A rating the engine refuses: nothing is stored. *)
Lemma store_rating_refused (validatedData : InsertRating.t) (now : Z) (w : World) :
  DatabaseStorage.accepts_rating (storage w) validatedData = false ->
  Routes.store_rating validatedData now w
  = (json 500 (message_body "Failed to create rating"), w).
Proof.
  intros Hno. unfold Routes.store_rating, Routes.createRating. io_unfold.
  unfold DatabaseStorage.createRating. rewrite Hno. reflexivity.
Qed.

(** Storing a rating: [createRating] recomputes the average, and the
    handler recomputes it once more from the same ratings. *)
Lemma store_rating_rounded (validatedData : InsertRating.t) (now : Z) (w : World) :
  Forall rating_in_range (DatabaseStorage.ratings (storage w)) ->
  Z.of_nat (length (DatabaseStorage.ratings (storage w))) < 2 ^ 31 ->
  1 <= InsertRating.rating validatedData <= 5 ->
  DatabaseStorage.accepts_rating (storage w) validatedData = true ->
  exists rating n,
    fst (Routes.store_rating validatedData now w) = json 201 (rating_body rating)
    /\ Rating.toUserId rating = InsertRating.toUserId validatedData
    /\ Rating.rating rating = InsertRating.rating validatedData
    /\ DatabaseStorage.ratings (storage (snd (Routes.store_rating validatedData now w)))
       = DatabaseStorage.ratings (storage w) ++ [rating]
    /\ DatabaseStorage.users (storage (snd (Routes.store_rating validatedData now w)))
       = Sql.update_where (fun u => User.id u =? Rating.toUserId rating)
                          (User.with_rating n) (DatabaseStorage.users (storage w))
    /\ forall u,
        In u (DatabaseStorage.users
                (storage (snd (Routes.store_rating validatedData now w)))) ->
        User.id u = Rating.toUserId rating ->
        rounded_to_one_decimal
          (arithmetic_mean
             (List.map Rating.rating
                (DatabaseStorage.getUserRatings
                   (storage (snd (Routes.store_rating validatedData now w)))
                   (Rating.toUserId rating))))
          (User.rating_value u).
Proof.
  intros Hrange Hlen Hvalue Hok.
  unfold Routes.store_rating, Routes.createRating. io_unfold.
  unfold DatabaseStorage.createRating. rewrite Hok. cbv beta iota zeta.
  unfold record. cbv beta iota zeta.
  set (rating := Rating.mk _ _ _ _ _ _ _).
  set (d1 := DatabaseStorage.mk _ _ _ _ _ _ _ _ _ _ _).
  set (recipient := InsertRating.toUserId validatedData).
  set (d2 := snd (DatabaseStorage.updateUserRating d1 recipient)).
  assert (Hr1 : DatabaseStorage.ratings d1 = DatabaseStorage.ratings (storage w) ++ [rating])
    by reflexivity.
  assert (Hr2 : DatabaseStorage.ratings d2 = DatabaseStorage.ratings d1)
    by apply updateUserRating_ratings.
  assert (Hne : DatabaseStorage.getUserRatings d1 recipient <> []).
  { unfold DatabaseStorage.getUserRatings, Sql.select_where. rewrite Hr1.
    rewrite List.filter_app. simpl. unfold recipient. rewrite Z.eqb_refl.
    intros E. apply app_eq_nil in E. destruct E as [_ E]. discriminate E. }
  destruct (updateUserRating_some d1 recipient Hne) as [n Hn].
  exists rating, n.
  cbn [storage activeConnections socketUserId readyState journal fst snd].
  change (snd (DatabaseStorage.updateUserRating d1 recipient)) with d2.
  destruct (DatabaseStorage.updateUserRating d2 recipient) as [u3 d3] eqn:E3.
  assert (Hd3 : d3 = snd (DatabaseStorage.updateUserRating d2 recipient))
    by (rewrite E3; reflexivity).
  cbn [fst snd storage].
  split; [reflexivity|]. split; [reflexivity|]. split; [reflexivity|].
  assert (Hr3 : DatabaseStorage.ratings d3 = DatabaseStorage.ratings d2)
    by (rewrite Hd3; apply updateUserRating_ratings).
  split; [rewrite Hr3, Hr2; exact Hr1|].
  split.
  { rewrite Hd3, (Hn d2 Hr2). unfold d2. rewrite (Hn d1 eq_refl).
    cbn [DatabaseStorage.set_users DatabaseStorage.users].
    rewrite update_where_twice; [reflexivity | reflexivity | reflexivity]. }
  intros u Hin Hid.
  assert (Hsame : DatabaseStorage.getUserRatings d3 recipient
                  = DatabaseStorage.getUserRatings d2 recipient).
  { unfold DatabaseStorage.getUserRatings. rewrite Hr3. reflexivity. }
  change (Rating.toUserId rating) with recipient in *.
  rewrite Hsame. rewrite Hd3 in Hin.
  assert (Hall : Forall rating_in_range (DatabaseStorage.ratings d2)).
  { rewrite Hr2, Hr1. apply Forall_app. split; [exact Hrange|].
    constructor; [exact Hvalue | constructor]. }
  apply (updateUserRating_rounded d2 recipient u); try assumption.
  - unfold DatabaseStorage.getUserRatings. rewrite Hr2. exact Hne.
  - unfold DatabaseStorage.getUserRatings, Sql.select_where.
    rewrite List.Forall_forall in *. intros r Hr. apply filter_In in Hr.
    apply Hall, Hr.
  - unfold DatabaseStorage.getUserRatings, Sql.select_where.
    pose proof (List.filter_length_le (fun r => Rating.toUserId r =? recipient)
                                 (DatabaseStorage.ratings d2)) as Hle.
    rewrite Hr2, Hr1 in Hle |- *. rewrite length_app in Hle. simpl in Hle. lia.
Qed.

Lemma JsMap_get_set_same {V : Type} (k : Z) (v : V) (m : JsMap.t V) :
  JsMap.get k (JsMap.set k v m) = Some v.
Proof.
  induction m as [|[k' v'] m IH]; simpl.
  - rewrite Z.eqb_refl. reflexivity.
  - destruct (k =? k') eqn:E; simpl.
    + rewrite Z.eqb_refl. reflexivity.
    + rewrite E. exact IH.
Qed.

(** X11. The in-memory store computes the same average: for a user with
    ratings from 1 to 5, [MemStorage.updateUserRating] stores and returns
    the user with the mean of the ratings rounded to one decimal. *)
Lemma MemStorage_updateUserRating_rounded (s : MemStorage.t) (userId : Z) (user : User.t) :
  MemStorage.getUser s userId = Some user ->
  MemStorage.getUserRatings s userId <> [] ->
  Forall rating_in_range (MemStorage.getUserRatings s userId) ->
  Z.of_nat (length (MemStorage.getUserRatings s userId)) < 2 ^ 40 ->
  exists updatedUser,
    fst (MemStorage.updateUserRating s userId) = Some updatedUser
    /\ MemStorage.getUser (snd (MemStorage.updateUserRating s userId)) userId
       = Some updatedUser
    /\ rounded_to_one_decimal
         (arithmetic_mean (List.map Rating.rating (MemStorage.getUserRatings s userId)))
         (User.rating_value updatedUser).
Proof.
  intros Huser Hne Hrange Hlen.
  unfold MemStorage.updateUserRating. unfold MemStorage.getUser in Huser.
  rewrite Huser.
  destruct (length (MemStorage.getUserRatings s userId) =? 0)%nat eqn:E.
  - apply Nat.eqb_eq in E.
    destruct (MemStorage.getUserRatings s userId); [congruence | discriminate].
  - eexists. split; [reflexivity|]. split.
    + unfold MemStorage.getUser. simpl. apply JsMap_get_set_same.
    + unfold User.rating_value. simpl. apply average_rounded; assumption.
Qed.

(** C4. After a POST /api/ratings answered 201, the recipient is a stored
    user, kept in every other column, whose rating is the arithmetic
    mean of the rating values addressed to the recipient, the new one
    included, rounded to one decimal place, and the rows of the other
    users are as they were (the store holding valid ratings, fewer than
    its 32-bit ids can number); and [updateUserRating] on a user with no
    ratings returns the user as stored and leaves the store as it is, in
    both stores, without computing a quotient. *)
Theorem post_ratings_rounded_mean (req : Request) (now : Z) (w : World) :
  let response := fst (Routes.post_ratings req now w) in
  let w' := snd (Routes.post_ratings req now w) in
  (Forall rating_in_range (DatabaseStorage.ratings (storage w)) ->
   Z.of_nat (length (DatabaseStorage.ratings (storage w))) < 2 ^ 31 ->
   status response = 201 ->
   exists rating recipient recipient',
     body response = rating_body rating
     /\ DatabaseStorage.ratings (storage w')
        = DatabaseStorage.ratings (storage w) ++ [rating]
     /\ rating_in_range rating
     /\ DatabaseStorage.getUser (storage w) (Rating.toUserId rating) = Some recipient
     /\ DatabaseStorage.getUser (storage w') (Rating.toUserId rating) = Some recipient'
     /\ recipient' = User.with_rating (User.rating recipient') recipient
     /\ rounded_to_one_decimal
          (arithmetic_mean
             (List.map Rating.rating
                (DatabaseStorage.getUserRatings (storage w') (Rating.toUserId rating))))
          (User.rating_value recipient')
     /\ (forall u,
           In u (DatabaseStorage.users (storage w')) ->
           User.id u = Rating.toUserId rating ->
           rounded_to_one_decimal
             (arithmetic_mean
                (List.map Rating.rating
                   (DatabaseStorage.getUserRatings (storage w') (Rating.toUserId rating))))
             (User.rating_value u))
     /\ (forall u,
           User.id u <> Rating.toUserId rating ->
           (In u (DatabaseStorage.users (storage w'))
            <-> In u (DatabaseStorage.users (storage w)))))
  /\ (forall d userId,
      DatabaseStorage.getUserRatings d userId = [] ->
      DatabaseStorage.updateUserRating d userId = (DatabaseStorage.getUser d userId, d))
  /\ (forall s userId,
      MemStorage.getUserRatings s userId = [] ->
      MemStorage.updateUserRating s userId = (MemStorage.getUser s userId, s)).
Proof.
  cbv zeta. split; [|split].
  - intros Hrange Hlen.
    unfold Routes.post_ratings.
    destruct (req_user req) as [user|]; [|intros H; discriminate H].
    destruct (insertRatingSchema_parse _) as [validatedData|];
      [|intros H; discriminate H].
    cbv zeta.
    destruct ((InsertRating.rating validatedData <? 1)
              || (5 <? InsertRating.rating validatedData)) eqn:Evalue;
      [intros H; discriminate H|].
    apply orb_false_iff in Evalue. destruct Evalue as [Hlo Hhi].
    apply Z.ltb_ge in Hlo, Hhi.
    assert (Hvalue : 1 <= InsertRating.rating validatedData <= 5) by lia.
    assert (Hstored :
      status (fst (Routes.store_rating validatedData now w)) = 201 ->
      exists rating recipient recipient',
        body (fst (Routes.store_rating validatedData now w)) = rating_body rating
        /\ DatabaseStorage.ratings (storage (snd (Routes.store_rating validatedData now w)))
           = DatabaseStorage.ratings (storage w) ++ [rating]
        /\ rating_in_range rating
        /\ DatabaseStorage.getUser (storage w) (Rating.toUserId rating) = Some recipient
        /\ DatabaseStorage.getUser
             (storage (snd (Routes.store_rating validatedData now w)))
             (Rating.toUserId rating) = Some recipient'
        /\ recipient' = User.with_rating (User.rating recipient') recipient
        /\ rounded_to_one_decimal
             (arithmetic_mean
                (List.map Rating.rating
                   (DatabaseStorage.getUserRatings
                      (storage (snd (Routes.store_rating validatedData now w)))
                      (Rating.toUserId rating))))
             (User.rating_value recipient')
        /\ (forall u,
              In u (DatabaseStorage.users
                      (storage (snd (Routes.store_rating validatedData now w)))) ->
              User.id u = Rating.toUserId rating ->
              rounded_to_one_decimal
                (arithmetic_mean
                   (List.map Rating.rating
                      (DatabaseStorage.getUserRatings
                         (storage (snd (Routes.store_rating validatedData now w)))
                         (Rating.toUserId rating))))
                (User.rating_value u))
        /\ (forall u,
              User.id u <> Rating.toUserId rating ->
              (In u (DatabaseStorage.users
                       (storage (snd (Routes.store_rating validatedData now w))))
               <-> In u (DatabaseStorage.users (storage w))))).
    { destruct (DatabaseStorage.accepts_rating (storage w) validatedData) eqn:Hok;
        [|rewrite (store_rating_refused _ _ _ Hok); intros H; discriminate H].
      intros _.
      destruct (store_rating_rounded validatedData now w Hrange Hlen Hvalue Hok)
        as (rating & n & Hres & Hto & Hval & Hratings & Husers & Hrounded).
      assert (Hrecipient : exists recipient,
                 DatabaseStorage.getUser (storage w) (Rating.toUserId rating)
                 = Some recipient).
      { apply references_user_getUser. rewrite Hto.
        unfold DatabaseStorage.accepts_rating in Hok.
        apply andb_prop in Hok. destruct Hok as [Hok _].
        apply andb_prop in Hok. destruct Hok as [_ Hok]. exact Hok. }
      destruct Hrecipient as [recipient Hrecipient].
      assert (Hafter :
        DatabaseStorage.getUser
          (storage (snd (Routes.store_rating validatedData now w)))
          (Rating.toUserId rating)
        = Some (User.with_rating n recipient)).
      { pose proof (getUser_update_where (storage w) (Rating.toUserId rating) n) as H.
        rewrite Hrecipient in H. cbn [option_map] in H. rewrite <- H.
        unfold DatabaseStorage.getUser. rewrite Husers. reflexivity. }
      exists rating, recipient, (User.with_rating n recipient).
      rewrite Hres. split; [reflexivity|].
      split; [exact Hratings|].
      split; [unfold rating_in_range; rewrite Hval; exact Hvalue|].
      split; [exact Hrecipient|]. split; [exact Hafter|].
      split; [reflexivity|]. split; [|split; [exact Hrounded|]].
      - apply Hrounded.
        + unfold DatabaseStorage.getUser, Sql.select_where in Hafter.
          destruct (List.filter _ _) as [|u0 l] eqn:E; [discriminate Hafter|].
          injection Hafter as <-.
          assert (Hu : In u0 (u0 :: l)) by (left; reflexivity).
          rewrite <- E in Hu. apply filter_In in Hu. apply Hu.
        + unfold DatabaseStorage.getUser, Sql.select_where in Hrecipient.
          destruct (List.filter _ (DatabaseStorage.users (storage w)))
            as [|u0 l] eqn:E; [discriminate Hrecipient|].
          injection Hrecipient as <-.
          assert (Hu : In u0 (u0 :: l)) by (left; reflexivity).
          rewrite <- E in Hu. apply filter_In in Hu. destruct Hu as [_ Hid].
          apply Z.eqb_eq in Hid. exact Hid.
      - intros u Hid. rewrite Husers. apply update_where_other, Hid. }
    destruct (InsertRating.jobId validatedData) as [jobId|]; [|exact Hstored].
    destruct (jobId =? 0); [exact Hstored|].
    io_unfold.
    destruct (DatabaseStorage.getJob (storage w) jobId) as [job|];
      [|intros H; discriminate H].
    destruct (negb _); [intros H; discriminate H|].
    destruct (_ && _); [intros H; discriminate H|].
    destruct (_ && _); [intros H; discriminate H|].
    exact Hstored.
  - exact updateUserRating_no_ratings.
  - exact MemStorage_updateUserRating_no_ratings.
Qed.

Lemma post_ratings_rounded_mean_sample :
  exists rating recipient recipient',
    body (fst (Routes.post_ratings Sample.rate_request 9000 Sample.world))
    = rating_body rating
    /\ DatabaseStorage.ratings
         (storage (snd (Routes.post_ratings Sample.rate_request 9000 Sample.world)))
       = DatabaseStorage.ratings (storage Sample.world) ++ [rating]
    /\ rating_in_range rating
    /\ DatabaseStorage.getUser (storage Sample.world) (Rating.toUserId rating)
       = Some recipient
    /\ DatabaseStorage.getUser
         (storage (snd (Routes.post_ratings Sample.rate_request 9000 Sample.world)))
         (Rating.toUserId rating)
       = Some recipient'
    /\ recipient' = User.with_rating (User.rating recipient') recipient
    /\ rounded_to_one_decimal
         (arithmetic_mean
            (List.map Rating.rating
               (DatabaseStorage.getUserRatings
                  (storage (snd (Routes.post_ratings Sample.rate_request 9000 Sample.world)))
                  (Rating.toUserId rating))))
         (User.rating_value recipient')
    /\ (forall u,
          In u (DatabaseStorage.users
                  (storage (snd (Routes.post_ratings Sample.rate_request 9000
                                                     Sample.world)))) ->
          User.id u = Rating.toUserId rating ->
          rounded_to_one_decimal
            (arithmetic_mean
               (List.map Rating.rating
                  (DatabaseStorage.getUserRatings
                     (storage (snd (Routes.post_ratings Sample.rate_request 9000
                                                        Sample.world)))
                     (Rating.toUserId rating))))
            (User.rating_value u))
    /\ (forall u,
          User.id u <> Rating.toUserId rating ->
          (In u (DatabaseStorage.users
                   (storage (snd (Routes.post_ratings Sample.rate_request 9000
                                                      Sample.world))))
           <-> In u (DatabaseStorage.users (storage Sample.world)))).
Proof.
  apply (proj1 (post_ratings_rounded_mean Sample.rate_request 9000 Sample.world)).
  - constructor.
  - reflexivity.
  - reflexivity.
Defined.

(** Bob's rating after Alice's 4 is 4.0. *)
Example post_ratings_first_rating :
  List.map User.rating
    (DatabaseStorage.users
       (storage (snd (Routes.post_ratings Sample.rate_request 9000 Sample.world))))
  = [0; 40; 0].
Proof. reflexivity. Qed.

(** *** The quotient is the binary64 one

    [Number.div] agrees with the Standard Library's specification of
    binary64 division, and a mean that lies halfway between two tenths is
    rounded the way its binary64 value falls: 23/20 = 1.15 is stored as
    1.1, 5/4 = 1.25 as 1.3 and 27/20 = 1.35 as 1.4. *)
Example div_agrees_with_binary64 :
  List.map (fun ab => Number.to_spec (Number.div (fst ab) (snd ab)))
           [(23, 20); (5, 4); (27, 20); (13, 3); (1, 3); (5, 1); (9007199254740991, 7)]
  = List.map (fun ab => SFdiv 53 1024 (Number.of_int (fst ab)) (Number.of_int (snd ab)))
             [(23, 20); (5, 4); (27, 20); (13, 3); (1, 3); (5, 1); (9007199254740991, 7)].
Proof. vm_compute. reflexivity. Qed.

Example toFixed_1_halfway :
  List.map (fun ab => Number.toFixed_1 (Number.div (fst ab) (snd ab)))
           [(23, 20); (5, 4); (27, 20); (13, 3)]
  = [11; 13; 14; 43].
Proof. vm_compute. reflexivity. Qed.

Example updateUserRating_halfway :
  let d := DatabaseStorage.mk [Sample.bob] [] [] [] Sample.many_ratings [] [] 1 21 1 1 in
  List.map User.rating (DatabaseStorage.users (snd (DatabaseStorage.updateUserRating d 2)))
  = [11].
Proof. vm_compute. reflexivity. Qed.

(** * Further properties *)

(** ** Message lists *)

Lemma touches_involves (userId : Z) (m : Message.t) :
  (Message.fromUserId m =? userId) || (Message.toUserId m =? userId) = true
  <-> involves userId m.
Proof.
  unfold involves. rewrite orb_true_iff, !Z.eqb_eq. reflexivity.
Qed.

Lemma between_involves (userId other : Z) (m : Message.t) :
  between userId other m -> involves userId m.
Proof.
  unfold between, involves. intros [[H _]|[_ H]]; [left | right]; exact H.
Qed.

(** X2. [DatabaseStorage.getUserMessages] returns the messages the user
    sent or received, each as often as the table holds it, newest first;
    every conversation of the user is part of it; and the in-memory store
    returns the same messages, in insertion order. *)
Theorem getUserMessages_newest_first
  (d : DatabaseStorage.t) (s : MemStorage.t) (userId : Z) :
  StronglySorted newest_first (DatabaseStorage.getUserMessages d userId)
  /\ Permutation
       (DatabaseStorage.getUserMessages d userId)
       (List.filter
          (fun m => (Message.fromUserId m =? userId) || (Message.toUserId m =? userId))
          (DatabaseStorage.messages d))
  /\ (forall m, In m (DatabaseStorage.getUserMessages d userId)
                <-> In m (DatabaseStorage.messages d) /\ involves userId m)
  /\ (forall other m, In m (DatabaseStorage.getConversation d userId other)
                      -> In m (DatabaseStorage.getUserMessages d userId))
  /\ (forall m, In m (MemStorage.getUserMessages s userId)
                <-> In m (JsMap.values (MemStorage.messages s)) /\ involves userId m).
Proof.
  unfold DatabaseStorage.getUserMessages, Sql.order_by_desc, Sql.select_where.
  assert (Hin : forall m,
    In m (JsArray.sort (fun a b => Message.createdAt b - Message.createdAt a)
            (List.filter
               (fun m => (Message.fromUserId m =? userId) || (Message.toUserId m =? userId))
               (DatabaseStorage.messages d)))
    <-> In m (DatabaseStorage.messages d) /\ involves userId m).
  { intros m. rewrite sort_In, filter_In, touches_involves. reflexivity. }
  split; [|split; [|split; [|split]]].
  - pose proof (sort_sorted (fun a b => Message.createdAt b - Message.createdAt a)
                            (fun m => - Message.createdAt m)) as H.
    eapply StronglySorted_weaken; [|apply H; intros; lia].
    unfold newest_first. intros a b Hab. simpl in Hab. lia.
  - apply sort_Permutation.
  - exact Hin.
  - intros other m Hm. apply Hin.
    unfold DatabaseStorage.getConversation, Sql.order_by_desc, Sql.select_where in Hm.
    rewrite sort_In, filter_In, in_conversation_between in Hm.
    destruct Hm as [Hm Hb]. split; [exact Hm|].
    eapply between_involves, Hb.
  - intros m. unfold MemStorage.getUserMessages. rewrite filter_In.
    rewrite orb_comm, touches_involves. reflexivity.
Qed.

Lemma filter_ext_eq {A : Type} (p q : A -> bool) (l : list A) :
  (forall x, p x = q x) -> List.filter p l = List.filter q l.
Proof.
  intros H. induction l as [|x l IH]; simpl; [reflexivity|].
  rewrite H, IH. reflexivity.
Qed.

(** X3. A conversation does not depend on the order in which its two
    users are named, in either store. *)
Theorem getConversation_symmetric
  (d : DatabaseStorage.t) (s : MemStorage.t) (userA userB : Z) :
  DatabaseStorage.getConversation d userA userB
  = DatabaseStorage.getConversation d userB userA
  /\ MemStorage.getConversation s userA userB
     = MemStorage.getConversation s userB userA.
Proof.
  unfold DatabaseStorage.getConversation, MemStorage.getConversation,
    Sql.select_where, DatabaseStorage.in_conversation.
  split; f_equal; apply filter_ext_eq; intros m; apply orb_comm.
Qed.

(** ** Applications, further *)

Lemma head_filter_None {A : Type} (p : A -> bool) (l : list A) :
  List.head (List.filter p l) = None -> forall x, In x l -> p x = false.
Proof.
  induction l as [|y l IH]; simpl; [intros _ x []|].
  destruct (p y) eqn:E; [discriminate|].
  intros H x [<-|Hx]; [exact E | apply IH; assumption].
Qed.

Lemma head_filter_Some {A : Type} (p : A -> bool) (l : list A) (x : A) :
  List.head (List.filter p l) = Some x -> In x l /\ p x = true.
Proof.
  intros H. apply filter_In.
  destruct (List.filter p l) as [|y l']; [discriminate|].
  injection H as ->. left. reflexivity.
Qed.

Lemma NoDup_snoc {A : Type} (l : list A) (x : A) :
  List.NoDup l -> ~ In x l -> List.NoDup (l ++ [x]).
Proof.
  intros Hl Hx. eapply Permutation_NoDup; [apply Permutation_cons_append|].
  constructor; assumption.
Qed.

Lemma insertApplicationSchema_parse_worker
  (id : Z) (o : Json.object) (v : InsertApplication.t) :
  insertApplicationSchema_parse (Json.set "workerId" (Json.Num id) o) = Some v ->
  InsertApplication.workerId v = id.
Proof.
  unfold insertApplicationSchema_parse.
  destruct (Zod.int _ "jobId"); [|discriminate].
  unfold Zod.int at 1. rewrite get_set_same.
  destruct (Zod.str_opt _ "coverLetter"); [|discriminate].
  destruct (Zod.str_optional _ "resumeUrl"); [|discriminate].
  destruct (Zod.datetime_optional _ "availableToStart"); [|discriminate].
  destruct (Zod.int_opt _ "expectedRate"); [|discriminate].
  destruct (Zod.str_opt _ "preferredHours"); [|discriminate].
  destruct (Zod.str_opt _ "referenceInfo"); [|discriminate].
  destruct (Zod.str_optional _ "status"); [|discriminate].
  intros E. injection E as <-. reflexivity.
Qed.

(** What POST /api/applications does, by cases: it stores one
    application for the requester and answers 201, or answers something
    else and changes nothing. *)
Lemma post_applications_cases (req : Request) (now : Z) (w : World) :
  (exists user validatedData job applicationData,
      req_user req = Some user
      /\ User.userType user = UserType.WORKER
      /\ insertApplicationSchema_parse
           (Json.set "workerId" (Json.Num (User.id user))
                     (Json.remove "resumeUrl" (req_body req)))
         = Some validatedData
      /\ DatabaseStorage.getJob (storage w) (InsertApplication.jobId validatedData)
         = Some job
      /\ open_or_active job = true
      /\ DatabaseStorage.getApplicationByJobAndWorker
           (storage w) (InsertApplication.jobId validatedData) (User.id user)
         = None
      /\ InsertApplication.jobId applicationData = InsertApplication.jobId validatedData
      /\ InsertApplication.workerId applicationData = User.id user
      /\ Routes.post_applications req now w
         = (json 201
              (application_body
                 (Some (fst (DatabaseStorage.createApplication
                               (storage w) applicationData now)))),
            mkWorld
              (snd (DatabaseStorage.createApplication (storage w) applicationData now))
              (activeConnections w) (socketUserId w) (readyState w)
              (journal w
               ++ [Stored "applications"
                     (DatabaseStorage.applications_id_seq (storage w))])))
  \/ (status (fst (Routes.post_applications req now w)) <> 201
      /\ snd (Routes.post_applications req now w) = w).
Proof.
  unfold Routes.post_applications.
  destruct (req_user req) as [user|]; [|right; split; [discriminate | reflexivity]].
  destruct (String.eqb (User.userType user) "worker") eqn:Etype; cbn [negb];
    [|right; split; [discriminate | reflexivity]].
  apply String.eqb_eq in Etype.
  destruct (insertApplicationSchema_parse _) as [validatedData|] eqn:Hparse;
    [|right; split; [discriminate | reflexivity]].
  io_unfold.
  destruct (DatabaseStorage.getJob _ _) as [job|] eqn:Hjob;
    [|right; split; [discriminate | reflexivity]].
  destruct (negb (String.eqb (Job.status job) JobStatus.OPEN)
            && negb (String.eqb (Job.status job) JobStatus.IN_PROGRESS)) eqn:Eopen;
    cbv beta iota; [right; split; [discriminate | reflexivity]|].
  destruct (DatabaseStorage.getApplicationByJobAndWorker _ _ _) eqn:Hexisting;
    [right; split; [discriminate | reflexivity]|].
  left.
  pose proof (insertApplicationSchema_parse_worker _ _ _ Hparse) as Hworker.
  exists user, validatedData, job.
  exists (match Routes.resume_text (Json.get "resumeUrl" (req_body req)) with
          | Some r => InsertApplication.with_resumeUrl r validatedData
          | None => validatedData
          end).
  split; [reflexivity|]. split; [exact Etype|]. split; [exact Hparse|].
  split; [exact Hjob|]. split.
  { unfold open_or_active.
    destruct (String.eqb (Job.status job) JobStatus.OPEN);
      destruct (String.eqb (Job.status job) JobStatus.IN_PROGRESS);
      simpl in Eopen |- *; congruence. }
  split; [exact Hexisting|].
  split; [destruct (Routes.resume_text _); reflexivity|].
  split; [destruct (Routes.resume_text _); exact Hworker|].
  unfold Routes.createApplication. io_unfold. reflexivity.
Qed.

Lemma pair_absent (d : DatabaseStorage.t) (jobId workerId : Z) :
  DatabaseStorage.getApplicationByJobAndWorker d jobId workerId = None ->
  ~ In (jobId, workerId)
       (List.map (fun a => (Application.jobId a, Application.workerId a))
                 (DatabaseStorage.applications d)).
Proof.
  intros Hnone Hin. apply in_map_iff in Hin. destruct Hin as [a [E Ha]].
  injection E as Ej Ew.
  pose proof (head_filter_None _ _ Hnone a Ha) as Hfalse. simpl in Hfalse.
  rewrite Ej, Ew, !Z.eqb_refl in Hfalse. discriminate.
Qed.

(** The handler is its two parts run one after the other. *)
Lemma post_applications_in_two_parts (req : Request) (now : Z) (w : World) :
  Routes.post_applications req now w
  = match Routes.post_applications_lookups req w with
    | (inl response, w1) => (response, w1)
    | (inr applicationData, w1) => Routes.post_applications_insert applicationData now w1
    end.
Proof.
  unfold Routes.post_applications, Routes.post_applications_lookups,
    Routes.post_applications_insert.
  destruct (req_user req) as [user|]; [|reflexivity].
  destruct (negb _); [reflexivity|].
  destruct (insertApplicationSchema_parse _) as [validatedData|]; [|reflexivity].
  io_unfold.
  destruct (DatabaseStorage.getJob _ _) as [job|]; [|reflexivity].
  destruct (_ && _); cbv beta iota; [reflexivity|].
  destruct (DatabaseStorage.getApplicationByJobAndWorker _ _ _); reflexivity.
Qed.

Lemma post_applications_lookups_read (req : Request) (w : World) :
  snd (Routes.post_applications_lookups req w) = w.
Proof.
  unfold Routes.post_applications_lookups.
  destruct (req_user req) as [user|]; [|reflexivity].
  destruct (negb _); [reflexivity|].
  destruct (insertApplicationSchema_parse _) as [validatedData|]; [|reflexivity].
  io_unfold.
  destruct (DatabaseStorage.getJob _ _) as [job|]; [|reflexivity].
  destruct (_ && _); cbv beta iota; [reflexivity|].
  destruct (DatabaseStorage.getApplicationByJobAndWorker _ _ _); reflexivity.
Qed.

(** X4. POST /api/applications keeps the applications unique per job and
    worker when it runs from its lookups to its insert with no other
    request in between: if no two stored applications share both, none
    do after the request, whatever it was.  Nothing but the handler's
    lookup keeps them unique: when two submissions for the same job and
    worker have both done their lookups before either inserts, both are
    answered 201 and the store holds two applications for the pair. *)
Theorem post_applications_one_per_pair_unless_overlapping
  (req1 req2 : Request) (now1 now2 : Z) (w : World) :
  (one_application_per_pair (storage w) ->
   one_application_per_pair (storage (snd (Routes.post_applications req1 now1 w))))
  /\ (forall data1 data2,
        fst (Routes.post_applications_lookups req1 w) = inr data1 ->
        fst (Routes.post_applications_lookups
               req2 (snd (Routes.post_applications_lookups req1 w))) = inr data2 ->
        InsertApplication.jobId data1 = InsertApplication.jobId data2 ->
        InsertApplication.workerId data1 = InsertApplication.workerId data2 ->
        let w2 := snd (Routes.post_applications_lookups
                         req2 (snd (Routes.post_applications_lookups req1 w))) in
        let first := Routes.post_applications_insert data1 now1 w2 in
        let second := Routes.post_applications_insert data2 now2 (snd first) in
        status (fst first) = 201
        /\ status (fst second) = 201
        /\ (exists a1 a2,
              DatabaseStorage.applications (storage (snd second))
              = DatabaseStorage.applications (storage w) ++ [a1; a2]
              /\ Application.id a1 <> Application.id a2
              /\ Application.jobId a1 = Application.jobId a2
              /\ Application.workerId a1 = Application.workerId a2)
        /\ ~ one_application_per_pair (storage (snd second))).
Proof.
  split.
  - intros Hunique.
    destruct (post_applications_cases req1 now1 w)
      as [(user & v & job & data & _ & _ & _ & _ & _ & Hnone & Hj & Hw & Hrun)
         | [_ Hsame]];
      [|rewrite Hsame; exact Hunique].
    rewrite Hrun. unfold one_application_per_pair. simpl.
    unfold Sql.insert. rewrite map_app. simpl. rewrite Hj, Hw.
    apply NoDup_snoc; [exact Hunique | apply pair_absent, Hnone].
  - intros data1 data2 _ _ Hjob Hworker. cbv zeta.
    rewrite !post_applications_lookups_read.
    unfold Routes.post_applications_insert, Routes.createApplication.
    io_unfold. unfold record.
    unfold DatabaseStorage.createApplication, Sql.insert. cbv zeta.
    cbn [fst snd storage status DatabaseStorage.applications
         DatabaseStorage.applications_id_seq DatabaseStorage.set_applications].
    split; [reflexivity|]. split; [reflexivity|]. split.
    + eexists. eexists. split; [rewrite <- app_assoc; reflexivity|].
      cbn [Application.id Application.jobId Application.workerId].
      split; [lia|]. split; assumption.
    + unfold one_application_per_pair. cbn [DatabaseStorage.applications].
      rewrite <- app_assoc, map_app.
      cbn [app List.map Application.jobId Application.workerId
           InsertApplication.jobId InsertApplication.workerId].
      rewrite Hjob, Hworker. intros Hnodup.
      apply NoDup_app_remove_l in Hnodup.
      inversion Hnodup as [|x l Hnot _]. subst. apply Hnot. left. reflexivity.
Qed.

Lemma post_applications_one_per_pair_unless_overlapping_sample :
  one_application_per_pair
    (storage (snd (Routes.post_applications Sample.apply_request 9000 Sample.world))).
Proof.
  apply (proj1 (post_applications_one_per_pair_unless_overlapping
                  Sample.apply_request Sample2.second_apply_request 9000 9001
                  Sample.world)).
  unfold one_application_per_pair. simpl.
  constructor; [simpl; intros [E|[]]; discriminate E|].
  constructor; [intros []|constructor].
Defined.

(** Alice's two submissions for the painting job, the second sent before
    the first was stored. *)
Example post_applications_overlapping_sample :
  let w1 := snd (Routes.post_applications_lookups Sample.apply_request Sample.world) in
  let w2 := snd (Routes.post_applications_lookups Sample2.second_apply_request w1) in
  exists data1 data2,
    fst (Routes.post_applications_lookups Sample.apply_request Sample.world) = inr data1
    /\ fst (Routes.post_applications_lookups Sample2.second_apply_request w1) = inr data2
    /\ List.map (fun a => (Application.id a, Application.jobId a, Application.workerId a))
         (DatabaseStorage.applications
            (storage (snd (Routes.post_applications_insert data2 9001
                             (snd (Routes.post_applications_insert data1 9000 w2))))))
       = [(1, 12, 1); (2, 10, 1); (3, 11, 1); (4, 11, 1)].
Proof.
  cbv zeta. eexists. eexists. split; [reflexivity|]. split; reflexivity.
Qed.

(** X5. An application stored by POST /api/applications is the
    requester's own, whatever worker id the body names, for a job that
    exists and is open or in progress, and for which the requester had
    no application. *)
Theorem post_applications_stores_requesters_own (req : Request) (now : Z) (w : World) :
  status (fst (Routes.post_applications req now w)) = 201 ->
  exists user application job,
    req_user req = Some user
    /\ User.userType user = UserType.WORKER
    /\ body (fst (Routes.post_applications req now w))
       = application_body (Some application)
    /\ Application.workerId application = User.id user
    /\ DatabaseStorage.getJob (storage w) (Application.jobId application) = Some job
    /\ open_or_active job = true
    /\ DatabaseStorage.getApplicationByJobAndWorker
         (storage w) (Application.jobId application) (User.id user) = None.
Proof.
  intros Hcreated.
  destruct (post_applications_cases req now w)
    as [(user & v & job & data & Huser & Htype & _ & Hjob & Hopen & Hnone & Hj & Hw & Hrun)
       | [Hnot _]];
    [|contradiction].
  exists user, (fst (DatabaseStorage.createApplication (storage w) data now)), job.
  rewrite Hrun. simpl. rewrite Hj, Hw.
  repeat split; assumption.
Qed.

Lemma post_applications_stores_requesters_own_sample :
  exists user application job,
    req_user Sample2.impersonating_request = Some user
    /\ User.userType user = UserType.WORKER
    /\ body (fst (Routes.post_applications Sample2.impersonating_request 9000 Sample.world))
       = application_body (Some application)
    /\ Application.workerId application = User.id user
    /\ DatabaseStorage.getJob (storage Sample.world) (Application.jobId application)
       = Some job
    /\ open_or_active job = true
    /\ DatabaseStorage.getApplicationByJobAndWorker
         (storage Sample.world) (Application.jobId application) (User.id user) = None.
Proof.
  apply post_applications_stores_requesters_own. reflexivity.
Defined.

(** X6. When the request that was just accepted is sent again, with the
    store as the first left it, it is refused as a duplicate and changes
    nothing, whatever the time of the second call. *)
Theorem post_applications_twice (req : Request) (now later : Z) (w : World) :
  status (fst (Routes.post_applications req now w)) = 201 ->
  Routes.post_applications req later (snd (Routes.post_applications req now w))
  = (json 400 (message_body "You have already applied for this job"),
     snd (Routes.post_applications req now w)).
Proof.
  intros Hcreated.
  destruct (post_applications_cases req now w)
    as [(user & v & job & data & Huser & Htype & Hparse & Hjob & Hopen & Hnone
         & Hj & Hw & Hrun)
       | [Hnot _]];
    [|contradiction].
  rewrite Hrun. cbn [snd].
  unfold Routes.post_applications. rewrite Huser, Htype.
  change (negb (String.eqb UserType.WORKER "worker")) with false. cbv beta iota.
  rewrite Hparse. io_unfold. cbn [storage].
  assert (Hjob' :
    DatabaseStorage.getJob
      (snd (DatabaseStorage.createApplication (storage w) data now))
      (InsertApplication.jobId v) = Some job) by exact Hjob.
  rewrite Hjob'.
  unfold open_or_active in Hopen.
  assert (Hstatus : negb (String.eqb (Job.status job) JobStatus.OPEN)
                  && negb (String.eqb (Job.status job) JobStatus.IN_PROGRESS) = false).
  { destruct (String.eqb (Job.status job) JobStatus.OPEN);
      destruct (String.eqb (Job.status job) JobStatus.IN_PROGRESS);
      simpl in Hopen |- *; congruence. }
  rewrite Hstatus. cbv beta iota. cbn [storage].
  destruct (DatabaseStorage.getApplicationByJobAndWorker
              (snd (DatabaseStorage.createApplication (storage w) data now))
              (InsertApplication.jobId v) (User.id user)) eqn:Hfound;
    [reflexivity|].
  exfalso.
  unfold DatabaseStorage.getApplicationByJobAndWorker, Sql.select_where in Hfound.
  pose proof (head_filter_None _ _ Hfound
                (fst (DatabaseStorage.createApplication (storage w) data now))) as H.
  simpl in H. rewrite Hj, Hw, !Z.eqb_refl in H.
  assert (true && true = false); [|discriminate].
  apply H. unfold Sql.insert. apply in_or_app. right. left. reflexivity.
Qed.

Lemma post_applications_twice_sample :
  Routes.post_applications Sample.apply_request 9500
    (snd (Routes.post_applications Sample.apply_request 9000 Sample.world))
  = (json 400 (message_body "You have already applied for this job"),
     snd (Routes.post_applications Sample.apply_request 9000 Sample.world)).
Proof.
  apply post_applications_twice. reflexivity.
Defined.

Lemma filter_none {A : Type} (p : A -> bool) (l : list A) :
  (forall x, In x l -> p x = false) -> List.filter p l = [].
Proof.
  induction l as [|y l IH]; intros H; simpl; [reflexivity|].
  rewrite (H y) by (left; reflexivity). apply IH. intros x Hx. apply H. right. exact Hx.
Qed.

(** X7. [DatabaseStorage.createApplication] on a store whose application
    ids were all issued by the sequence: the new row is found under its
    id, and under its job and worker when no row had them; every other
    id answers as before; and the ids stay issued, hence distinct. *)
Theorem createApplication_then_lookup
  (d : DatabaseStorage.t) (application : InsertApplication.t) (now : Z) :
  application_ids_issued d ->
  let created := fst (DatabaseStorage.createApplication d application now) in
  let d' := snd (DatabaseStorage.createApplication d application now) in
  application_ids_issued d'
  /\ DatabaseStorage.getApplication d' (Application.id created) = Some created
  /\ (forall id, id <> Application.id created ->
                 DatabaseStorage.getApplication d' id = DatabaseStorage.getApplication d id)
  /\ (DatabaseStorage.getApplicationByJobAndWorker
        d (InsertApplication.jobId application) (InsertApplication.workerId application)
      = None ->
      DatabaseStorage.getApplicationByJobAndWorker
        d' (InsertApplication.jobId application) (InsertApplication.workerId application)
      = Some created)
  /\ DatabaseStorage.getJobApplications d' (InsertApplication.jobId application)
     = DatabaseStorage.getJobApplications d (InsertApplication.jobId application)
       ++ [created].
Proof.
  intros Hissued. cbv zeta.
  unfold application_ids_issued, DatabaseStorage.createApplication,
    DatabaseStorage.getApplication, DatabaseStorage.getApplicationByJobAndWorker,
    DatabaseStorage.getJobApplications, Sql.select_where, Sql.insert in *.
  cbn [fst snd DatabaseStorage.applications DatabaseStorage.applications_id_seq
       Application.id].
  rewrite List.Forall_forall in Hissued.
  split; [|split; [|split; [|split]]].
  - apply Forall_app. split.
    + rewrite List.Forall_forall. intros a Ha. specialize (Hissued a Ha). lia.
    + constructor; [simpl; lia | constructor].
  - rewrite List.filter_app. rewrite filter_none.
    + simpl. rewrite Z.eqb_refl. reflexivity.
    + intros a Ha. specialize (Hissued a Ha). apply Z.eqb_neq. lia.
  - intros id Hid. rewrite List.filter_app. simpl.
    destruct (DatabaseStorage.applications_id_seq d =? id) eqn:E.
    + apply Z.eqb_eq in E. congruence.
    + rewrite app_nil_r. reflexivity.
  - intros Hnone. rewrite List.filter_app.
    rewrite (filter_none _ _ (head_filter_None _ _ Hnone)).
    simpl. rewrite !Z.eqb_refl. reflexivity.
  - rewrite List.filter_app. simpl. rewrite Z.eqb_refl. reflexivity.
Qed.

Lemma createApplication_then_lookup_sample :
  DatabaseStorage.getApplication
    (snd (DatabaseStorage.createApplication Sample.db
            (InsertApplication.mk 11 1 None None None None None None None) 9000))
    3
  = Some (Application.mk 3 11 1 None None None None None None "pending" 9000 9000).
Proof.
  refine (proj1 (proj2 (createApplication_then_lookup
           Sample.db (InsertApplication.mk 11 1 None None None None None None None)
           9000 _))).
  unfold application_ids_issued. simpl.
  repeat (constructor; [simpl; lia|]). constructor.
Defined.

(** A patch whose keys pass the worker's check names [coverLetter] only. *)
Lemma only_cover_letter (o : Json.object) (k : string) :
  List.filter (fun field => negb (JsArray.includes field ["coverLetter"])) (Json.keys o)
  = [] ->
  k <> "coverLetter" ->
  Json.get k o = None.
Proof.
  intros Hkeys Hk. induction o as [|[k' v] o IH]; simpl in *; [reflexivity|].
  destruct (String.eqb k' "coverLetter") eqn:E; simpl in Hkeys; [|discriminate].
  apply String.eqb_eq in E. subst k'.
  destruct (String.eqb k "coverLetter") eqn:E'.
  - apply String.eqb_eq in E'. contradiction.
  - apply IH, Hkeys.
Qed.

Lemma patch_protected (o : Json.object) (now : Z) (a : Application.t) :
  List.filter (fun field => negb (JsArray.includes field ["coverLetter"])) (Json.keys o)
  = [] ->
  protected_columns (Application.patch o now a) = protected_columns a.
Proof.
  intros Hkeys. unfold protected_columns, Application.patch.
  cbn [Application.id Application.jobId Application.workerId Application.status
       Application.appliedAt Application.resumeUrl Application.expectedRate
       Application.availableToStart Application.preferredHours
       Application.referenceInfo].
  unfold Application.int_column, Application.int_null_column,
    Application.text_column, Application.text_null_column.
  rewrite !(only_cover_letter o _ Hkeys) by discriminate. reflexivity.
Qed.

(** X8. Whatever a worker sends to PUT /api/applications/:id, no stored
    application changes in any column but its cover letter and its
    update time: not its status, job, worker, id, rate or resume. *)
Theorem put_applications_id_worker_columns
  (req : Request) (now : Z) (w : World) (user : User.t) :
  req_user req = Some user ->
  User.userType user = UserType.WORKER ->
  List.map protected_columns
    (DatabaseStorage.applications (storage (snd (Routes.put_applications_id req now w))))
  = List.map protected_columns (DatabaseStorage.applications (storage w)).
Proof.
  intros Huser Htype. unfold Routes.put_applications_id. rewrite Huser, Htype.
  destruct (JsGlobal.parseInt (param req "id")) as [applicationId|]; [|reflexivity].
  io_unfold.
  destruct (DatabaseStorage.getApplication (storage w) applicationId)
    as [application|]; [|reflexivity].
  change (String.eqb UserType.WORKER "employer") with false.
  change (String.eqb UserType.WORKER "worker") with true. cbv beta iota.
  destruct (negb (Application.workerId application =? User.id user)); [reflexivity|].
  destruct (List.filter _ (Json.keys (req_body req))) as [|field fields] eqn:Hkeys;
    [|reflexivity].
  cbn [length Nat.ltb Nat.leb]. cbv beta iota.
  unfold DatabaseStorage.updateApplication. cbn [snd fst storage].
  unfold DatabaseStorage.set_applications, Sql.update_where.
  cbn [DatabaseStorage.applications].
  rewrite map_map. apply map_ext. intros a.
  destruct (Application.id a =? applicationId); [|reflexivity].
  apply patch_protected, Hkeys.
Qed.

Lemma put_applications_id_worker_columns_sample :
  List.map protected_columns
    (DatabaseStorage.applications
       (storage (snd (Routes.put_applications_id Sample2.cover_letter_patch 9000
                                                 Sample.world))))
  = List.map protected_columns (DatabaseStorage.applications (storage Sample.world)).
Proof.
  apply (put_applications_id_worker_columns
           Sample2.cover_letter_patch 9000 Sample.world Sample.alice);
    reflexivity.
Defined.

(** The cover letter itself is rewritten. *)
Example put_applications_id_cover_letter :
  List.map Application.coverLetter
    (DatabaseStorage.applications
       (storage (snd (Routes.put_applications_id Sample2.cover_letter_patch 9000
                                                 Sample.world))))
  = [Some "I can start now"; Some "Now with references"].
Proof. reflexivity. Qed.

(** ** Ratings, further *)

Lemma insertRatingSchema_parse_sender (id : Z) (o : Json.object) (v : InsertRating.t) :
  insertRatingSchema_parse (Json.set "fromUserId" (Json.Num id) o) = Some v ->
  InsertRating.fromUserId v = id.
Proof.
  unfold insertRatingSchema_parse, Zod.int at 1. rewrite get_set_same.
  destruct (Zod.int _ "toUserId"); [|discriminate].
  destruct (Zod.int_opt _ "jobId"); [|discriminate].
  destruct (Zod.int _ "rating"); [|discriminate].
  destruct (Zod.str_opt _ "review"); [|discriminate].
  intros E. injection E as <-. reflexivity.
Qed.

Lemma store_rating_run (validatedData : InsertRating.t) (now : Z) (w : World) :
  DatabaseStorage.accepts_rating (storage w) validatedData = true ->
  status (fst (Routes.store_rating validatedData now w)) = 201
  /\ DatabaseStorage.ratings (storage (snd (Routes.store_rating validatedData now w)))
     = DatabaseStorage.ratings (storage w)
       ++ [Rating.mk (DatabaseStorage.ratings_id_seq (storage w))
                     (InsertRating.fromUserId validatedData)
                     (InsertRating.toUserId validatedData)
                     (InsertRating.jobId validatedData)
                     (InsertRating.rating validatedData)
                     (InsertRating.review validatedData) now].
Proof.
  intros Hok.
  unfold Routes.store_rating, Routes.createRating. io_unfold.
  unfold DatabaseStorage.createRating. rewrite Hok. cbv beta iota zeta.
  unfold record. cbv beta iota zeta.
  cbn [storage activeConnections socketUserId readyState journal fst snd].
  match goal with
  | |- context [DatabaseStorage.updateUserRating
                  (snd (DatabaseStorage.updateUserRating ?d1 ?u)) ?u] =>
      pose proof (updateUserRating_ratings d1 u) as H1;
      pose proof (updateUserRating_ratings
                    (snd (DatabaseStorage.updateUserRating d1 u)) u) as H2;
      destruct (DatabaseStorage.updateUserRating
                  (snd (DatabaseStorage.updateUserRating d1 u)) u) as [u3 d3]
  end.
  cbn [fst snd storage status] in *. split; [reflexivity|].
  rewrite H2, H1. reflexivity.
Qed.

(** What POST /api/ratings does, by cases. *)
Lemma post_ratings_cases (req : Request) (now : Z) (w : World) :
  (exists user validatedData,
      req_user req = Some user
      /\ insertRatingSchema_parse
           (Json.set "fromUserId" (Json.Num (User.id user)) (req_body req))
         = Some validatedData
      /\ 1 <= InsertRating.rating validatedData <= 5
      /\ (forall jobId,
             InsertRating.jobId validatedData = Some jobId -> jobId <> 0 ->
             exists job,
               DatabaseStorage.getJob (storage w) jobId = Some job
               /\ Job.status job = JobStatus.COMPLETED
               /\ (User.userType user = UserType.WORKER ->
                   Job.employerId job = InsertRating.toUserId validatedData)
               /\ (User.userType user = UserType.EMPLOYER ->
                   Job.employerId job = User.id user))
      /\ Routes.post_ratings req now w = Routes.store_rating validatedData now w)
  \/ (status (fst (Routes.post_ratings req now w)) <> 201
      /\ snd (Routes.post_ratings req now w) = w).
Proof.
  unfold Routes.post_ratings.
  destruct (req_user req) as [user|]; [|right; split; [discriminate | reflexivity]].
  destruct (insertRatingSchema_parse _) as [validatedData|] eqn:Hparse;
    [|right; split; [discriminate | reflexivity]].
  cbv zeta.
  destruct ((InsertRating.rating validatedData <? 1)
            || (5 <? InsertRating.rating validatedData)) eqn:Evalue;
    [right; split; [discriminate | reflexivity]|].
  apply orb_false_iff in Evalue. destruct Evalue as [Hlo Hhi].
  apply Z.ltb_ge in Hlo, Hhi.
  destruct (InsertRating.jobId validatedData) as [jobId|] eqn:Ejob.
  - destruct (jobId =? 0) eqn:Ezero.
    + apply Z.eqb_eq in Ezero. left. exists user, validatedData.
      split; [reflexivity|]. split; [exact Hparse|]. split; [lia|].
      split; [|reflexivity].
      intros j E Hj. rewrite Ejob in E. injection E as <-. contradiction.
    + io_unfold.
      destruct (DatabaseStorage.getJob (storage w) jobId) as [job|] eqn:Hjob;
        [|right; split; [discriminate | reflexivity]].
      destruct (String.eqb (Job.status job) JobStatus.COMPLETED) eqn:Edone;
        cbn [negb]; cbv beta iota; [|right; split; [discriminate | reflexivity]].
      destruct (String.eqb (User.userType user) "worker"
                && negb (Job.employerId job =? InsertRating.toUserId validatedData))
        eqn:Eworker; [right; split; [discriminate | reflexivity]|].
      destruct (String.eqb (User.userType user) "employer"
                && negb (Job.employerId job =? User.id user))
        eqn:Eemployer; [right; split; [discriminate | reflexivity]|].
      left. exists user, validatedData.
      split; [reflexivity|]. split; [exact Hparse|]. split; [lia|].
      split; [|reflexivity].
      intros j E _. rewrite Ejob in E. injection E as <-. exists job.
      split; [exact Hjob|]. split; [apply String.eqb_eq, Edone|]. split.
      * intros Hw. rewrite Hw in Eworker. simpl in Eworker.
        apply negb_false_iff, Z.eqb_eq in Eworker. exact Eworker.
      * intros He. rewrite He in Eemployer. simpl in Eemployer.
        apply negb_false_iff, Z.eqb_eq in Eemployer. exact Eemployer.
  - left. exists user, validatedData.
    split; [reflexivity|]. split; [exact Hparse|]. split; [lia|].
    split; [|reflexivity]. intros j E. rewrite Ejob in E. discriminate E.
Qed.

(** X9. POST /api/ratings stores a rating only for a value from 1 to 5
    and, when the body names a job, only if the job exists, is completed,
    and is one the requester took part in (a worker rates the job's
    employer, an employer rates on the employer's own job); the rating is
    recorded under the requester's id.  Every other request changes
    nothing.  Without a job id no relation between the two users is
    checked. *)
Theorem post_ratings_checks (req : Request) (now : Z) (w : World) :
  (status (fst (Routes.post_ratings req now w)) = 201 ->
   exists user validatedData rating,
     req_user req = Some user
     /\ insertRatingSchema_parse
          (Json.set "fromUserId" (Json.Num (User.id user)) (req_body req))
        = Some validatedData
     /\ 1 <= InsertRating.rating validatedData <= 5
     /\ (forall jobId,
            InsertRating.jobId validatedData = Some jobId -> jobId <> 0 ->
            exists job,
              DatabaseStorage.getJob (storage w) jobId = Some job
              /\ Job.status job = JobStatus.COMPLETED
              /\ (User.userType user = UserType.WORKER ->
                  Job.employerId job = InsertRating.toUserId validatedData)
              /\ (User.userType user = UserType.EMPLOYER ->
                  Job.employerId job = User.id user))
     /\ DatabaseStorage.ratings (storage (snd (Routes.post_ratings req now w)))
        = DatabaseStorage.ratings (storage w) ++ [rating]
     /\ Rating.fromUserId rating = User.id user
     /\ Rating.toUserId rating = InsertRating.toUserId validatedData
     /\ Rating.rating rating = InsertRating.rating validatedData)
  /\ (status (fst (Routes.post_ratings req now w)) <> 201 ->
      snd (Routes.post_ratings req now w) = w).
Proof.
  destruct (post_ratings_cases req now w)
    as [(user & v & Huser & Hparse & Hvalue & Hjob & Hrun) | [Hnot Hsame]].
  - destruct (DatabaseStorage.accepts_rating (storage w) v) eqn:Hok.
    + split.
      * intros _. exists user, v. eexists.
        split; [exact Huser|]. split; [exact Hparse|]. split; [exact Hvalue|].
        split; [exact Hjob|]. rewrite Hrun.
        split; [apply store_rating_run, Hok|].
        split; [apply (insertRatingSchema_parse_sender _ _ _ Hparse)|].
        split; reflexivity.
      * intros Hnot. rewrite Hrun in Hnot.
        destruct Hnot. apply store_rating_run, Hok.
    + rewrite Hrun, (store_rating_refused _ _ _ Hok).
      split; [intros H; discriminate H | reflexivity].
  - split; [intros H; contradiction | intros _; exact Hsame].
Qed.

(** X10. POST /api/ratings keeps the stored rating values between 1 and
    5. *)
Theorem post_ratings_keeps_values_in_range (req : Request) (now : Z) (w : World) :
  Forall rating_in_range (DatabaseStorage.ratings (storage w)) ->
  Forall rating_in_range
         (DatabaseStorage.ratings (storage (snd (Routes.post_ratings req now w)))).
Proof.
  intros Hrange.
  destruct (post_ratings_cases req now w)
    as [(user & v & _ & _ & Hvalue & _ & Hrun) | [_ Hsame]];
    [|rewrite Hsame; exact Hrange].
  rewrite Hrun.
  destruct (DatabaseStorage.accepts_rating (storage w) v) eqn:Hok;
    [|rewrite (store_rating_refused _ _ _ Hok); exact Hrange].
  rewrite (proj2 (store_rating_run v now w Hok)).
  apply Forall_app. split; [exact Hrange|].
  constructor; [exact Hvalue | constructor].
Qed.

Lemma post_ratings_keeps_values_in_range_sample :
  Forall rating_in_range
         (DatabaseStorage.ratings
            (storage (snd (Routes.post_ratings Sample.rate_request 9000 Sample.world)))).
Proof.
  apply post_ratings_keeps_values_in_range. constructor.
Defined.

(** [MemStorage.updateUserRating] on three ratings of 4, 5 and 5. *)
Lemma MemStorage_updateUserRating_rounded_sample :
  exists updatedUser,
    fst (MemStorage.updateUserRating Sample2.rated_mem 2) = Some updatedUser
    /\ MemStorage.getUser (snd (MemStorage.updateUserRating Sample2.rated_mem 2)) 2
       = Some updatedUser
    /\ rounded_to_one_decimal
         (arithmetic_mean
            (List.map Rating.rating (MemStorage.getUserRatings Sample2.rated_mem 2)))
         (User.rating_value updatedUser).
Proof.
  apply (MemStorage_updateUserRating_rounded Sample2.rated_mem 2 Sample.bob).
  - reflexivity.
  - discriminate.
  - simpl. repeat (constructor; [unfold rating_in_range; simpl; lia|]). constructor.
  - reflexivity.
Defined.

Lemma updateUserRating_storage (d : DatabaseStorage.t) (userId : Z) :
  snd (DatabaseStorage.updateUserRating d userId) = d
  \/ exists n,
      (forall d0, DatabaseStorage.ratings d0 = DatabaseStorage.ratings d ->
                  snd (DatabaseStorage.updateUserRating d0 userId)
                  = DatabaseStorage.set_users
                      (Sql.update_where (fun u => User.id u =? userId)
                                        (User.with_rating n) (DatabaseStorage.users d0)) d0).
Proof.
  unfold DatabaseStorage.updateUserRating, DatabaseStorage.getUserRatings.
  destruct (Nat.eqb (length (Sql.select_where (fun r => Rating.toUserId r =? userId)
                                              (DatabaseStorage.ratings d))) 0) eqn:E.
  - left. reflexivity.
  - right. eexists. intros d0 H0. rewrite H0, E. reflexivity.
Qed.

Lemma with_rating_same (u : User.t) : User.with_rating (User.rating u) u = u.
Proof. destruct u; reflexivity. Qed.

(** X12. [DatabaseStorage.updateUserRating] touches nothing but the
    rating of the user rows with that id: the rows of other users are the
    ones there were, every row is an old row but for its rating, the ids
    are the same, and every other table stays; a second call leaves the
    same rows.  The order of the rows is the engine's and not part of the
    statement. *)
Theorem updateUserRating_only_that_rating (d : DatabaseStorage.t) (userId : Z) :
  let d' := snd (DatabaseStorage.updateUserRating d userId) in
  (forall u, User.id u <> userId ->
             (In u (DatabaseStorage.users d') <-> In u (DatabaseStorage.users d)))
  /\ (forall u', In u' (DatabaseStorage.users d') ->
                 exists u, In u (DatabaseStorage.users d)
                           /\ u' = User.with_rating (User.rating u') u)
  /\ Permutation (List.map User.id (DatabaseStorage.users d'))
                 (List.map User.id (DatabaseStorage.users d))
  /\ DatabaseStorage.set_users (DatabaseStorage.users d) d' = d
  /\ Permutation
       (DatabaseStorage.users (snd (DatabaseStorage.updateUserRating d' userId)))
       (DatabaseStorage.users d')
  /\ DatabaseStorage.set_users
       (DatabaseStorage.users d') (snd (DatabaseStorage.updateUserRating d' userId))
     = d'.
Proof.
  cbv zeta.
  destruct (updateUserRating_storage d userId) as [Hsame | [n Hn]].
  - rewrite !Hsame.
    split; [intros u _; reflexivity|].
    split; [intros u' Hin; exists u'; split; [exact Hin | symmetry; apply with_rating_same]|].
    split; [apply Permutation_refl|].
    split; [destruct d; reflexivity|].
    split; [apply Permutation_refl | destruct d; reflexivity].
  - rewrite (Hn d eq_refl).
    split; [|split; [|split; [|split; [|split]]]].
    + intros u Hid. cbn [DatabaseStorage.set_users DatabaseStorage.users].
      apply update_where_other, Hid.
    + intros u' Hin. cbn [DatabaseStorage.set_users DatabaseStorage.users] in Hin.
      unfold Sql.update_where in Hin. apply in_map_iff in Hin.
      destruct Hin as (u & E & Hin). exists u. split; [exact Hin|].
      destruct (User.id u =? userId); subst u'.
      * destruct u; reflexivity.
      * symmetry. apply with_rating_same.
    + cbn [DatabaseStorage.set_users DatabaseStorage.users].
      unfold Sql.update_where. rewrite map_map.
      rewrite (map_ext _ User.id); [apply Permutation_refl|].
      intros u. destruct (User.id u =? userId); reflexivity.
    + destruct d; reflexivity.
    + rewrite Hn by reflexivity.
      cbn [DatabaseStorage.set_users DatabaseStorage.users].
      rewrite update_where_twice; [apply Permutation_refl | reflexivity | reflexivity].
    + rewrite Hn by reflexivity.
      unfold DatabaseStorage.set_users.
      cbn [DatabaseStorage.users DatabaseStorage.workerProfiles DatabaseStorage.jobs
           DatabaseStorage.applications DatabaseStorage.ratings DatabaseStorage.messages
           DatabaseStorage.notifications DatabaseStorage.applications_id_seq
           DatabaseStorage.ratings_id_seq DatabaseStorage.messages_id_seq
           DatabaseStorage.notifications_id_seq].
      reflexivity.
Qed.

(** ** Deleting a job, further *)

Lemma head_filter_other {A : Type} (key : A -> Z) (id other : Z) (l : list A) :
  other <> id ->
  List.head (List.filter (fun x => key x =? other)
                         (List.filter (fun x => negb (key x =? id)) l))
  = List.head (List.filter (fun x => key x =? other) l).
Proof.
  intros Hne. f_equal. induction l as [|x l IH]; [reflexivity|].
  cbn [List.filter]. destruct (key x =? id) eqn:E1; cbn [negb].
  - apply Z.eqb_eq in E1.
    assert (E2 : (key x =? other) = false) by (apply Z.eqb_neq; lia).
    rewrite E2. exact IH.
  - cbn [List.filter]. destruct (key x =? other); [f_equal|]; exact IH.
Qed.

Lemma filter_filter_other {A : Type} (key : A -> Z) (id other : Z) (l : list A) :
  other <> id ->
  List.filter (fun x => key x =? other) (List.filter (fun x => negb (key x =? id)) l)
  = List.filter (fun x => key x =? other) l.
Proof.
  intros Hne. induction l as [|x l IH]; [reflexivity|].
  cbn [List.filter]. destruct (key x =? id) eqn:E1; cbn [negb].
  - apply Z.eqb_eq in E1.
    assert (E2 : (key x =? other) = false) by (apply Z.eqb_neq; lia).
    rewrite E2. exact IH.
  - cbn [List.filter]. destruct (key x =? other); [f_equal|]; exact IH.
Qed.

Lemma filter_twice {A : Type} (p : A -> bool) (l : list A) :
  List.filter p (List.filter p l) = List.filter p l.
Proof.
  induction l as [|x l IH]; [reflexivity|].
  cbn [List.filter]. destruct (p x) eqn:E; [|exact IH].
  cbn [List.filter]. rewrite E. f_equal. exact IH.
Qed.

Lemma MemStorage_jobs_fold (l : list Application.t) (s : MemStorage.t) :
  MemStorage.jobs
    (List.fold_left
       (fun st application =>
          MemStorage.set_applications
            (JsMap.delete (Application.id application) (MemStorage.applications st)) st)
       l s)
  = MemStorage.jobs s.
Proof.
  revert s. induction l as [|a l IH]; intros s; simpl; [reflexivity|].
  rewrite IH. reflexivity.
Qed.

Lemma JsMap_get_delete_same {V : Type} (k : Z) (m : JsMap.t V) :
  JsMap.get k (JsMap.delete k m) = None.
Proof.
  unfold JsMap.delete. induction m as [|[k' v] m IH]; [reflexivity|].
  cbn [List.filter fst]. destruct (k =? k') eqn:E; cbn [negb]; [exact IH|].
  cbn [JsMap.get]. rewrite E. exact IH.
Qed.

Lemma JsMap_get_delete_other {V : Type} (k other : Z) (m : JsMap.t V) :
  other <> k -> JsMap.get other (JsMap.delete k m) = JsMap.get other m.
Proof.
  intros Hne. unfold JsMap.delete. induction m as [|[k' v] m IH]; [reflexivity|].
  cbn [List.filter fst JsMap.get]. destruct (k =? k') eqn:E; cbn [negb].
  - apply Z.eqb_eq in E. subst k'.
    assert (E2 : (other =? k) = false) by (apply Z.eqb_neq; exact Hne).
    rewrite E2. exact IH.
  - cbn [JsMap.get]. destruct (other =? k'); [reflexivity | exact IH].
Qed.

Lemma fold_delete_filter (l : list Application.t) (m : JsMap.t Application.t) :
  List.fold_left (fun m a => JsMap.delete (Application.id a) m) l m
  = List.filter
      (fun kv => List.forallb (fun a => negb (Application.id a =? fst kv)) l) m.
Proof.
  revert m. induction l as [|a l IH]; intros m; cbn [List.fold_left List.forallb].
  - induction m as [|kv m IHm]; [reflexivity|]. cbn [List.filter]. f_equal. exact IHm.
  - rewrite IH. unfold JsMap.delete.
    induction m as [|kv m IHm]; [reflexivity|].
    cbn [List.filter]. destruct (Application.id a =? fst kv); cbn [negb andb].
    + exact IHm.
    + cbn [List.filter]. destruct (List.forallb _ l); [f_equal|]; exact IHm.
Qed.

Lemma filter_values_kept {V : Type} (p : V -> bool) (q : Z * V -> bool) (m : JsMap.t V) :
  Forall (fun kv => p (snd kv) = true -> q kv = true) m ->
  List.filter p (JsMap.values (List.filter q m)) = List.filter p (JsMap.values m).
Proof.
  unfold JsMap.values. induction 1 as [|kv m Hkv _ IH]; [reflexivity|].
  cbn [List.filter List.map]. destruct (q kv) eqn:Eq.
  - cbn [List.map List.filter]. destruct (p (snd kv)); [f_equal|]; exact IH.
  - destruct (p (snd kv)); [|exact IH]. specialize (Hkv eq_refl). discriminate Hkv.
Qed.

Lemma NoDup_keys_same {V : Type} (m : JsMap.t V) (k : Z) (v v' : V) :
  List.NoDup (List.map fst m) -> In (k, v) m -> In (k, v') m -> v = v'.
Proof.
  induction m as [|[k0 v0] m IH]; intros Hnd H1 H2; [destruct H1|].
  cbn [List.map fst] in Hnd. inversion Hnd as [|? ? Hnotin Hnd']; subst.
  destruct H1 as [E1|H1], H2 as [E2|H2].
  - congruence.
  - injection E1 as -> ->. destruct Hnotin.
    apply in_map_iff. exists (k, v'). split; [reflexivity | exact H2].
  - injection E2 as -> ->. destruct Hnotin.
    apply in_map_iff. exists (k, v). split; [reflexivity | exact H1].
  - apply IH; assumption.
Qed.

Lemma deleteJob_unrated (d : DatabaseStorage.t) (id : Z) :
  DatabaseStorage.rated d id = false ->
  DatabaseStorage.deleteJob d id
  = DatabaseStorage.set_jobs
      (Sql.delete_where (fun j => Job.id j =? id) (DatabaseStorage.jobs d))
      (DatabaseStorage.set_applications
         (Sql.delete_where (fun a => Application.jobId a =? id)
                           (DatabaseStorage.applications d)) d).
Proof.
  intros Hno. unfold DatabaseStorage.deleteJob. cbv zeta.
  change (DatabaseStorage.rated (DatabaseStorage.set_applications _ d) id)
    with (DatabaseStorage.rated d id).
  rewrite Hno. reflexivity.
Qed.

Lemma deleteJob_rated (d : DatabaseStorage.t) (id : Z) :
  DatabaseStorage.rated d id = true ->
  DatabaseStorage.deleteJob d id
  = DatabaseStorage.set_applications
      (Sql.delete_where (fun a => Application.jobId a =? id)
                        (DatabaseStorage.applications d)) d.
Proof.
  intros Hyes. unfold DatabaseStorage.deleteJob. cbv zeta.
  change (DatabaseStorage.rated (DatabaseStorage.set_applications _ d) id)
    with (DatabaseStorage.rated d id).
  rewrite Hyes. reflexivity.
Qed.

Lemma getJob_after_deleteJob (d : DatabaseStorage.t) (id : Z) :
  DatabaseStorage.rated d id = false ->
  DatabaseStorage.getJob (DatabaseStorage.deleteJob d id) id = None.
Proof.
  intros Hno. rewrite (deleteJob_unrated d id Hno).
  unfold DatabaseStorage.getJob, Sql.select_where.
  cbn [DatabaseStorage.set_jobs DatabaseStorage.set_applications DatabaseStorage.jobs].
  rewrite (filter_after_delete_where (fun j => Job.id j =? id)). reflexivity.
Qed.

(** X13. [deleteJob(id)], for an id of the column's range, removes that
    job and nothing of other jobs.  In the relational store, when no
    rating names the job: the job is no longer found, every other job is
    found as before, the applications of every other job are listed as
    before, the other tables are not touched and a second deletion
    changes nothing.  When a rating names the job, the engine refuses to
    delete it: the job stays as it is and its applications are gone.  In
    the in-memory store (whose applications map has one entry per key,
    filed under the row's id) the job is no longer found and the other
    jobs and their applications are as before. *)
Theorem deleteJob_keeps_other_jobs
  (d : DatabaseStorage.t) (s : MemStorage.t) (id : Z) :
  Sql.int4 id = true ->
  keyed_by_id s ->
  List.NoDup (List.map fst (MemStorage.applications s)) ->
  (DatabaseStorage.rated d id = false ->
   DatabaseStorage.getJob (DatabaseStorage.deleteJob d id) id = None
   /\ (forall other, other <> id ->
         DatabaseStorage.getJob (DatabaseStorage.deleteJob d id) other
         = DatabaseStorage.getJob d other
         /\ DatabaseStorage.getJobApplications (DatabaseStorage.deleteJob d id) other
            = DatabaseStorage.getJobApplications d other)
   /\ DatabaseStorage.set_jobs (DatabaseStorage.jobs d)
        (DatabaseStorage.set_applications (DatabaseStorage.applications d)
           (DatabaseStorage.deleteJob d id)) = d
   /\ DatabaseStorage.deleteJob (DatabaseStorage.deleteJob d id) id
      = DatabaseStorage.deleteJob d id)
  /\ (DatabaseStorage.rated d id = true ->
      DatabaseStorage.getJob (DatabaseStorage.deleteJob d id) id
      = DatabaseStorage.getJob d id
      /\ DatabaseStorage.getJobApplications (DatabaseStorage.deleteJob d id) id = []
      /\ DatabaseStorage.set_applications (DatabaseStorage.applications d)
           (DatabaseStorage.deleteJob d id) = d)
  /\ (MemStorage.getJob (MemStorage.deleteJob s id) id = None
      /\ forall other, other <> id ->
           MemStorage.getJob (MemStorage.deleteJob s id) other = MemStorage.getJob s other
           /\ MemStorage.getJobApplications (MemStorage.deleteJob s id) other
              = MemStorage.getJobApplications s other).
Proof.
  intros _ Hkeys Hnodup. split; [|split; [|split]].
  - intros Hno. split; [apply getJob_after_deleteJob, Hno|].
    rewrite (deleteJob_unrated d id Hno). split; [|split].
    + intros other Hne. split.
      * unfold DatabaseStorage.getJob, Sql.select_where, Sql.delete_where.
        cbn [DatabaseStorage.set_jobs DatabaseStorage.set_applications
             DatabaseStorage.jobs].
        apply (head_filter_other Job.id id other _ Hne).
      * unfold DatabaseStorage.getJobApplications, Sql.select_where, Sql.delete_where.
        cbn [DatabaseStorage.set_jobs DatabaseStorage.set_applications
             DatabaseStorage.applications].
        apply (filter_filter_other Application.jobId id other _ Hne).
    + destruct d; reflexivity.
    + assert (Hno' : DatabaseStorage.rated
                       (DatabaseStorage.set_jobs
                          (Sql.delete_where (fun j => Job.id j =? id)
                                            (DatabaseStorage.jobs d))
                          (DatabaseStorage.set_applications
                             (Sql.delete_where (fun a => Application.jobId a =? id)
                                               (DatabaseStorage.applications d)) d)) id
                     = false) by exact Hno.
      rewrite (deleteJob_unrated _ id Hno').
      unfold Sql.delete_where, DatabaseStorage.set_jobs, DatabaseStorage.set_applications.
      cbn [DatabaseStorage.jobs DatabaseStorage.applications DatabaseStorage.users
           DatabaseStorage.workerProfiles DatabaseStorage.ratings DatabaseStorage.messages
           DatabaseStorage.notifications DatabaseStorage.applications_id_seq
           DatabaseStorage.ratings_id_seq DatabaseStorage.messages_id_seq
           DatabaseStorage.notifications_id_seq].
      rewrite !filter_twice. reflexivity.
  - intros Hyes. rewrite (deleteJob_rated d id Hyes). split; [reflexivity|]. split.
    + unfold DatabaseStorage.getJobApplications, Sql.select_where.
      cbn [DatabaseStorage.set_applications DatabaseStorage.applications].
      apply (filter_after_delete_where (fun a => Application.jobId a =? id)).
    + destruct d; reflexivity.
  - unfold MemStorage.getJob, MemStorage.deleteJob. cbv zeta.
    rewrite MemStorage_jobs_fold. cbn [MemStorage.set_jobs MemStorage.jobs].
    apply JsMap_get_delete_same.
  - intros other Hne. split.
    + unfold MemStorage.getJob, MemStorage.deleteJob. cbv zeta.
      rewrite MemStorage_jobs_fold. cbn [MemStorage.set_jobs MemStorage.jobs].
      apply JsMap_get_delete_other, Hne.
    + unfold MemStorage.getJobApplications.
      unfold MemStorage.deleteJob. cbv zeta.
      rewrite MemStorage_applications_fold, fold_delete_filter.
      cbn [MemStorage.set_jobs MemStorage.applications].
      apply filter_values_kept.
      apply List.Forall_forall. intros [k a] Hin Hjob. cbn [fst snd] in *.
      apply Z.eqb_eq in Hjob.
      apply forallb_forall. intros a' Ha'.
      apply negb_true_iff, Z.eqb_neq. intros Eid.
      unfold MemStorage.getJobApplications in Ha'. apply filter_In in Ha'.
      destruct Ha' as [Ha' Hjob']. apply Z.eqb_eq in Hjob'.
      cbn [MemStorage.set_jobs MemStorage.applications] in Ha'.
      unfold JsMap.values in Ha'. apply in_map_iff in Ha'.
      destruct Ha' as [[k' a''] [E Hin']]. cbn [snd] in E. subst a''.
      unfold keyed_by_id in Hkeys. rewrite List.Forall_forall in Hkeys.
      pose proof (Hkeys _ Hin) as K1. pose proof (Hkeys _ Hin') as K2.
      cbn [fst snd] in K1, K2.
      assert (Ek : k' = k) by lia. rewrite Ek in Hin'.
      pose proof (NoDup_keys_same _ _ _ _ Hnodup Hin Hin') as Esame.
      rewrite Esame in Hjob. lia.
Qed.

Lemma deleteJob_keeps_other_jobs_sample :
  DatabaseStorage.getJob (DatabaseStorage.deleteJob Sample.db 12) 12 = None
  /\ (forall other, other <> 12 ->
        DatabaseStorage.getJob (DatabaseStorage.deleteJob Sample.db 12) other
        = DatabaseStorage.getJob Sample.db other
        /\ DatabaseStorage.getJobApplications (DatabaseStorage.deleteJob Sample.db 12) other
           = DatabaseStorage.getJobApplications Sample.db other)
  /\ DatabaseStorage.set_jobs (DatabaseStorage.jobs Sample.db)
       (DatabaseStorage.set_applications (DatabaseStorage.applications Sample.db)
          (DatabaseStorage.deleteJob Sample.db 12)) = Sample.db
  /\ DatabaseStorage.deleteJob (DatabaseStorage.deleteJob Sample.db 12) 12
     = DatabaseStorage.deleteJob Sample.db 12.
Proof.
  refine (proj1 (deleteJob_keeps_other_jobs Sample.db Sample.mem 12 _ _ _) _).
  - reflexivity.
  - repeat (constructor; [reflexivity|]). constructor.
  - vm_compute. repeat (constructor; [simpl; intuition discriminate|]). constructor.
  - reflexivity.
Defined.

(** X14. DELETE /api/jobs/:id deletes a job only for the employer who
    owns it.  With 204 the requester is the job's employer, no rating
    names the job, and the job and its applications are gone.  The store
    changes for no request but the owner's; every answer other than 204
    and 500 leaves the server as it was.  For the owner of a job that a
    rating names the answer is 500: the job stays and its applications
    are gone.  Nothing is sent to anyone, the applicants included. *)
Theorem delete_jobs_id_owner_only (req : Request) (w : World) :
  (Routes.code (fst (Routes.delete_jobs_id req w)) = 204 ->
   exists user jobId job,
     req_user req = Some user
     /\ JsGlobal.parseInt (param req "id") = Some jobId
     /\ DatabaseStorage.getJob (storage w) jobId = Some job
     /\ Job.employerId job = User.id user
     /\ DatabaseStorage.rated (storage w) jobId = false
     /\ storage (snd (Routes.delete_jobs_id req w))
        = DatabaseStorage.deleteJob (storage w) jobId
     /\ DatabaseStorage.getJob (storage (snd (Routes.delete_jobs_id req w))) jobId = None
     /\ DatabaseStorage.getJobApplications
          (storage (snd (Routes.delete_jobs_id req w))) jobId = [])
  /\ (snd (Routes.delete_jobs_id req w) <> w ->
      exists user jobId job,
        req_user req = Some user
        /\ JsGlobal.parseInt (param req "id") = Some jobId
        /\ DatabaseStorage.getJob (storage w) jobId = Some job
        /\ Job.employerId job = User.id user
        /\ storage (snd (Routes.delete_jobs_id req w))
           = DatabaseStorage.deleteJob (storage w) jobId)
  /\ (Routes.code (fst (Routes.delete_jobs_id req w)) <> 204 ->
      Routes.code (fst (Routes.delete_jobs_id req w)) <> 500 ->
      snd (Routes.delete_jobs_id req w) = w)
  /\ (forall user jobId job,
        req_user req = Some user ->
        JsGlobal.parseInt (param req "id") = Some jobId ->
        Sql.int4 jobId = true ->
        DatabaseStorage.getJob (storage w) jobId = Some job ->
        Job.employerId job = User.id user ->
        DatabaseStorage.rated (storage w) jobId = true ->
        Routes.code (fst (Routes.delete_jobs_id req w)) = 500
        /\ DatabaseStorage.getJob (storage (snd (Routes.delete_jobs_id req w))) jobId
           = Some job
        /\ DatabaseStorage.getJobApplications
             (storage (snd (Routes.delete_jobs_id req w))) jobId = [])
  /\ journal (snd (Routes.delete_jobs_id req w)) = journal w
  /\ activeConnections (snd (Routes.delete_jobs_id req w)) = activeConnections w.
Proof.
  assert (Happs : forall d jobId,
             DatabaseStorage.getJobApplications (DatabaseStorage.deleteJob d jobId) jobId
             = []).
  { intros d jobId.
    unfold DatabaseStorage.getJobApplications, DatabaseStorage.deleteJob,
      Sql.select_where. cbv zeta.
    destruct (DatabaseStorage.rated _ jobId); simpl;
      apply (filter_after_delete_where (fun a => Application.jobId a =? jobId)). }
  unfold Routes.delete_jobs_id.
  destruct (req_user req) as [user|];
    [|split; [discriminate|]; split; [intros H; destruct H; reflexivity|];
      split; [reflexivity|]; split; [discriminate|]; split; reflexivity].
  destruct (JsGlobal.parseInt (param req "id")) as [jobId|];
    [|split; [discriminate|]; split; [intros H; destruct H; reflexivity|];
      split; [reflexivity|]; split; [discriminate|]; split; reflexivity].
  destruct (Sql.int4 jobId) eqn:Erange; cbn [negb];
    [|split; [discriminate|]; split; [intros H; destruct H; reflexivity|];
      split; [reflexivity|];
      split; [intros u j jb _ E Hr; injection E as <-; rewrite Erange in Hr;
              discriminate Hr|];
      split; reflexivity].
  io_unfold.
  destruct (DatabaseStorage.getJob (storage w) jobId) as [job|] eqn:Hjob;
    [|split; [discriminate|]; split; [intros H; destruct H; reflexivity|];
      split; [reflexivity|]; split; [intros u j jb _ E _ Hj; injection E as <-;
                                      rewrite Hjob in Hj; discriminate Hj|];
      split; reflexivity].
  destruct (Job.employerId job =? User.id user) eqn:Eown; cbn [negb]; cbv beta iota;
    [|split; [discriminate|]; split; [intros H; destruct H; reflexivity|];
      split; [reflexivity|];
      split; [intros u j jb E1 E2 _ Hj Hown; injection E1 as <-; injection E2 as <-;
              rewrite Hjob in Hj; injection Hj as <-;
              apply Z.eqb_neq in Eown; contradiction|];
      split; reflexivity].
  apply Z.eqb_eq in Eown.
  destruct (DatabaseStorage.rated (storage w) jobId) eqn:Erated;
    cbn [fst snd storage journal activeConnections Routes.code].
  - split; [discriminate|]. split.
    { intros _. exists user, jobId, job. repeat split; first [reflexivity | assumption]. }
    split; [intros _ H; destruct H; reflexivity|]. split; [|split; reflexivity].
    intros u j jb E1 E2 _ Hj _ _. injection E1 as <-. injection E2 as <-.
    rewrite Hjob in Hj. injection Hj as <-.
    split; [reflexivity|]. split; [|apply Happs].
    rewrite (deleteJob_rated _ _ Erated). exact Hjob.
  - split.
    { intros _. exists user, jobId, job.
      split; [reflexivity|]. split; [reflexivity|]. split; [exact Hjob|].
      split; [exact Eown|]. split; [exact Erated|]. split; [reflexivity|].
      split; [apply getJob_after_deleteJob, Erated | apply Happs]. }
    split.
    { intros _. exists user, jobId, job. repeat split; first [reflexivity | assumption]. }
    split; [intros H; destruct H; reflexivity|]. split; [|split; reflexivity].
    intros u j jb _ E2 _ _ _ Hr. injection E2 as <-.
    rewrite Erated in Hr. discriminate Hr.
Qed.

(** Bob deletes his finished job; Alice's application for it goes with
    it and her other one stays. *)
Example delete_jobs_id_finished_job :
  Routes.code (fst (Routes.delete_jobs_id Sample2.delete_request Sample.world)) = 204
  /\ DatabaseStorage.applications
       (storage (snd (Routes.delete_jobs_id Sample2.delete_request Sample.world)))
     = List.filter (fun a => negb (Application.jobId a =? 12))
                   (DatabaseStorage.applications Sample.db).
Proof.
  split; reflexivity.
Qed.

(** ** Read flags *)

Lemma sort_map {A B : Type} (compareA : A -> A -> Z) (compareB : B -> B -> Z)
               (f : A -> B) (l : list A) :
  (forall a b, compareB (f a) (f b) = compareA a b) ->
  JsArray.sort compareB (List.map f l) = List.map f (JsArray.sort compareA l).
Proof.
  intros Hcompare. induction l as [|x l IH]; [reflexivity|].
  cbn [List.map JsArray.sort List.fold_right].
  change (List.fold_right (JsArray.insert compareB) [] (List.map f l))
    with (JsArray.sort compareB (List.map f l)).
  change (List.fold_right (JsArray.insert compareA) [] l)
    with (JsArray.sort compareA l).
  rewrite IH. generalize (JsArray.sort compareA l). intros sorted.
  induction sorted as [|y sorted IHs]; [reflexivity|].
  cbn [List.map JsArray.insert]. rewrite Hcompare.
  destruct (compareA x y <=? 0); [reflexivity|].
  cbn [List.map]. f_equal. exact IHs.
Qed.

Lemma update_where_none {A : Type} (p : A -> bool) (f : A -> A) (l : list A) :
  List.filter p l = [] -> Sql.update_where p f l = l.
Proof.
  unfold Sql.update_where. induction l as [|x l IH]; [reflexivity|].
  cbn [List.filter List.map]. destruct (p x); [discriminate|].
  intros H. f_equal. apply IH, H.
Qed.

Lemma filter_nil_iff {A : Type} (p : A -> bool) (l : list A) :
  List.filter p l = [] <-> forall x, In x l -> p x = false.
Proof.
  induction l as [|x l IH]; cbn [List.filter].
  - split; [intros _ x [] | reflexivity].
  - destruct (p x) eqn:E.
    + split; [discriminate|]. intros H.
      rewrite (H x (or_introl eq_refl)) in E. discriminate E.
    + rewrite IH. split.
      * intros H y [<-|Hy]; [exact E | apply H, Hy].
      * intros H y Hy. apply H. right. exact Hy.
Qed.

Lemma markMessageAsRead_absent (d : DatabaseStorage.t) (id : Z) :
  fst (DatabaseStorage.markMessageAsRead d id) = None ->
  snd (DatabaseStorage.markMessageAsRead d id) = d.
Proof.
  unfold DatabaseStorage.markMessageAsRead, Sql.select_where. cbv zeta. cbn [fst snd].
  intros H.
  destruct (List.filter (fun m => Message.id m =? id) (DatabaseStorage.messages d))
    as [|m0 rest] eqn:E; [|discriminate H].
  rewrite (update_where_none _ _ _ E). destruct d; reflexivity.
Qed.

Lemma markMessageAsRead_flagged (d : DatabaseStorage.t) (id : Z) (m : Message.t) :
  fst (DatabaseStorage.markMessageAsRead d id) = Some m ->
  Message.id m = id /\ Message.isRead m = true
  /\ In m (DatabaseStorage.messages (snd (DatabaseStorage.markMessageAsRead d id))).
Proof.
  unfold DatabaseStorage.markMessageAsRead, Sql.select_where. cbv zeta. cbn [fst snd].
  intros Hm.
  destruct (List.filter (fun m => Message.id m =? id) (DatabaseStorage.messages d))
    as [|m0 rest] eqn:E; [discriminate Hm|].
  cbn [List.map List.head] in Hm. injection Hm as <-.
  assert (Hin : In m0 (List.filter (fun m => Message.id m =? id)
                                   (DatabaseStorage.messages d)))
    by (rewrite E; left; reflexivity).
  apply filter_In in Hin. destruct Hin as [Hin Hm0].
  split; [apply Z.eqb_eq, Hm0|]. split; [reflexivity|].
  cbn [DatabaseStorage.set_messages DatabaseStorage.messages].
  unfold Sql.update_where. apply in_map_iff. exists m0.
  rewrite Hm0. split; [reflexivity | exact Hin].
Qed.

(** [markMessageAsRead] with the rows kept in their places. *)
Lemma markMessageAsRead_in_place (d : DatabaseStorage.t) (id : Z) :
  let answer := fst (DatabaseStorage.markMessageAsRead d id) in
  let d' := snd (DatabaseStorage.markMessageAsRead d id) in
  (answer = None <-> forall m, In m (DatabaseStorage.messages d) -> Message.id m <> id)
  /\ (answer = None -> d' = d)
  /\ (forall m, answer = Some m ->
        Message.id m = id /\ Message.isRead m = true
        /\ In m (DatabaseStorage.messages d'))
  /\ List.map message_text (DatabaseStorage.messages d')
     = List.map message_text (DatabaseStorage.messages d)
  /\ (forall m, In m (DatabaseStorage.messages d') -> Message.id m = id ->
        Message.isRead m = true)
  /\ (forall m, Message.id m <> id ->
        (In m (DatabaseStorage.messages d') <-> In m (DatabaseStorage.messages d)))
  /\ (forall userA userB,
        List.map message_text (DatabaseStorage.getConversation d' userA userB)
        = List.map message_text (DatabaseStorage.getConversation d userA userB))
  /\ snd (DatabaseStorage.markMessageAsRead d' id) = d'
  /\ DatabaseStorage.set_messages (DatabaseStorage.messages d) d' = d.
Proof.
  cbv zeta. unfold DatabaseStorage.markMessageAsRead. cbv zeta. cbn [fst snd].
  set (hit := fun m : Message.t => Message.id m =? id).
  set (read := fun m : Message.t =>
                 Message.mk (Message.id m) (Message.fromUserId m) (Message.toUserId m)
                            (Message.content m) true (Message.createdAt m)).
  assert (Hhit : forall m, hit (read m) = hit m) by reflexivity.
  assert (Hread : forall m, read (read m) = read m) by reflexivity.
  assert (Hnone : List.head (List.map read (Sql.select_where hit (DatabaseStorage.messages d)))
                  = None
                  <-> List.filter hit (DatabaseStorage.messages d) = []).
  { unfold Sql.select_where.
    destruct (List.filter hit (DatabaseStorage.messages d)); cbn [List.map List.head];
      split; intros H; first [reflexivity | discriminate H]. }
  split; [|split; [|split; [|split; [|split; [|split; [|split; [|split]]]]]]].
  - rewrite Hnone, filter_nil_iff. unfold hit.
    split; intros H m Hm; specialize (H m Hm).
    + apply Z.eqb_neq, H.
    + apply Z.eqb_neq, H.
  - apply (markMessageAsRead_absent d id).
  - apply (markMessageAsRead_flagged d id).
  - cbn [DatabaseStorage.set_messages DatabaseStorage.messages].
    unfold Sql.update_where. rewrite map_map. apply map_ext.
    intros m. destruct (hit m); reflexivity.
  - cbn [DatabaseStorage.set_messages DatabaseStorage.messages].
    unfold Sql.update_where. intros m Hm Hid. apply in_map_iff in Hm.
    destruct Hm as [m0 [E _]]. destruct (hit m0) eqn:E0.
    + subst m. reflexivity.
    + subst m0. unfold hit in E0. apply Z.eqb_neq in E0. contradiction.
  - cbn [DatabaseStorage.set_messages DatabaseStorage.messages].
    unfold Sql.update_where. intros m Hid. rewrite in_map_iff. split.
    + intros [m0 [E Hin]]. destruct (hit m0) eqn:E0.
      * subst m. unfold hit in E0. apply Z.eqb_eq in E0. contradiction.
      * subst m0. exact Hin.
    + intros Hin. exists m. split; [|exact Hin].
      assert (E0 : hit m = false) by (apply Z.eqb_neq, Hid). rewrite E0. reflexivity.
  - intros userA userB.
    unfold DatabaseStorage.getConversation, Sql.order_by_desc, Sql.select_where.
    cbn [DatabaseStorage.set_messages DatabaseStorage.messages].
    unfold Sql.update_where.
    rewrite filter_map_same
      by (intros m; destruct (hit m); reflexivity).
    rewrite (sort_map (fun a b => Message.createdAt b - Message.createdAt a))
      by (intros a b; destruct (hit a), (hit b); reflexivity).
    rewrite map_map. apply map_ext. intros m. destruct (hit m); reflexivity.
  - unfold DatabaseStorage.set_messages.
    cbn [DatabaseStorage.users DatabaseStorage.workerProfiles DatabaseStorage.jobs
         DatabaseStorage.applications DatabaseStorage.ratings DatabaseStorage.messages
         DatabaseStorage.notifications DatabaseStorage.applications_id_seq
         DatabaseStorage.ratings_id_seq DatabaseStorage.messages_id_seq
         DatabaseStorage.notifications_id_seq].
    rewrite (update_where_twice hit read _ Hhit Hread). reflexivity.
  - destruct d; reflexivity.
Qed.

(** X15. [DatabaseStorage.markMessageAsRead(id)], for an id of the
    column's range, changes nothing but read flags:
    the answer is undefined exactly when no message has the id
    (and then the store stays as it is), and otherwise it is a message
    with that id, flagged as read and stored; the messages are the same
    in id, sender, recipient, text and time; the messages with another
    id are the ones there were; every conversation lists the same
    messages, newest first; a second call leaves the same messages.  The
    order of rows and of messages of one time is the engine's and not
    part of the statement. *)
Theorem markMessageAsRead_only_the_flag (d : DatabaseStorage.t) (id : Z) :
  Sql.int4 id = true ->
  let answer := fst (DatabaseStorage.markMessageAsRead d id) in
  let d' := snd (DatabaseStorage.markMessageAsRead d id) in
  (answer = None <-> forall m, In m (DatabaseStorage.messages d) -> Message.id m <> id)
  /\ (answer = None -> d' = d)
  /\ (forall m, answer = Some m ->
        Message.id m = id /\ Message.isRead m = true
        /\ In m (DatabaseStorage.messages d'))
  /\ Permutation (List.map message_text (DatabaseStorage.messages d'))
                 (List.map message_text (DatabaseStorage.messages d))
  /\ (forall m, In m (DatabaseStorage.messages d') -> Message.id m = id ->
        Message.isRead m = true)
  /\ (forall m, Message.id m <> id ->
        (In m (DatabaseStorage.messages d') <-> In m (DatabaseStorage.messages d)))
  /\ (forall userA userB,
        StronglySorted newest_first (DatabaseStorage.getConversation d' userA userB)
        /\ Permutation
             (List.map message_text (DatabaseStorage.getConversation d' userA userB))
             (List.map message_text (DatabaseStorage.getConversation d userA userB)))
  /\ Permutation
       (DatabaseStorage.messages (snd (DatabaseStorage.markMessageAsRead d' id)))
       (DatabaseStorage.messages d')
  /\ DatabaseStorage.set_messages (DatabaseStorage.messages d) d' = d.
Proof.
  intros _.
  cbv zeta.
  destruct (markMessageAsRead_in_place d id)
    as (H1 & H2 & H3 & H4 & H5 & H6 & H7 & H8 & H9).
  split; [exact H1|]. split; [exact H2|]. split; [exact H3|].
  split; [rewrite H4; apply Permutation_refl|].
  split; [exact H5|]. split; [exact H6|].
  split; [|split; [rewrite H8; apply Permutation_refl | exact H9]].
  intros userA userB. split; [|rewrite H7; apply Permutation_refl].
  unfold DatabaseStorage.getConversation, Sql.order_by_desc.
  pose proof (sort_sorted (fun a b => Message.createdAt b - Message.createdAt a)
                          (fun m => - Message.createdAt m)) as H.
  eapply StronglySorted_weaken; [|apply H; intros; lia].
  unfold newest_first. intros a0 b0 Hab. simpl in Hab. lia.
Qed.

Lemma markMessageAsRead_only_the_flag_sample :
  DatabaseStorage.set_messages
    (DatabaseStorage.messages Sample.db)
    (snd (DatabaseStorage.markMessageAsRead Sample.db 1))
  = Sample.db.
Proof.
  destruct (markMessageAsRead_only_the_flag Sample.db 1 eq_refl)
    as (_ & _ & _ & _ & _ & _ & _ & _ & Hrest).
  exact Hrest.
Defined.

(** X16. PUT /api/messages/:id/read marks a message as read for any
    signed-in user: the answer and the resulting state do not depend on
    who asks, the recipient or not.  With 200 the payload is the message
    of that id, flagged as read; every other answer leaves the server as
    it was. *)
Theorem put_messages_id_read_any_user (req : Request) (w : World) :
  (forall user user',
      req_user req = Some user ->
      Routes.put_messages_id_read (mkRequest (Some user') (req_params req) (req_body req)) w
      = Routes.put_messages_id_read req w)
  /\ (Routes.code (fst (Routes.put_messages_id_read req w)) = 200 ->
      exists messageId updatedMessage,
        JsGlobal.parseInt (param req "id") = Some messageId
        /\ Routes.content (fst (Routes.put_messages_id_read req w)) = inr updatedMessage
        /\ Message.id updatedMessage = messageId
        /\ Message.isRead updatedMessage = true
        /\ In updatedMessage
              (DatabaseStorage.messages (storage (snd (Routes.put_messages_id_read req w))))
        /\ storage (snd (Routes.put_messages_id_read req w))
           = snd (DatabaseStorage.markMessageAsRead (storage w) messageId))
  /\ (Routes.code (fst (Routes.put_messages_id_read req w)) <> 200 ->
      snd (Routes.put_messages_id_read req w) = w)
  /\ journal (snd (Routes.put_messages_id_read req w)) = journal w.
Proof.
  split; [|split; [|split]].
  - intros user user' Huser. unfold Routes.put_messages_id_read, param.
    rewrite Huser. reflexivity.
  - unfold Routes.put_messages_id_read.
    destruct (req_user req) as [user|]; [|discriminate].
    destruct (JsGlobal.parseInt (param req "id")) as [messageId|]; [|discriminate].
    io_unfold.
    pose proof (markMessageAsRead_flagged (storage w) messageId) as Hflag.
    destruct (DatabaseStorage.markMessageAsRead (storage w) messageId)
      as [[updatedMessage|] d'] eqn:E; cbv beta iota; [|discriminate].
    intros _. exists messageId, updatedMessage.
    destruct (Hflag updatedMessage eq_refl) as (H1 & H2 & H3).
    cbn [fst snd] in H3.
    cbn [fst snd storage Routes.code Routes.content].
    repeat split; try first [reflexivity | assumption].
    rewrite E. reflexivity.
  - unfold Routes.put_messages_id_read.
    destruct (req_user req) as [user|]; [|reflexivity].
    destruct (JsGlobal.parseInt (param req "id")) as [messageId|]; [|reflexivity].
    io_unfold.
    pose proof (markMessageAsRead_absent (storage w) messageId) as Habsent.
    destruct (DatabaseStorage.markMessageAsRead (storage w) messageId)
      as [[updatedMessage|] d'] eqn:E; cbv beta iota.
    + intros H. destruct H. reflexivity.
    + intros _. cbn [fst snd] in Habsent. rewrite (Habsent eq_refl).
      destruct w; reflexivity.
  - unfold Routes.put_messages_id_read.
    destruct (req_user req) as [user|]; [|reflexivity].
    destruct (JsGlobal.parseInt (param req "id")) as [messageId|]; [|reflexivity].
    io_unfold.
    destruct (DatabaseStorage.markMessageAsRead (storage w) messageId)
      as [[updatedMessage|] d'] eqn:E; reflexivity.
Qed.

(** ** Listing messages *)

Lemma getUserMessages_In (d : DatabaseStorage.t) (userId : Z) (m : Message.t) :
  In m (DatabaseStorage.getUserMessages d userId)
  <-> In m (DatabaseStorage.messages d) /\ involves userId m.
Proof.
  unfold DatabaseStorage.getUserMessages, Sql.order_by_desc, Sql.select_where.
  rewrite sort_In, filter_In, touches_involves. reflexivity.
Qed.

Lemma getConversation_In (d : DatabaseStorage.t) (userA userB : Z) (m : Message.t) :
  In m (DatabaseStorage.getConversation d userA userB)
  <-> In m (DatabaseStorage.messages d) /\ between userA userB m.
Proof.
  unfold DatabaseStorage.getConversation, Sql.order_by_desc, Sql.select_where.
  rewrite sort_In, filter_In, in_conversation_between. reflexivity.
Qed.

(** X17. GET /api/messages is a read: it leaves the server as it is,
    answers 401 to a request that is not signed in, and whatever list it
    returns holds stored messages that the requester sent or received,
    whatever [userId] the query names.  A [userId] that is absent, empty,
    not a number or 0 gives all of the requester's messages; any other
    gives the conversation with that user when it is a value of the id
    column, and 500 when it is not. *)
Theorem get_messages_own_messages_only
  (req : Request) (userId : option string) (w : World) :
  snd (Routes.get_messages req userId w) = w
  /\ (req_user req = None ->
      Routes.code (fst (Routes.get_messages req userId w)) = 401)
  /\ (forall user messages,
        req_user req = Some user ->
        Routes.content (fst (Routes.get_messages req userId w)) = inr messages ->
        forall m, In m messages ->
                  In m (DatabaseStorage.messages (storage w))
                  /\ involves (User.id user) m)
  /\ (forall user,
        req_user req = Some user ->
        userId = None \/ userId = Some EmptyString
        \/ (exists text, userId = Some text
                         /\ (JsGlobal.parseInt text = None
                             \/ JsGlobal.parseInt text = Some 0)) ->
        fst (Routes.get_messages req userId w)
        = Routes.reply 200
            (inr (DatabaseStorage.getUserMessages (storage w) (User.id user))))
  /\ (forall user text other,
        req_user req = Some user ->
        userId = Some text -> text <> EmptyString ->
        JsGlobal.parseInt text = Some other -> other <> 0 ->
        fst (Routes.get_messages req userId w)
        = if Sql.int4 other
          then Routes.reply 200
                 (inr (DatabaseStorage.getConversation (storage w) (User.id user) other))
          else Routes.reply 500 (inl "Failed to retrieve messages")).
Proof.
  unfold Routes.get_messages.
  destruct (req_user req) as [user|];
    [|split; [reflexivity|]; split; [reflexivity|];
      split; [discriminate|]; split; discriminate].
  assert (Hall : forall m,
    In m (DatabaseStorage.getUserMessages (storage w) (User.id user)) ->
    In m (DatabaseStorage.messages (storage w)) /\ involves (User.id user) m)
    by (intros m; apply getUserMessages_In).
  assert (Hpair : forall other m,
    In m (DatabaseStorage.getConversation (storage w) (User.id user) other) ->
    In m (DatabaseStorage.messages (storage w)) /\ involves (User.id user) m).
  { intros other m Hm. apply getConversation_In in Hm. destruct Hm as [Hm Hb].
    split; [exact Hm | eapply between_involves, Hb]. }
  cbv zeta. io_unfold.
  destruct userId as [text|];
    [destruct (String.eqb text EmptyString) eqn:Etext;
     [|destruct (JsGlobal.parseInt text) as [other|] eqn:Eparse;
       [destruct (other =? 0) eqn:Ezero;
        [|destruct (Sql.int4 other) eqn:Erange]|]]|];
    cbn [negb]; cbv beta iota;
    (split; [reflexivity|]); (split; [discriminate|]).
  - (* the empty text *)
    apply String.eqb_eq in Etext.
    split; [intros u ms E1 E2; injection E1 as <-; injection E2 as <-; exact Hall|].
    split; [intros u E1 _; injection E1 as <-; reflexivity|].
    intros u t o _ E Hne. injection E as <-. contradiction.
  - (* the number 0 *)
    apply Z.eqb_eq in Ezero.
    split; [intros u ms E1 E2; injection E1 as <-; injection E2 as <-; exact Hall|].
    split; [intros u E1 _; injection E1 as <-; reflexivity|].
    intros u t o _ E _ Hp Hne. injection E as <-.
    rewrite Eparse in Hp. injection Hp as <-. contradiction.
  - (* another user, an id of the column *)
    apply Z.eqb_neq in Ezero. apply String.eqb_neq in Etext.
    split; [intros u ms E1 E2; injection E1 as <-; injection E2 as <-; apply Hpair|].
    split.
    + intros u _ [E|[E|(t & E & [Hp|Hp])]]; try discriminate E; congruence.
    + intros u t o E1 E _ Hp _. injection E1 as <-. injection E as <-.
      rewrite Eparse in Hp. injection Hp as <-. rewrite Erange. reflexivity.
  - (* another user, no id of the column *)
    apply Z.eqb_neq in Ezero. apply String.eqb_neq in Etext.
    split; [intros u ms _ E2; discriminate E2|].
    split.
    + intros u _ [E|[E|(t & E & [Hp|Hp])]]; try discriminate E; congruence.
    + intros u t o E1 E _ Hp _. injection E1 as <-. injection E as <-.
      rewrite Eparse in Hp. injection Hp as <-. rewrite Erange. reflexivity.
  - (* not a number *)
    split; [intros u ms E1 E2; injection E1 as <-; injection E2 as <-; exact Hall|].
    split; [intros u E1 _; injection E1 as <-; reflexivity|].
    intros u t o _ E _ Hp. injection E as <-. rewrite Eparse in Hp. discriminate Hp.
  - (* no userId *)
    split; [intros u ms E1 E2; injection E1 as <-; injection E2 as <-; exact Hall|].
    split; [intros u E1 _; injection E1 as <-; reflexivity|].
    intros u t o _ E. discriminate E.
Qed.

(** ** An employer's applications *)

(** X18. [getEmployerApplications] lists exactly the applications for the
    jobs of that employer, in the relational store and in the in-memory
    store. *)
Theorem getEmployerApplications_for_own_jobs
  (d : DatabaseStorage.t) (s : MemStorage.t) (employerId : Z) (a : Application.t) :
  (In a (DatabaseStorage.getEmployerApplications d employerId)
   <-> In a (DatabaseStorage.applications d)
       /\ exists job, In job (DatabaseStorage.jobs d)
                      /\ Job.employerId job = employerId
                      /\ Job.id job = Application.jobId a)
  /\ (In a (MemStorage.getEmployerApplications s employerId)
      <-> In a (JsMap.values (MemStorage.applications s))
          /\ exists job, In job (JsMap.values (MemStorage.jobs s))
                         /\ Job.employerId job = employerId
                         /\ Job.id job = Application.jobId a).
Proof.
  split.
  - unfold DatabaseStorage.getEmployerApplications, DatabaseStorage.getEmployerJobs,
      Sql.select_where. cbv zeta.
    assert (Hflat :
      In a (List.flat_map
              (fun job => List.filter (fun a => Application.jobId a =? Job.id job)
                                      (DatabaseStorage.applications d))
              (List.filter (fun j => Job.employerId j =? employerId)
                           (DatabaseStorage.jobs d)))
      <-> In a (DatabaseStorage.applications d)
          /\ exists job, In job (DatabaseStorage.jobs d)
                         /\ Job.employerId job = employerId
                         /\ Job.id job = Application.jobId a).
    { rewrite in_flat_map. split.
      - intros (job & Hjob & Ha). apply filter_In in Hjob, Ha.
        destruct Hjob as [Hjob He], Ha as [Ha Hid].
        apply Z.eqb_eq in He, Hid.
        split; [exact Ha|]. exists job. repeat split; [exact Hjob | exact He | lia].
      - intros (Ha & job & Hjob & He & Hid). exists job.
        split; apply filter_In; split; try assumption; apply Z.eqb_eq; lia. }
    destruct (List.filter (fun j => Job.employerId j =? employerId)
                          (DatabaseStorage.jobs d)) as [|job0 rest] eqn:E.
    + cbn [length Nat.eqb]. rewrite <- Hflat. reflexivity.
    + cbn [length Nat.eqb]. exact Hflat.
  - unfold MemStorage.getEmployerApplications, MemStorage.getEmployerJobs. cbv zeta.
    rewrite filter_In, existsb_exists. split.
    + intros (Ha & jobId & Hid & E). apply Z.eqb_eq in E.
      apply in_map_iff in Hid. destruct Hid as (job & Hid & Hjob).
      apply filter_In in Hjob. destruct Hjob as [Hjob He]. apply Z.eqb_eq in He.
      split; [exact Ha|]. exists job. repeat split; [exact Hjob | exact He | lia].
    + intros (Ha & job & Hjob & He & Hid). split; [exact Ha|].
      exists (Job.id job). split; [|apply Z.eqb_eq; lia].
      apply in_map_iff. exists job. split; [reflexivity|].
      apply filter_In. split; [exact Hjob | apply Z.eqb_eq, He].
Qed.

(** ** Notifications *)

(** X19. [getUserNotifications] lists the notifications addressed to the
    user, newest first; and a message posted through POST /api/messages
    by a sender who is a user adds, when the recipient is a user too, one
    unread notification to the recipient's list, which points at the new
    message, and leaves every other user's list as it was.  When the
    recipient is no user the insert is refused and the store stays as it
    was. *)
Theorem post_messages_notifies_the_recipient_only
  (req : Request) (now : Z) (w : World)
  (user : User.t) (validatedData : InsertMessage.t) :
  req_user req = Some user ->
  insertMessageSchema_parse
    (Json.set "fromUserId" (Json.Num (User.id user)) (req_body req))
  = Some validatedData ->
  DatabaseStorage.references_user (storage w) (User.id user) = true ->
  let d := storage w in
  let d' := storage (snd (Routes.post_messages req now w)) in
  let recipient := InsertMessage.toUserId validatedData in
  (forall userId,
      StronglySorted (fun a b => Notification.createdAt b <= Notification.createdAt a)
                     (DatabaseStorage.getUserNotifications d' userId)
      /\ forall n, In n (DatabaseStorage.getUserNotifications d' userId)
                   <-> In n (DatabaseStorage.notifications d')
                       /\ Notification.userId n = userId)
  /\ (forall userId, userId <> recipient ->
        DatabaseStorage.getUserNotifications d' userId
        = DatabaseStorage.getUserNotifications d userId)
  /\ (DatabaseStorage.references_user d recipient = true ->
      exists notification,
        Notification.relatedId notification
        = Some (DatabaseStorage.messages_id_seq d)
        /\ Notification.isRead notification = false
        /\ Notification.createdAt notification = now
        /\ In notification (DatabaseStorage.getUserNotifications d' recipient)
        /\ Permutation (DatabaseStorage.getUserNotifications d' recipient)
                       (notification :: DatabaseStorage.getUserNotifications d recipient))
  /\ (DatabaseStorage.references_user d recipient = false ->
      Routes.post_messages req now w
      = (json 500 (message_body "Failed to send message"), w)).
Proof.
  intros Huser Hparse Hsender. cbv zeta.
  rewrite (post_messages_run req now w user validatedData Huser Hparse), Hsender.
  cbn [andb].
  unfold DatabaseStorage.getUserNotifications, Sql.order_by_desc, Sql.select_where.
  split; [|split; [|split]].
  - intros userId. split.
    + pose proof (sort_sorted
                    (fun a b => Notification.createdAt b - Notification.createdAt a)
                    (fun n => - Notification.createdAt n)) as H.
      eapply StronglySorted_weaken; [|apply H; intros; lia].
      intros a b Hab. simpl in Hab. lia.
    + intros n. rewrite sort_In, filter_In, Z.eqb_eq. reflexivity.
  - intros userId Hne.
    destruct (DatabaseStorage.references_user
                (storage w) (InsertMessage.toUserId validatedData));
      [|reflexivity].
    cbv zeta. cbn [snd storage DatabaseStorage.notifications].
    rewrite List.filter_app. cbn [List.filter Notification.userId].
    assert (E : (InsertMessage.toUserId validatedData =? userId) = false)
      by (apply Z.eqb_neq; intros E; apply Hne; symmetry; exact E).
    rewrite E, app_nil_r. reflexivity.
  - intros Hto. rewrite Hto.
    cbv zeta. cbn [snd storage DatabaseStorage.notifications Message.id].
    rewrite List.filter_app. cbn [List.filter Notification.userId].
    rewrite Z.eqb_refl.
    eexists. split; [|split; [|split; [|split]]].
    4: { apply sort_In, in_or_app. right. left. reflexivity. }
    1-3: reflexivity.
    eapply Permutation_trans; [apply sort_Permutation|].
    eapply Permutation_trans; [apply Permutation_app_comm|].
    cbn [app]. apply perm_skip, Permutation_sym, sort_Permutation.
  - intros Hto. rewrite Hto. reflexivity.
Qed.

Lemma post_messages_notifies_the_recipient_only_sample :
  DatabaseStorage.getUserNotifications
    (storage (snd (Routes.post_messages Sample.message_request 5000 Sample.world))) 3
  = DatabaseStorage.getUserNotifications (storage Sample.world) 3.
Proof.
  refine (proj1 (proj2 (post_messages_notifies_the_recipient_only
                          Sample.message_request 5000 Sample.world Sample.alice
                          (InsertMessage.mk 1 2 "hello") _ _ _)) 3 _);
    [reflexivity | reflexivity | reflexivity | discriminate].
Defined.

(** ** The registry of live channels *)

Lemma registered_after_authenticate (ws : WebSocket.t) (userId other : Z) (w : World) :
  registered (snd (ws_authenticate ws userId w)) other
  = if other =? userId then registered w userId ++ [ws] else registered w other.
Proof.
  unfold ws_authenticate, registered. cbn [snd activeConnections].
  destruct (other =? userId) eqn:E.
  - apply Z.eqb_eq in E. subst other. rewrite lookup_insert_eq. reflexivity.
  - apply Z.eqb_neq in E. rewrite lookup_insert_ne by (intros H; apply E; symmetry; exact H).
    reflexivity.
Qed.

Lemma registered_after_close (ws : WebSocket.t) (other : Z) (w : World) :
  registered (snd (ws_on_close ws w)) other
  = match socketUserId w !! ws with
    | Some userId =>
        if (userId =? 0) || negb (other =? userId) then registered w other
        else remove_first ws (registered w userId)
    | None => registered w other
    end.
Proof.
  unfold ws_on_close.
  destruct (socketUserId w !! ws) as [userId|]; [|reflexivity].
  destruct (userId =? 0); [reflexivity|]. cbn [orb].
  unfold registered at 3.
  destruct (activeConnections w !! userId) as [userConnections|] eqn:Econns.
  - cbv zeta. cbn [snd]. unfold registered. cbn [activeConnections].
    destruct (other =? userId) eqn:E; cbn [negb].
    + apply Z.eqb_eq in E. subst other.
      destruct (remove_first ws userConnections) as [|c rest] eqn:Erest;
        cbn [length Nat.eqb].
      * rewrite lookup_delete_eq. reflexivity.
      * rewrite lookup_insert_eq. reflexivity.
    + apply Z.eqb_neq in E.
      destruct (length (remove_first ws userConnections) =? 0)%nat.
      * rewrite lookup_delete_ne by (intros H; apply E; symmetry; exact H). reflexivity.
      * rewrite lookup_insert_ne by (intros H; apply E; symmetry; exact H). reflexivity.
  - cbn [snd]. destruct (other =? userId) eqn:E; cbn [negb]; [|reflexivity].
    apply Z.eqb_eq in E. subst other. unfold registered. rewrite Econns. reflexivity.
Qed.

Lemma remove_first_last (ws : WebSocket.t) (l : list WebSocket.t) :
  ~ In ws l -> remove_first ws (l ++ [ws]) = l.
Proof.
  induction l as [|c l IH]; intros Hnot; cbn [app remove_first].
  - rewrite Nat.eqb_refl. reflexivity.
  - destruct (c =? ws)%nat eqn:E.
    + apply Nat.eqb_eq in E. destruct Hnot. left. exact E.
    + f_equal. apply IH. intros H. apply Hnot. right. exact H.
Qed.

Lemma remove_first_twice (ws : WebSocket.t) (l : list WebSocket.t) :
  In ws (remove_first ws ((l ++ [ws]) ++ [ws])).
Proof.
  induction l as [|c l IH]; cbn [app remove_first].
  - rewrite Nat.eqb_refl. left. reflexivity.
  - destruct (c =? ws)%nat.
    + apply in_or_app. right. left. reflexivity.
    + right. exact IH.
Qed.

(** X20. A socket that authenticates for a user and then closes leaves
    the registry of live channels as it found it: every user has the
    channels registered before, and the store and the journal are not
    touched.  This holds for a user id other than 0 and a socket not
    registered for the user before. *)
Theorem ws_close_undoes_authenticate (ws : WebSocket.t) (userId : Z) (w : World) :
  userId <> 0 ->
  ~ In ws (registered w userId) ->
  let w' := snd (ws_on_close ws (snd (ws_authenticate ws userId w))) in
  (forall other, registered w' other = registered w other)
  /\ storage w' = storage w
  /\ journal w' = journal w
  /\ (forall conn, readyState w' conn = readyState w conn).
Proof.
  intros Hnonzero Hfresh. cbv zeta. split; [|split; [|split]].
  - intros other. rewrite registered_after_close.
    assert (Hsock : socketUserId (snd (ws_authenticate ws userId w)) !! ws = Some userId)
      by (unfold ws_authenticate; cbn [snd socketUserId]; apply lookup_insert_eq).
    rewrite Hsock.
    assert (E0 : (userId =? 0) = false) by (apply Z.eqb_neq, Hnonzero).
    rewrite E0. cbn [orb]. rewrite !registered_after_authenticate.
    rewrite Z.eqb_refl.
    destruct (other =? userId) eqn:E; cbn [negb]; [|reflexivity].
    apply Z.eqb_eq in E. subst other. apply remove_first_last, Hfresh.
  - unfold ws_on_close, ws_authenticate. cbn [snd socketUserId activeConnections storage].
    rewrite !lookup_insert_eq.
    destruct (userId =? 0); [reflexivity|].
    cbv zeta. destruct (length _ =? 0)%nat; reflexivity.
  - unfold ws_on_close, ws_authenticate. cbn [snd socketUserId activeConnections journal].
    rewrite !lookup_insert_eq.
    destruct (userId =? 0); [reflexivity|].
    cbv zeta. destruct (length _ =? 0)%nat; reflexivity.
  - intros conn.
    unfold ws_on_close, ws_authenticate. cbn [snd socketUserId activeConnections readyState].
    rewrite !lookup_insert_eq.
    destruct (userId =? 0); [reflexivity|].
    cbv zeta. destruct (length _ =? 0)%nat; reflexivity.
Qed.

Lemma ws_close_undoes_authenticate_sample :
  (forall other,
      registered (snd (ws_on_close 3%nat Sample2.connected_world)) other
      = registered Sample.world other)
  /\ storage (snd (ws_on_close 3%nat Sample2.connected_world)) = storage Sample.world
  /\ journal (snd (ws_on_close 3%nat Sample2.connected_world)) = journal Sample.world
  /\ (forall conn,
        readyState (snd (ws_on_close 3%nat Sample2.connected_world)) conn
        = readyState Sample.world conn).
Proof.
  apply (ws_close_undoes_authenticate 3%nat 1 Sample.world).
  - discriminate.
  - intros [].
Defined.

(** X21. The close handler takes a socket out of one list only, and once:
    a socket that sent two [authenticate] frames, for the same user or
    for two users, is still registered for the first user after it has
    closed. *)
Theorem ws_second_authenticate_outlives_close
  (ws : WebSocket.t) (first second : Z) (w : World) :
  In ws (registered
           (snd (ws_on_close ws
                   (snd (ws_authenticate ws second
                           (snd (ws_authenticate ws first w))))))
           first).
Proof.
  rewrite registered_after_close.
  assert (Hsock : socketUserId (snd (ws_authenticate ws second
                                       (snd (ws_authenticate ws first w)))) !! ws
                  = Some second)
    by (unfold ws_authenticate; cbn [snd socketUserId]; apply lookup_insert_eq).
  rewrite Hsock. rewrite !registered_after_authenticate. rewrite Z.eqb_refl.
  destruct (first =? second) eqn:E.
  - apply Z.eqb_eq in E. subst second. rewrite Z.eqb_refl. cbn [negb].
    rewrite orb_false_r.
    destruct (first =? 0).
    + apply in_or_app. right. left. reflexivity.
    + apply remove_first_twice.
  - cbn [negb]. rewrite orb_true_r.
    apply in_or_app. right. left. reflexivity.
Qed.

(** ** Message frames *)

(** The delivery loop with [send] written out. *)
Lemma forEach_sent (notification : Json.object) (l : list WebSocket.t) (w : World) :
  forEach l
    (fun conn w' =>
       if WebSocket.is_open (readyState w' conn)
       then (tt, mkWorld (storage w') (activeConnections w') (socketUserId w')
                         (readyState w') (journal w' ++ [Sent conn notification]))
       else (tt, w')) w
  = (tt, mkWorld (storage w) (activeConnections w) (socketUserId w) (readyState w)
                 (journal w
                  ++ List.map (fun conn => Sent conn notification)
                       (List.filter (fun conn => WebSocket.is_open (readyState w conn)) l))).
Proof.
  exact (forEach_send notification l w).
Qed.

(** X22. A [message] frame on the socket is acted on only when the socket
    has authenticated with a user id other than 0, and names a recipient
    other than 0 and a text other than the empty one; otherwise nothing
    happens, and no error frame is sent either.  When acted on and both
    the sender and the recipient are users, the message is stored under
    the user the socket authenticated for, unread, then the recipient's
    notification, then the sender's socket gets [message_sent], then each
    open channel of the recipient gets [new_message], in order of
    registration.  When one of the two is no user, the insert is refused:
    nothing is stored and nothing is sent. *)
Theorem ws_message_frame_stores_then_notifies
  (ws : WebSocket.t) (toUserId : Z) (content : string) (fromUsername : option string)
  (now : Z) (w : World) :
  let w' := snd (ws_on_message ws (SendMessage toUserId content fromUsername) now w) in
  (forall userId,
      socketUserId w !! ws = Some userId ->
      userId <> 0 -> toUserId <> 0 -> content <> EmptyString ->
      DatabaseStorage.references_user (storage w) userId = true ->
      DatabaseStorage.references_user (storage w) toUserId = true ->
      let message :=
        Message.mk (DatabaseStorage.messages_id_seq (storage w))
                   userId toUserId content false now in
      DatabaseStorage.messages (storage w')
      = DatabaseStorage.messages (storage w) ++ [message]
      /\ (exists notification,
            DatabaseStorage.notifications (storage w')
            = DatabaseStorage.notifications (storage w) ++ [notification]
            /\ Notification.id notification
               = DatabaseStorage.notifications_id_seq (storage w)
            /\ Notification.userId notification = toUserId
            /\ Notification.relatedId notification = Some (Message.id message)
            /\ Notification.isRead notification = false)
      /\ journal w'
         = journal w
           ++ [Stored "messages" (Message.id message);
               Stored "notifications" (DatabaseStorage.notifications_id_seq (storage w));
               Sent ws [("type", Json.Str "message_sent");
                        ("messageId", Json.Num (Message.id message))]]
           ++ List.map
                (fun conn =>
                   Sent conn [("type", Json.Str "new_message");
                              ("fromUserId", Json.Num userId);
                              ("messageId", Json.Num (Message.id message))])
                (List.filter (fun conn => WebSocket.is_open (readyState w conn))
                             (registered w toUserId))
      /\ activeConnections w' = activeConnections w)
  /\ (forall userId,
        socketUserId w !! ws = Some userId ->
        DatabaseStorage.references_user (storage w) userId = false
        \/ DatabaseStorage.references_user (storage w) toUserId = false ->
        w' = w)
  /\ (socketUserId w !! ws = None \/ socketUserId w !! ws = Some 0
      \/ toUserId = 0 \/ content = EmptyString ->
      w' = w).
Proof.
  cbv zeta. unfold ws_on_message. split; [|split].
  - intros userId Hsock Huser Hto Hcontent Hfrom Hrecipient. rewrite Hsock.
    assert (E1 : (userId =? 0) = false) by (apply Z.eqb_neq, Huser).
    assert (E2 : (toUserId =? 0) = false) by (apply Z.eqb_neq, Hto).
    assert (E3 : String.eqb content EmptyString = false)
      by (apply String.eqb_neq, Hcontent).
    rewrite E1, E2, E3. cbn [orb].
    unfold Routes.createMessage, Routes.createNotification.
    io_unfold. unfold record.
    unfold DatabaseStorage.createMessage.
    cbn [InsertMessage.fromUserId InsertMessage.toUserId InsertMessage.content].
    rewrite Hfrom, Hrecipient. cbv beta iota zeta. cbn [andb fst snd storage].
    unfold DatabaseStorage.createNotification.
    cbn [InsertNotification.userId InsertNotification.title InsertNotification.content
         InsertNotification.type InsertNotification.relatedId].
    change (DatabaseStorage.references_user
              (DatabaseStorage.mk _ _ _ _ _ _ _ _ _ _ _) toUserId)
      with (DatabaseStorage.references_user (storage w) toUserId).
    rewrite Hrecipient. unfold Sql.insert. cbv beta iota zeta.
    cbn [storage activeConnections socketUserId readyState journal fst snd
         DatabaseStorage.messages DatabaseStorage.notifications
         DatabaseStorage.messages_id_seq DatabaseStorage.notifications_id_seq
         Message.id Notification.id].
    fold (registered w toUserId).
    destruct (activeConnections w !! toUserId) as [recipientConnections|] eqn:Econns.
    + assert (Hreg : registered w toUserId = recipientConnections)
        by (unfold registered; rewrite Econns; reflexivity).
      destruct (0 <? length recipientConnections)%nat eqn:Elen.
      * rewrite forEach_sent.
        cbn [storage activeConnections socketUserId readyState journal fst snd
             DatabaseStorage.messages DatabaseStorage.notifications].
        rewrite Hreg.
        split; [reflexivity|]. split.
        { eexists. split; [reflexivity|]. repeat split. }
        split; [|reflexivity].
        rewrite <- !app_assoc. reflexivity.
      * destruct recipientConnections; [|discriminate Elen].
        cbn [storage activeConnections socketUserId readyState journal fst snd
             DatabaseStorage.messages DatabaseStorage.notifications].
        rewrite Hreg.
        split; [reflexivity|]. split.
        { eexists. split; [reflexivity|]. repeat split. }
        split; [|reflexivity].
        cbn [List.filter List.map]. rewrite <- !app_assoc. reflexivity.
    + assert (Hreg : registered w toUserId = [])
        by (unfold registered; rewrite Econns; reflexivity).
      cbn [storage activeConnections socketUserId readyState journal fst snd
           DatabaseStorage.messages DatabaseStorage.notifications].
      rewrite Hreg.
      split; [reflexivity|]. split.
      { eexists. split; [reflexivity|]. repeat split. }
      split; [|reflexivity].
      cbn [List.filter List.map]. rewrite <- !app_assoc. reflexivity.
  - intros userId Hsock Hrefused. rewrite Hsock.
    destruct ((userId =? 0) || (toUserId =? 0) || String.eqb content EmptyString);
      [reflexivity|].
    unfold Routes.createMessage.
    io_unfold. unfold record.
    unfold DatabaseStorage.createMessage.
    cbn [InsertMessage.fromUserId InsertMessage.toUserId InsertMessage.content].
    assert (E : DatabaseStorage.references_user (storage w) userId
                && DatabaseStorage.references_user (storage w) toUserId = false).
    { destruct Hrefused as [H|H]; rewrite H;
        [reflexivity | apply andb_false_r]. }
    rewrite E. reflexivity.
  - intros H. destruct (socketUserId w !! ws) as [userId|]; [|reflexivity].
    destruct H as [H|[H|[H|H]]].
    + discriminate H.
    + injection H as ->. reflexivity.
    + subst toUserId. rewrite orb_true_r. reflexivity.
    + subst content. rewrite orb_true_r. reflexivity.
Qed.

(** Alice, connected, writes to herself: the frame comes back on her own
    socket after the acknowledgement. *)
Example ws_message_frame_to_oneself :
  journal (snd (ws_on_message 3%nat (SendMessage 1 "note" None) 7000
                              Sample2.connected_world))
  = [Stored "messages" 3; Stored "notifications" 1;
     Sent 3%nat [("type", Json.Str "message_sent"); ("messageId", Json.Num 3)];
     Sent 3%nat [("type", Json.Str "new_message"); ("fromUserId", Json.Num 1);
                 ("messageId", Json.Num 3)]].
Proof.
  vm_compute. reflexivity.
Qed.

(** ** Creating a job *)

(** X23. [DatabaseStorage.createJob] throws exactly when the employer
    does not exist, and then stores nothing.  Otherwise it appends one
    row for that employer whose status is one of the four job statuses
    (the given one when that is one of them, [open] otherwise), whose
    skills are a list (the empty one when none is given) and whose hourly
    rate is never 0; and the new job is found by its id when that id was
    not in use. *)
Theorem createJob_stores_a_valid_job
  (d : DatabaseStorage.t) (job : InsertJob.t) (id now : Z) :
  (DatabaseStorage.createJob d job id now = None
   <-> DatabaseStorage.getUser d (InsertJob.employerId job) = None)
  /\ (forall newJob d',
        DatabaseStorage.createJob d job id now = Some (newJob, d') ->
        DatabaseStorage.jobs d' = DatabaseStorage.jobs d ++ [newJob]
        /\ DatabaseStorage.set_jobs (DatabaseStorage.jobs d) d' = d
        /\ Job.id newJob = id
        /\ Job.employerId newJob = InsertJob.employerId job
        /\ Job.createdAt newJob = now
        /\ DatabaseStorage.valid_job_status (Job.status newJob) = true
        /\ (forall status,
              InsertJob.status job = Some status ->
              Job.status newJob
              = if DatabaseStorage.valid_job_status status then status
                else JobStatus.OPEN)
        /\ (InsertJob.status job = None -> Job.status newJob = JobStatus.OPEN)
        /\ (exists skills, Job.skills newJob = Some skills
                           /\ (InsertJob.skills job = None -> skills = []))
        /\ Job.hourlyRate newJob <> Some 0
        /\ ((forall j, In j (DatabaseStorage.jobs d) -> Job.id j <> id) ->
            DatabaseStorage.getJob d' id = Some newJob)
        /\ In newJob (DatabaseStorage.getEmployerJobs d' (InsertJob.employerId job))).
Proof.
  unfold DatabaseStorage.createJob.
  destruct (DatabaseStorage.getUser d (InsertJob.employerId job)) as [employer|].
  - split; [split; discriminate|].
    cbv zeta. intros newJob d' E. injection E as <- <-.
    cbn [DatabaseStorage.set_jobs DatabaseStorage.jobs Job.id Job.employerId
         Job.createdAt Job.status Job.skills Job.hourlyRate].
    unfold Sql.insert.
    split; [reflexivity|]. split; [destruct d; reflexivity|].
    split; [reflexivity|]. split; [reflexivity|]. split; [reflexivity|].
    split; [|split; [|split; [|split; [|split; [|split]]]]].
    + match goal with
      | |- DatabaseStorage.valid_job_status (if ?b then _ else _) = true =>
          destruct b eqn:E; [exact E | reflexivity]
      end.
    + intros status ->. destruct (String.eqb status EmptyString) eqn:E; [|reflexivity].
      apply String.eqb_eq in E. subst status. reflexivity.
    + intros ->. reflexivity.
    + eexists. split; [reflexivity|]. intros ->. reflexivity.
    + destruct (InsertJob.hourlyRate job) as [rate|]; [|discriminate].
      destruct (rate =? 0) eqn:E; [discriminate|].
      apply Z.eqb_neq in E. intros H. injection H as H. contradiction.
    + intros Hfresh. unfold DatabaseStorage.getJob, Sql.select_where.
      cbn [DatabaseStorage.set_jobs DatabaseStorage.jobs].
      rewrite List.filter_app.
      assert (Hnone : List.filter (fun j => Job.id j =? id) (DatabaseStorage.jobs d) = []).
      { apply filter_nil_iff. intros j Hj. apply Z.eqb_neq, Hfresh, Hj. }
      rewrite Hnone. cbn [app List.filter Job.id]. rewrite Z.eqb_refl. reflexivity.
    + unfold DatabaseStorage.getEmployerJobs, Sql.select_where.
      cbn [DatabaseStorage.set_jobs DatabaseStorage.jobs].
      apply filter_In. split; [apply in_or_app; right; left; reflexivity|].
      cbn [Job.employerId]. apply Z.eqb_refl.
  - split; [split; reflexivity|]. intros newJob d' E. discriminate E.
Qed.

(** ** Routing, further *)

(** X24. Every registration of the route table can be reached by some
    request, except the second registration of
    GET /api/jobs/match/:workerId; and a GET for /api/jobs/<x>, <x> not
    empty, is answered by the job handler with <x> as the id, unless <x>
    is [employer] in any mix of upper and lower case, which goes to the
    employer's job list. *)
Theorem every_route_but_one_is_reachable :
  (forall h,
      (exists method path params, Routes.dispatch method path = Some (h, params))
      <-> h <> Routes.jobs_match_checked)
  /\ (forall x,
        x <> EmptyString ->
        Routes.dispatch Routes.GET ["api"; "jobs"; x]
        = if Routes.same_literal "employer" x then Some (Routes.jobs_employer, [])
          else Some (Routes.jobs_by_id, [("id", x)])).
Proof.
  split.
  - intros h. split.
    + intros (method & path & params & E) ->.
      exact (jobs_match_checked_unreachable method path params E).
    + pose (instance := fun pattern : list Routes.Segment =>
              List.map (fun s => match s with
                                 | Routes.Lit text => text
                                 | Routes.Param _ => "1"
                                 end) pattern).
      intros Hne.
      assert (Hfound :
        List.existsb
          (fun route =>
             match Routes.dispatch (fst (fst route)) (instance (snd (fst route))) with
             | Some (h', _) =>
                 match h, h' with
                 | Routes.register, Routes.register
                 | Routes.login, Routes.login
                 | Routes.logout, Routes.logout
                 | Routes.current_user, Routes.current_user
                 | Routes.jobs_all, Routes.jobs_all
                 | Routes.jobs_employer, Routes.jobs_employer
                 | Routes.jobs_match, Routes.jobs_match
                 | Routes.jobs_by_id, Routes.jobs_by_id
                 | Routes.jobs_create, Routes.jobs_create
                 | Routes.jobs_update, Routes.jobs_update
                 | Routes.jobs_delete, Routes.jobs_delete
                 | Routes.applications_list, Routes.applications_list
                 | Routes.applications_create, Routes.applications_create
                 | Routes.applications_update, Routes.applications_update
                 | Routes.ratings_create, Routes.ratings_create
                 | Routes.messages_list, Routes.messages_list
                 | Routes.messages_create, Routes.messages_create
                 | Routes.messages_read, Routes.messages_read
                 | Routes.notifications_list, Routes.notifications_list
                 | Routes.notifications_read, Routes.notifications_read
                 | Routes.workers_all, Routes.workers_all
                 | Routes.workers_by_id, Routes.workers_by_id
                 | Routes.employers_by_id, Routes.employers_by_id
                 | Routes.employer_profile_get, Routes.employer_profile_get
                 | Routes.employer_profile_create, Routes.employer_profile_create
                 | Routes.employer_profile_update, Routes.employer_profile_update
                 | Routes.worker_profile_get, Routes.worker_profile_get
                 | Routes.worker_profile_create, Routes.worker_profile_create
                 | Routes.worker_profile_update, Routes.worker_profile_update => true
                 | _, _ => false
                 end
             | None => false
             end)
          Routes.routes = true).
      { destruct h; first [vm_compute; reflexivity | destruct Hne; reflexivity]. }
      apply existsb_exists in Hfound.
      destruct Hfound as ([[method pattern] h0] & _ & Hrun).
      cbn [fst snd] in Hrun.
      destruct (Routes.dispatch method (instance pattern)) as [[h' params]|] eqn:E;
        [|discriminate Hrun].
      exists method, (instance pattern), params. rewrite E.
      destruct h, h'; first [reflexivity | discriminate Hrun].
  - intros x Hx. unfold Routes.dispatch, Routes.routes, Routes.api.
    assert (Ex : String.eqb x EmptyString = false) by (apply String.eqb_neq, Hx).
    repeat (progress
              (cbn [Routes.dispatch_in Routes.method_eqb Routes.match_path option_map];
               try change (Routes.same_literal "api" "api") with true;
               try change (Routes.same_literal "jobs" "jobs") with true;
               try change (Routes.same_literal "user" "jobs") with false;
               try rewrite Ex;
               cbv beta iota)).
    destruct (Routes.same_literal "employer" x); [reflexivity|].
    destruct (Routes.same_literal "match" x); reflexivity.
Qed.

(** ** Matching, further *)

(** X25. The relational store's matching query interpolates the worker's
    skills as a JavaScript array, which the query builder writes as a
    parenthesised list of parameters.  For a worker whose profile lists no
    skill or more than one, the engine refuses the statement:
    [getMatchedJobsForWorker] throws, and both registrations of
    GET /api/jobs/match/:workerId answer 500 and change nothing.  For a
    profile with one skill the answer hangs on the engine reading that
    text as an array literal: refused when it does not, and otherwise the
    stored jobs that share an element of the literal, in row order. *)
Theorem getMatchedJobsForWorker_refused_for_listed_skills
  (array_in : string -> option (list string))
  (d : DatabaseStorage.t) (workerId : Z)
  (user : User.t) (profile : WorkerProfile.t) (workerSkills : list string) :
  Sql.int4 workerId = true ->
  DatabaseStorage.getWorkerWithProfile d workerId = Some (user, Some profile) ->
  WorkerProfile.skills profile = Some workerSkills ->
  (length workerSkills <> 1%nat ->
   DatabaseStorage.getMatchedJobsForWorker array_in d workerId = None
   /\ forall req w,
        storage w = d ->
        JsGlobal.parseInt (param req "workerId") = Some workerId ->
        Routes.get_jobs_match array_in req w
        = (json 500 (message_body "Failed to retrieve matched jobs"), w)
        /\ Routes.get_jobs_match_checked array_in req w
           = (json 500 (message_body "Failed to retrieve matched jobs"), w))
  /\ (forall skill,
        workerSkills = [skill] ->
        DatabaseStorage.getMatchedJobsForWorker array_in d workerId
        = match array_in skill with
          | None => None
          | Some skills =>
              Some (List.filter
                      (fun job =>
                         match Job.skills job with
                         | Some jobSkills => Sql.overlap jobSkills skills
                         | None => false
                         end)
                      (DatabaseStorage.getAllJobs d))
          end).
Proof.
  intros Hrange Hworker Hskills.
  assert (Hrun : DatabaseStorage.getMatchedJobsForWorker array_in d workerId
                 = match Sql.interpolated_text_array array_in workerSkills with
                   | None => None
                   | Some skills =>
                       Some (List.filter
                               (fun job =>
                                  match Job.skills job with
                                  | Some jobSkills => Sql.overlap jobSkills skills
                                  | None => false
                                  end)
                               (DatabaseStorage.getAllJobs d))
                   end).
  { unfold DatabaseStorage.getMatchedJobsForWorker.
    rewrite Hrange, Hworker, Hskills. reflexivity. }
  split.
  - intros Hlen.
    assert (Hnone : DatabaseStorage.getMatchedJobsForWorker array_in d workerId = None).
    { rewrite Hrun. destruct workerSkills as [|skill [|skill' rest]];
        [reflexivity | destruct Hlen; reflexivity | reflexivity]. }
    split; [exact Hnone|].
    intros req w Hd Hparse.
    unfold Routes.get_jobs_match, Routes.get_jobs_match_checked.
    rewrite Hparse, Hrange. cbn [negb]. io_unfold. subst d.
    rewrite Hworker, Hnone. split; reflexivity.
  - intros skill ->. rewrite Hrun. reflexivity.
Qed.

Lemma getMatchedJobsForWorker_refused_for_listed_skills_sample :
  DatabaseStorage.getMatchedJobsForWorker (fun _ => None) Sample.db 1 = None.
Proof.
  refine (proj1 (proj1 (getMatchedJobsForWorker_refused_for_listed_skills
                          (fun _ => None) Sample.db 1 Sample.alice Sample.alice_profile
                          ["welding"; "forklift"] _ _ _) _));
    [reflexivity | reflexivity | reflexivity | discriminate].
Defined.
